(** * School administration backend: enrolment, capacity and cascade rules

    A shallow embedding of the three managers that own the classroom
    counter and the soft-delete cascade:

    - [StudentManager]   (managers/student/Student.manager.js)
    - [ClassroomManager] (class ClassroomManager)
    - [SchoolManager]    (class SchoolManager)

    together with the pieces of the libraries they call: [toObjectId],
    the [AppError] constructor with its [errorCodes] table, and the
    document-store operations of the MongoDB collections
    ([findOne], [insertOne], [findOneAndUpdate], [updateMany],
    [updateOne], [countDocuments]).

    Every manager method is an [async] function whose awaits are run one
    after the other; the embedding runs one method at a time on a store
    that holds the three collections.  An exception does not undo the
    writes made before it, so the monad keeps the store on both
    outcomes.  The notification sink ([cortex.publish]) and the cache are
    advisory and leave the collections alone; they are not modelled. *)

From Stdlib Require Import String Ascii ZArith NArith List Bool Lia.
Import ListNotations.

Local Open Scope string_scope.
Local Open Scope Z_scope.

(** ** Identifiers

    A manager receives identifiers as JavaScript values.  The routes hand
    over [req.params] and validated bodies, that is strings; the driver
    stores an [_id] as a BSON ObjectId.  MongoDB never equates a string
    with an ObjectId, so both kinds are kept apart. *)

Inductive jsid : Type :=
| IdStr (s : string)      (* a JavaScript string *)
| IdObj (o : N).          (* an ObjectId, as the number its 12 bytes spell *)

Definition hex_digit (c : ascii) : option N :=
  let n := N_of_ascii c in
  if ((48 <=? n) && (n <=? 57))%N then Some (n - 48)%N
  else if ((97 <=? n) && (n <=? 102))%N then Some (n - 87)%N
  else if ((65 <=? n) && (n <=? 70))%N then Some (n - 55)%N
  else None.

Fixpoint parse_hex (s : string) (acc : N) : option N :=
  match s with
  | EmptyString => Some acc
  | String c r =>
      match hex_digit c with
      | Some d => parse_hex r (16 * acc + d)%N
      | None => None
      end
  end.

(** [new ObjectId(s)] for a string: 24 hexadecimal characters. *)
Definition ObjectId_of_string (s : string) : option N :=
  if (String.length s =? 24)%nat then parse_hex s 0%N else None.

Definition hex_char (d : N) : ascii :=
  if (d <? 10)%N then ascii_of_N (48 + d) else ascii_of_N (87 + d).

Fixpoint hex_digits (k : nat) (n : N) (acc : string) : string :=
  match k with
  | O => acc
  | S k' => hex_digits k' (n / 16)%N (String (hex_char (n mod 16)%N) acc)
  end.

(** [ObjectId.prototype.toHexString]: what a client reads in a response
    and sends back in a path or a body. *)
Definition toHexString (o : N) : string := hex_digits 24 o "".

(** JavaScript truthiness of an identifier that may be absent:
    [undefined], [null] and the empty string are falsy. *)
Definition truthy_id (i : option jsid) : bool :=
  match i with
  | None => false
  | Some (IdStr s) => negb (String.eqb s "")
  | Some (IdObj _) => true
  end.

Definition truthy_str (s : option string) : bool :=
  match s with
  | None => false
  | Some s => negb (String.eqb s "")
  end.

(** Equality of a stored field with a query value, as the store decides
    it: same type and same value. *)
Definition jsid_eqb (a b : jsid) : bool :=
  match a, b with
  | IdStr x, IdStr y => String.eqb x y
  | IdObj x, IdObj y => (x =? y)%N
  | _, _ => false
  end.

(** A stored [_id] against a query value. *)
Definition oid_matches (o : N) (q : jsid) : bool := jsid_eqb (IdObj o) q.

(** JavaScript [a !== b] on two identifier values read from different
    places: strings compare by content, objects by reference, and an
    ObjectId read back from the store is a fresh object. *)
Definition strict_neq (a b : option jsid) : bool :=
  match a, b with
  | None, None => false
  | Some (IdStr x), Some (IdStr y) => negb (String.eqb x y)
  | _, _ => true
  end.

(** ** Errors: libs/error/codes.js and libs/error/AppError.js *)

Inductive detail : Type :=
| DStr (s : string)
| DNum (z : Z)
| DId (i : option jsid)
| DList (l : list string).

Inductive js_error : Type :=
| AppError (code : string) (message : string) (status : Z)
           (details : list (string * detail))
| JsError (name : string) (message : string).

Definition error_message (e : js_error) : string :=
  match e with
  | AppError _ m _ _ => m
  | JsError _ m => m
  end.

Definition error_code (e : js_error) : option string :=
  match e with
  | AppError c _ _ _ => Some c
  | JsError _ _ => None
  end.

Definition instanceof_AppError (e : js_error) : bool :=
  match e with
  | AppError _ _ _ _ => true
  | JsError _ _ => false
  end.

(** The default export of codes.js: key, then [code], [message], [status]. *)
Definition errorCodes : list (string * (string * string * Z)) :=
  [ ("AUTH_REQUIRED", ("AUTH_REQUIRED", "Authentication is required", 401));
    ("INVALID_TOKEN", ("INVALID_TOKEN", "Invalid or expired token", 401));
    ("ACCESS_DENIED", ("ACCESS_DENIED",
        "You do not have permission to perform this action", 403));
    ("RESOURCE_NOT_FOUND", ("RESOURCE_NOT_FOUND", "Requested resource not found", 404));
    ("RESOURCE_EXISTS", ("RESOURCE_EXISTS", "Resource already exists", 409));
    ("INVALID_INPUT", ("INVALID_INPUT", "Invalid input data", 400));
    ("CLASSROOM_FULL", ("CLASSROOM_FULL", "Classroom has reached maximum capacity", 422));
    ("INVALID_TRANSFER", ("INVALID_TRANSFER", "Student transfer request is invalid", 422));
    ("SCHOOL_INACTIVE", ("SCHOOL_INACTIVE", "School is not active", 422));
    ("INTERNAL_ERROR", ("INTERNAL_ERROR", "Internal server error occurred", 500));
    ("DATABASE_ERROR", ("DATABASE_ERROR", "Database operation failed", 500));
    ("EXTERNAL_SERVICE_ERROR", ("EXTERNAL_SERVICE_ERROR",
        "External service request failed", 503)) ].

Fixpoint lookup {V : Type} (k : string) (t : list (string * V)) : option V :=
  match t with
  | [] => None
  | (k', v) :: r => if String.eqb k k' then Some v else lookup k r
  end.

(** The value thrown by [throw new AppError(errorCode, details)].  The
    constructor reads [errorCodes[errorCode].message] before anything
    else; for a key the table lacks that read is a TypeError, and the
    TypeError is what gets thrown. *)
Definition new_AppError (errorCode : string) (details : list (string * detail))
  : js_error :=
  match lookup errorCode errorCodes with
  | Some (code, message, status) => AppError code message status details
  | None =>
      JsError "TypeError" "Cannot read properties of undefined (reading 'message')"
  end.

(** [toObjectId] of libs/utils.js. *)
Definition toObjectId (id : jsid) : js_error + N :=
  match id with
  | IdObj o => inr o
  | IdStr s =>
      match ObjectId_of_string s with
      | Some o => inr o
      | None => inl (JsError "Error" "Invalid ID format")
      end
  end.

(** ** Documents *)

Record TransferRecord : Type := {
  tr_fromSchoolId : jsid;
  tr_toSchoolId : jsid;
  tr_date : Z;
  tr_reason : string
}.

(** The fields [deleteSchool] sets on every document it soft-deletes. *)
Record DeleteMeta : Type := {
  deletedAt : option Z;
  deletedBy : option string;
  deletionReason : option string
}.

Definition no_delete_meta : DeleteMeta :=
  {| deletedAt := None; deletedBy := None; deletionReason := None |}.

Module Student.
Record t : Type := {
    _id : N;
    schoolId : jsid;
    classroomId : option jsid;        (* [None]: null or undefined *)
    firstName : string;
    lastName : string;
    email : string;
    grade : Z;
    status : string;
    enrolledAt : Z;
    updatedAt : Z;
    lastTransferDate : option Z;
    lastTransferReason : option string;
    transferHistory : list TransferRecord;
    deactivationReason : option string;
    deactivatedAt : option Z;
    meta : DeleteMeta
  }.
End Student.

Module Classroom.
Record t : Type := {
    _id : N;
    schoolId : jsid;
    name : string;
    capacity : Z;
    resources : option (list string);
    currentStudents : Z;
    status : string;
    createdAt : Z;
    updatedAt : Z;
    meta : DeleteMeta
  }.
End Classroom.

Record Address : Type := {
  street : option string;
  city : option string;
  state : option string;
  zipCode : option string
}.

Record ContactInfo : Type := {
  contact_email : option string;
  contact_phone : option string
}.

Module School.
Record t : Type := {
    _id : N;
    name : string;
    address : option Address;
    contactInfo : option ContactInfo;
    adminId : option jsid;
    status : string;
    studentCount : Z;                 (* metadata.studentCount *)
    classroomCount : Z;               (* metadata.classroomCount *)
    activeTeacherCount : Z;           (* metadata.activeTeacherCount *)
    createdAt : Z;
    updatedAt : Z;
    createdBy : option jsid;
    meta : DeleteMeta
  }.
End School.

(** ** The store and the monad of a manager method *)

Record store : Type := {
  schools : list School.t;
  classrooms : list Classroom.t;
  students : list Student.t;
  next_oid : N                        (* the ObjectId the driver generates next *)
}.

Definition M (A : Type) : Type := store -> (js_error + A) * store.

Definition ret {A : Type} (a : A) : M A := fun s => (inr a, s).

Definition throw {A : Type} (e : js_error) : M A := fun s => (inl e, s).

Definition bind {A B : Type} (m : M A) (k : A -> M B) : M B :=
  fun s =>
    match m s with
    | (inl e, s') => (inl e, s')
    | (inr a, s') => k a s'
    end.

Definition try_catch {A : Type} (body : M A) (handler : js_error -> M A) : M A :=
  fun s =>
    match body s with
    | (inl e, s') => handler e s'
    | (inr a, s') => (inr a, s')
    end.

Definition lift {A : Type} (r : js_error + A) : M A :=
  match r with
  | inl e => throw e
  | inr a => ret a
  end.

Declare Scope js_scope.
Delimit Scope js_scope with js.
Notation "x <- m ;; k" := (bind m (fun x => k))
  (at level 61, m at next level, right associativity) : js_scope.
Notation "m ;;; k" := (bind m (fun _ => k))
  (at level 61, right associativity) : js_scope.
Local Open Scope js_scope.

(** [if (c) { body }] for a body run for its effects only. *)
Definition when (c : bool) (body : M unit) : M unit :=
  if c then body else ret tt.

(** ** Collections *)

Record collection (D : Type) : Type := {
  docs : store -> list D;
  with_docs : list D -> store -> store
}.
Arguments docs {D} _ _.
Arguments with_docs {D} _ _ _.

Definition studentsCollection : collection Student.t :=
  {| docs := students;
     with_docs := fun l s =>
       {| schools := schools s; classrooms := classrooms s;
          students := l; next_oid := next_oid s |} |}.

Definition classroomsCollection : collection Classroom.t :=
  {| docs := classrooms;
     with_docs := fun l s =>
       {| schools := schools s; classrooms := l;
          students := students s; next_oid := next_oid s |} |}.

Definition schoolsCollection : collection School.t :=
  {| docs := schools;
     with_docs := fun l s =>
       {| schools := l; classrooms := classrooms s;
          students := students s; next_oid := next_oid s |} |}.

Definition bump_oid (s : store) : store :=
  {| schools := schools s; classrooms := classrooms s;
     students := students s; next_oid := N.succ (next_oid s) |}.

(** First match in natural order, as [findOne] without a sort. *)
Definition findOne {D : Type} (c : collection D) (q : D -> bool) : M (option D) :=
  fun s => (inr (find q (docs c s)), s).

(** [insertOne]: the driver gives the document a fresh [_id] and returns
    it as [insertedId]. *)
Definition insertOne {D : Type} (c : collection D) (mk : N -> D) : M N :=
  fun s =>
    let i := next_oid s in
    (inr i, bump_oid (with_docs c (docs c s ++ [mk i]) s)).

Fixpoint update_first {D : Type} (q : D -> bool) (u : D -> D) (l : list D)
  : option D * list D :=
  match l with
  | [] => (None, [])
  | d :: r =>
      if q d then (Some (u d), u d :: r)
      else let (o, r') := update_first q u r in (o, d :: r')
  end.

(** [findOneAndUpdate(q, u, { returnDocument: 'after' })]: the updated
    document, or [null] when nothing matches. *)
Definition findOneAndUpdate {D : Type} (c : collection D) (q : D -> bool)
  (u : D -> D) : M (option D) :=
  fun s =>
    let (o, l) := update_first q u (docs c s) in
    (inr o, with_docs c l s).

Record UpdateResult : Type := {
  matchedCount : Z;
  modifiedCount : Z
}.

Definition count {D : Type} (q : D -> bool) (l : list D) : Z :=
  Z.of_nat (List.length (filter q l)).

(** [updateMany(q, { $set })]: [changed d] tells whether the [$set]
    alters [d]; only altered documents count as modified. *)
Definition updateMany {D : Type} (c : collection D) (q : D -> bool)
  (u : D -> D) (changed : D -> bool) : M UpdateResult :=
  fun s =>
    let l := docs c s in
    (inr {| matchedCount := count q l;
            modifiedCount := count (fun d => q d && changed d) l |},
     with_docs c (map (fun d => if q d then u d else d) l) s).

Definition updateOne {D : Type} (c : collection D) (q : D -> bool)
  (u : D -> D) (changed : D -> bool) : M UpdateResult :=
  fun s =>
    let l := docs c s in
    match find q l with
    | None => (inr {| matchedCount := 0; modifiedCount := 0 |}, s)
    | Some d =>
        (inr {| matchedCount := 1;
                modifiedCount := if changed d then 1 else 0 |},
         with_docs c (snd (update_first q u l)) s)
    end.

Definition countDocuments {D : Type} (c : collection D) (q : D -> bool) : M Z :=
  fun s => (inr (count q (docs c s)), s).

(** [toObjectId] on a value that may be [undefined] or [null]: the guard
    [!id] throws for those as for any malformed identifier. *)
Definition toObjectId_opt (id : option jsid) : js_error + N :=
  match id with
  | Some i => toObjectId i
  | None => inl (JsError "Error" "Invalid ID format")
  end.

(** [{ $inc: { currentStudents: k } }] *)
Definition inc_currentStudents (k : Z) (c : Classroom.t) : Classroom.t :=
  {| Classroom._id := Classroom._id c;
     Classroom.schoolId := Classroom.schoolId c;
     Classroom.name := Classroom.name c;
     Classroom.capacity := Classroom.capacity c;
     Classroom.resources := Classroom.resources c;
     Classroom.currentStudents := Classroom.currentStudents c + k;
     Classroom.status := Classroom.status c;
     Classroom.createdAt := Classroom.createdAt c;
     Classroom.updatedAt := Classroom.updatedAt c;
     Classroom.meta := Classroom.meta c |}.

(** The catch block shared by the methods that wrap whatever was thrown. *)
Definition wrap_database_error {A : Type} (operation : string)
  (ids : list (string * detail)) (error : js_error) : M A :=
  throw (new_AppError "DATABASE_ERROR"
           (("operation", DStr operation) :: ids
              ++ [("details", DStr (error_message error))])).

(** The catch block of the methods that start with
    [if (error instanceof AppError) throw error;]. *)
Definition rethrow_or_wrap {A : Type} (operation : string)
  (ids : list (string * detail)) (error : js_error) : M A :=
  if instanceof_AppError error then throw error
  else wrap_database_error operation ids error.

(** ** StudentManager (managers/student/Student.manager.js)

    [now] is the value of [new Date()] during the call. *)

Module StudentManager.

Definition enrollStudent (now : Z) (schoolId : jsid) (classroomId : option jsid)
  (firstName lastName email : string) (grade : Z) : M (option Student.t) :=
  try_catch
    (existingStudent <-
       findOne studentsCollection
         (fun d => String.eqb (Student.email d) email
                   && String.eqb (Student.status d) "active") ;;
     match existingStudent with
     | Some _ =>
         throw (new_AppError "RESOURCE_EXISTS"
                  [("resource", DStr "Student"); ("field", DStr "email");
                   ("value", DStr email);
                   ("message", DStr "Student with this email already exists")])
     | None =>
         when (truthy_id classroomId)
           (cid <- lift (toObjectId_opt classroomId) ;;
            classroom <-
              findOne classroomsCollection
                (fun c => (Classroom._id c =? cid)%N
                          && jsid_eqb (Classroom.schoolId c) schoolId) ;;
            match classroom with
            | None =>
                throw (new_AppError "RESOURCE_NOT_FOUND"
                         [("resource", DStr "Classroom"); ("id", DId classroomId)])
            | Some classroom =>
                if Classroom.currentStudents classroom >=? Classroom.capacity classroom
                then throw (new_AppError "CLASSROOM_FULL"
                              [("classroomId", DId classroomId);
                               ("currentCapacity",
                                DNum (Classroom.currentStudents classroom));
                               ("maxCapacity", DNum (Classroom.capacity classroom))])
                else ret tt
            end) ;;;
         insertedId <-
           insertOne studentsCollection
             (fun i =>
                {| Student._id := i;
                   Student.schoolId := schoolId;
                   Student.classroomId := classroomId;
                   Student.firstName := firstName;
                   Student.lastName := lastName;
                   Student.email := email;
                   Student.grade := grade;
                   Student.status := "active";
                   Student.enrolledAt := now;
                   Student.updatedAt := now;
                   Student.lastTransferDate := None;
                   Student.lastTransferReason := None;
                   Student.transferHistory := [];
                   Student.deactivationReason := None;
                   Student.deactivatedAt := None;
                   Student.meta := no_delete_meta |}) ;;
         student <-
           findOne studentsCollection (fun d => (Student._id d =? insertedId)%N) ;;
         when (truthy_id classroomId)
           (cid <- lift (toObjectId_opt classroomId) ;;
            _ <- findOneAndUpdate classroomsCollection
                   (fun c => (Classroom._id c =? cid)%N) (inc_currentStudents 1) ;;
            ret tt) ;;;
         ret student
     end)
    (wrap_database_error "enrollStudent" []).

(** The [updates] object of [updateStudent], by key.  [None] is an absent
    key.  [upd_status] is a key the validation schema lets through and
    the manager does not allow. *)
Record StudentUpdates : Type := {
  upd_firstName : option string;
  upd_lastName : option string;
  upd_grade : option Z;
  upd_classroomId : option jsid;
  upd_status : option string
}.

(** [Object.keys(updates).filter(key => allowedUpdates.includes(key))] *)
Definition filteredUpdates (updates : StudentUpdates) : StudentUpdates :=
  {| upd_firstName := upd_firstName updates;
     upd_lastName := upd_lastName updates;
     upd_grade := upd_grade updates;
     upd_classroomId := upd_classroomId updates;
     upd_status := None |}.

Definition present {A : Type} (o : option A) : Z :=
  match o with Some _ => 1 | None => 0 end.

Definition keys_length (u : StudentUpdates) : Z :=
  present (upd_firstName u) + present (upd_lastName u) + present (upd_grade u)
  + present (upd_classroomId u) + present (upd_status u).

Definition or_else {A : Type} (o : option A) (d : A) : A :=
  match o with Some a => a | None => d end.

(** [{ $set: { ...filteredUpdates, updatedAt: new Date() } }] *)
Definition set_updates (u : StudentUpdates) (now : Z) (d : Student.t) : Student.t :=
  {| Student._id := Student._id d;
     Student.schoolId := Student.schoolId d;
     Student.classroomId :=
       match upd_classroomId u with
       | Some i => Some i
       | None => Student.classroomId d
       end;
     Student.firstName := or_else (upd_firstName u) (Student.firstName d);
     Student.lastName := or_else (upd_lastName u) (Student.lastName d);
     Student.email := Student.email d;
     Student.grade := or_else (upd_grade u) (Student.grade d);
     Student.status := or_else (upd_status u) (Student.status d);
     Student.enrolledAt := Student.enrolledAt d;
     Student.updatedAt := now;
     Student.lastTransferDate := Student.lastTransferDate d;
     Student.lastTransferReason := Student.lastTransferReason d;
     Student.transferHistory := Student.transferHistory d;
     Student.deactivationReason := Student.deactivationReason d;
     Student.deactivatedAt := Student.deactivatedAt d;
     Student.meta := Student.meta d |}.

Definition updateStudent (now : Z) (studentId schoolId : jsid)
  (updates : StudentUpdates) : M Student.t :=
  try_catch
    (let filtered := filteredUpdates updates in
     if keys_length filtered =? 0
     then throw (new_AppError "INVALID_INPUT"
                   [("message", DStr "No valid update fields provided");
                    ("allowedFields",
                     DList ["firstName"; "lastName"; "grade"; "classroomId"])])
     else
       when (truthy_id (upd_classroomId filtered))
         (cid <- lift (toObjectId_opt (upd_classroomId filtered)) ;;
          classroom <-
            findOne classroomsCollection
              (fun c => (Classroom._id c =? cid)%N
                        && jsid_eqb (Classroom.schoolId c) schoolId) ;;
          match classroom with
          | None =>
              throw (new_AppError "RESOURCE_NOT_FOUND"
                       [("resource", DStr "Classroom");
                        ("id", DId (upd_classroomId filtered));
                        ("message", DStr "Classroom not found")])
          | Some classroom =>
              if Classroom.currentStudents classroom >=? Classroom.capacity classroom
              then throw (new_AppError "CLASSROOM_FULL"
                            [("classroomId", DId (upd_classroomId filtered));
                             ("currentCapacity",
                              DNum (Classroom.currentStudents classroom));
                             ("maxCapacity", DNum (Classroom.capacity classroom))])
              else ret tt
          end) ;;;
       sid <- lift (toObjectId studentId) ;;
       result <-
         findOneAndUpdate studentsCollection
           (fun d => (Student._id d =? sid)%N
                     && jsid_eqb (Student.schoolId d) schoolId)
           (set_updates filtered now) ;;
       match result with
       | None =>
           throw (new_AppError "RESOURCE_NOT_FOUND"
                    [("resource", DStr "Student"); ("id", DId (Some studentId))])
       | Some result =>
           (* [result] is the document after the update *)
           when (truthy_id (upd_classroomId filtered)
                 && strict_neq (Student.classroomId result) (upd_classroomId filtered))
             (when (truthy_id (Student.classroomId result))
                (old <- lift (toObjectId_opt (Student.classroomId result)) ;;
                 _ <- findOneAndUpdate classroomsCollection
                        (fun c => (Classroom._id c =? old)%N)
                        (inc_currentStudents (-1)) ;;
                 ret tt) ;;;
              new <- lift (toObjectId_opt (upd_classroomId filtered)) ;;
              _ <- findOneAndUpdate classroomsCollection
                     (fun c => (Classroom._id c =? new)%N)
                     (inc_currentStudents 1) ;;
              ret tt) ;;;
           ret result
       end)
    (wrap_database_error "updateStudent" []).

(** The [$set] and [$push] of [transferStudent]. *)
Definition set_transfer (now : Z) (fromSchoolId toSchoolId : jsid)
  (reason : string) (d : Student.t) : Student.t :=
  {| Student._id := Student._id d;
     Student.schoolId := toSchoolId;
     Student.classroomId := None;
     Student.firstName := Student.firstName d;
     Student.lastName := Student.lastName d;
     Student.email := Student.email d;
     Student.grade := Student.grade d;
     Student.status := Student.status d;
     Student.enrolledAt := Student.enrolledAt d;
     Student.updatedAt := now;
     Student.lastTransferDate := Some now;
     Student.lastTransferReason := Some reason;
     Student.transferHistory :=
       Student.transferHistory d
       ++ [ {| tr_fromSchoolId := fromSchoolId; tr_toSchoolId := toSchoolId;
               tr_date := now; tr_reason := reason |} ];
     Student.deactivationReason := Student.deactivationReason d;
     Student.deactivatedAt := Student.deactivatedAt d;
     Student.meta := Student.meta d |}.

Definition transferStudent (now : Z) (studentId fromSchoolId toSchoolId : jsid)
  (reason : string) : M Student.t :=
  try_catch
    (sid <- lift (toObjectId studentId) ;;
     student <-
       findOne studentsCollection
         (fun d => (Student._id d =? sid)%N
                   && jsid_eqb (Student.schoolId d) fromSchoolId
                   && String.eqb (Student.status d) "active") ;;
     match student with
     | None =>
         throw (new_AppError "INVALID_TRANSFER"
                  [("reason", DStr "Student not found in source school");
                   ("studentId", DId (Some studentId));
                   ("fromSchoolId", DId (Some fromSchoolId))])
     | Some student =>
         tid <- lift (toObjectId toSchoolId) ;;
         targetSchool <-
           findOne schoolsCollection
             (fun d => (School._id d =? tid)%N
                       && String.eqb (School.status d) "active") ;;
         match targetSchool with
         | None =>
             throw (new_AppError "SCHOOL_INACTIVE"
                      [("schoolId", DId (Some toSchoolId))])
         | Some _ =>
             sid' <- lift (toObjectId studentId) ;;
             result <-
               findOneAndUpdate studentsCollection
                 (fun d => (Student._id d =? sid')%N)
                 (set_transfer now fromSchoolId toSchoolId reason) ;;
             match result with
             | None =>
                 throw (new_AppError "DATABASE_ERROR"
                          [("operation", DStr "transferStudent");
                           ("details", DStr "Failed to update student record")])
             | Some result =>
                 when (truthy_id (Student.classroomId student))
                   (_ <- findOneAndUpdate classroomsCollection
                          (fun c =>
                             match Student.classroomId student with
                             | Some q => oid_matches (Classroom._id c) q
                             | None => false
                             end)
                          (inc_currentStudents (-1)) ;;
                    ret tt) ;;;
                 ret result
             end
         end
     end)
    (wrap_database_error "transferStudent" []).

(** The [$set] of [deactivateStudent]. *)
Definition set_deactivated (now : Z) (reason : option string) (d : Student.t)
  : Student.t :=
  {| Student._id := Student._id d;
     Student.schoolId := Student.schoolId d;
     Student.classroomId := Student.classroomId d;
     Student.firstName := Student.firstName d;
     Student.lastName := Student.lastName d;
     Student.email := Student.email d;
     Student.grade := Student.grade d;
     Student.status := "inactive";
     Student.enrolledAt := Student.enrolledAt d;
     Student.updatedAt := now;
     Student.lastTransferDate := Student.lastTransferDate d;
     Student.lastTransferReason := Student.lastTransferReason d;
     Student.transferHistory := Student.transferHistory d;
     Student.deactivationReason := reason;
     Student.deactivatedAt := Some now;
     Student.meta := Student.meta d |}.

Definition deactivateStudent (now : Z) (studentId schoolId : jsid)
  (reason : option string) : M bool :=
  try_catch
    (sid <- lift (toObjectId studentId) ;;
     student <-
       findOne studentsCollection
         (fun d => (Student._id d =? sid)%N
                   && jsid_eqb (Student.schoolId d) schoolId
                   && String.eqb (Student.status d) "active") ;;
     match student with
     | None =>
         throw (new_AppError "RESOURCE_NOT_FOUND"
                  [("resource", DStr "Student"); ("id", DId (Some studentId))])
     | Some student =>
         sid' <- lift (toObjectId studentId) ;;
         _ <- findOneAndUpdate studentsCollection
                (fun d => (Student._id d =? sid')%N)
                (set_deactivated now reason) ;;
         when (truthy_id (Student.classroomId student))
           (cid <- lift (toObjectId_opt (Student.classroomId student)) ;;
            _ <- findOneAndUpdate classroomsCollection
                   (fun c => (Classroom._id c =? cid)%N)
                   (inc_currentStudents (-1)) ;;
            ret tt) ;;;
         ret true
     end)
    (wrap_database_error "deactivateStudent" []).

End StudentManager.

(** ** ClassroomManager *)

Definition truthy_num (n : option Z) : bool :=
  match n with
  | Some z => negb (z =? 0)
  | None => false
  end.

Definition truthy_list {A : Type} (l : option (list A)) : bool :=
  match l with
  | Some _ => true
  | None => false
  end.

Module ClassroomManager.

Definition createClassroom (now : Z) (schoolId : jsid) (name : string)
  (capacity : Z) (resources : option (list string)) : M (option Classroom.t) :=
  try_catch
    (sid <- lift (toObjectId schoolId) ;;
     school <-
       findOne schoolsCollection
         (fun d => (School._id d =? sid)%N
                   && String.eqb (School.status d) "active") ;;
     match school with
     | None =>
         throw (new_AppError "SCHOOL_INACTIVE"
                  [("schoolId", DId (Some schoolId));
                   ("message", DStr "School not found or inactive")])
     | Some _ =>
         existingClassroom <-
           findOne classroomsCollection
             (fun c => jsid_eqb (Classroom.schoolId c) schoolId
                       && String.eqb (Classroom.name c) name
                       && negb (String.eqb (Classroom.status c) "deleted")) ;;
         match existingClassroom with
         | Some _ =>
             throw (new_AppError "RESOURCE_EXISTS"
                      [("resource", DStr "Classroom"); ("field", DStr "name");
                       ("value", DStr name); ("schoolId", DId (Some schoolId))])
         | None =>
             insertedId <-
               insertOne classroomsCollection
                 (fun i =>
                    {| Classroom._id := i;
                       Classroom.schoolId := schoolId;
                       Classroom.name := name;
                       Classroom.capacity := capacity;
                       Classroom.resources := resources;
                       Classroom.currentStudents := 0;
                       Classroom.status := "active";
                       Classroom.createdAt := now;
                       Classroom.updatedAt := now;
                       Classroom.meta := no_delete_meta |}) ;;
             findOne classroomsCollection
               (fun c => (Classroom._id c =? insertedId)%N)
         end
     end)
    (rethrow_or_wrap "createClassroom" [("schoolId", DId (Some schoolId))]).

(** The [updates] object of [updateClassroom]; [None] is an absent key. *)
Record ClassroomUpdates : Type := {
  upd_name : option string;
  upd_capacity : option Z;
  upd_resources : option (list string)
}.

(** [{ $set: updateFields }], where [updateFields] holds the truthy ones
    of [name], [capacity], [resources], and [updatedAt]. *)
Definition set_updateFields (u : ClassroomUpdates) (now : Z) (c : Classroom.t)
  : Classroom.t :=
  {| Classroom._id := Classroom._id c;
     Classroom.schoolId := Classroom.schoolId c;
     Classroom.name :=
       if truthy_str (upd_name u)
       then match upd_name u with Some n => n | None => Classroom.name c end
       else Classroom.name c;
     Classroom.capacity :=
       if truthy_num (upd_capacity u)
       then match upd_capacity u with Some n => n | None => Classroom.capacity c end
       else Classroom.capacity c;
     Classroom.resources :=
       match upd_resources u with
       | Some r => Some r
       | None => Classroom.resources c
       end;
     Classroom.currentStudents := Classroom.currentStudents c;
     Classroom.status := Classroom.status c;
     Classroom.createdAt := Classroom.createdAt c;
     Classroom.updatedAt := now;
     Classroom.meta := Classroom.meta c |}.

Definition updateClassroom (now : Z) (classroomId schoolId : jsid)
  (updates : ClassroomUpdates) : M Classroom.t :=
  let ids := [("classroomId", DId (Some classroomId));
              ("schoolId", DId (Some schoolId))] in
  try_catch
    (let name := upd_name updates in
     let capacity := upd_capacity updates in
     let resources := upd_resources updates in
     cid <- lift (toObjectId classroomId) ;;
     currentClassroom <-
       findOne classroomsCollection
         (fun c => (Classroom._id c =? cid)%N
                   && jsid_eqb (Classroom.schoolId c) schoolId) ;;
     match currentClassroom with
     | None =>
         throw (new_AppError "RESOURCE_NOT_FOUND"
                  [("resource", DStr "Classroom");
                   ("id", DId (Some classroomId));
                   ("schoolId", DId (Some schoolId))])
     | Some currentClassroom =>
         (if truthy_num capacity
             && (Classroom.currentStudents currentClassroom
                 >? match capacity with Some n => n | None => 0 end)
          then throw (new_AppError "INVALID_OPERATION"
                        [("message",
                          DStr "New capacity cannot be less than current number of students");
                         ("currentStudents",
                          DNum (Classroom.currentStudents currentClassroom));
                         ("requestedCapacity",
                          DNum match capacity with Some n => n | None => 0 end)])
          else ret tt) ;;;
         when (truthy_str name
               && negb (String.eqb match name with Some n => n | None => "" end
                                   (Classroom.name currentClassroom)))
           (cid' <- lift (toObjectId classroomId) ;;
            existingClassroom <-
              findOne classroomsCollection
                (fun c => jsid_eqb (Classroom.schoolId c) schoolId
                          && String.eqb (Classroom.name c)
                               match name with Some n => n | None => "" end
                          && negb (Classroom._id c =? cid')%N
                          && negb (String.eqb (Classroom.status c) "deleted")) ;;
            match existingClassroom with
            | Some _ =>
                throw (new_AppError "RESOURCE_EXISTS"
                         [("resource", DStr "Classroom"); ("field", DStr "name");
                          ("value", DStr match name with Some n => n | None => "" end);
                          ("schoolId", DId (Some schoolId))])
            | None => ret tt
            end) ;;;
         (if negb (truthy_str name || truthy_num capacity || truthy_list resources)
          then throw (new_AppError "INVALID_INPUT"
                        [("message", DStr "No valid update fields provided");
                         ("allowedFields", DList ["name"; "capacity"; "resources"])])
          else ret tt) ;;;
         cid'' <- lift (toObjectId classroomId) ;;
         result <-
           findOneAndUpdate classroomsCollection
             (fun c => (Classroom._id c =? cid'')%N
                       && jsid_eqb (Classroom.schoolId c) schoolId)
             (set_updateFields updates now) ;;
         match result with
         | None =>
             throw (new_AppError "DATABASE_ERROR"
                      (("message", DStr "Failed to update classroom") :: ids))
         | Some result => ret result
         end
     end)
    (rethrow_or_wrap "updateClassroom" ids).

(** The [$set] of [deleteClassroom]: [status] and [deletedAt]. *)
Definition set_deleted (now : Z) (c : Classroom.t) : Classroom.t :=
  {| Classroom._id := Classroom._id c;
     Classroom.schoolId := Classroom.schoolId c;
     Classroom.name := Classroom.name c;
     Classroom.capacity := Classroom.capacity c;
     Classroom.resources := Classroom.resources c;
     Classroom.currentStudents := Classroom.currentStudents c;
     Classroom.status := "deleted";
     Classroom.createdAt := Classroom.createdAt c;
     Classroom.updatedAt := Classroom.updatedAt c;
     Classroom.meta :=
       {| deletedAt := Some now;
          deletedBy := deletedBy (Classroom.meta c);
          deletionReason := deletionReason (Classroom.meta c) |} |}.

Definition deleteClassroom (now : Z) (classroomId schoolId : jsid) : M bool :=
  try_catch
    (cid <- lift (toObjectId classroomId) ;;
     classroom <-
       findOne classroomsCollection
         (fun c => (Classroom._id c =? cid)%N
                   && jsid_eqb (Classroom.schoolId c) schoolId) ;;
     match classroom with
     | None =>
         throw (new_AppError "RESOURCE_NOT_FOUND"
                  [("resource", DStr "Classroom");
                   ("id", DId (Some classroomId));
                   ("schoolId", DId (Some schoolId))])
     | Some classroom =>
         (if Classroom.currentStudents classroom >? 0
          then throw (new_AppError "INVALID_OPERATION"
                        [("message",
                          DStr "Cannot delete classroom with active students");
                         ("classroomId", DId (Some classroomId));
                         ("currentStudents",
                          DNum (Classroom.currentStudents classroom))])
          else ret tt) ;;;
         (* the filter takes [classroomId] as it came, not [toObjectId] of it *)
         _ <- findOneAndUpdate classroomsCollection
                (fun c => oid_matches (Classroom._id c) classroomId
                          && jsid_eqb (Classroom.schoolId c) schoolId)
                (set_deleted now) ;;
         ret true
     end)
    (rethrow_or_wrap "deleteClassroom"
       [("classroomId", DId (Some classroomId)); ("schoolId", DId (Some schoolId))]).

End ClassroomManager.

(** ** SchoolManager *)

(** [String.prototype.trim], over the ASCII range: TAB, LF, VT, FF, CR
    and SPACE are the white space it strips. *)
Definition is_space (c : ascii) : bool :=
  let n := nat_of_ascii c in
  (((9 <=? n) && (n <=? 13)) || (n =? 32))%nat.

Fixpoint trim_start (l : list ascii) : list ascii :=
  match l with
  | [] => []
  | c :: r => if is_space c then trim_start r else l
  end.

Definition trim (s : string) : string :=
  string_of_list_ascii
    (rev (trim_start (rev (trim_start (list_ascii_of_string s))))).

Record DeletionCounts : Type := {
  before : Z;
  deleted : Z
}.

Record DeletionSummary : Type := {
  summary_students : DeletionCounts;
  summary_classrooms : DeletionCounts
}.

Record DeleteSchoolResult : Type := {
  success : bool;
  message : string;
  deletionSummary : DeletionSummary;
  school : option School.t
}.

Definition opt_eqb {A : Type} (eqb : A -> A -> bool) (a b : option A) : bool :=
  match a, b with
  | Some x, Some y => eqb x y
  | None, None => true
  | _, _ => false
  end.

(** [deleteMeta] of [deleteSchool], as a [$set] on each kind of document,
    and whether that [$set] alters the document. *)
Definition deleteMeta (timestamp : Z) : DeleteMeta :=
  {| deletedAt := Some timestamp;
     deletedBy := Some "SYSTEM";
     deletionReason := Some "SCHOOL_DELETE" |}.

Definition meta_eqb (a b : DeleteMeta) : bool :=
  opt_eqb Z.eqb (deletedAt a) (deletedAt b)
  && opt_eqb String.eqb (deletedBy a) (deletedBy b)
  && opt_eqb String.eqb (deletionReason a) (deletionReason b).

Definition set_deleteMeta_student (timestamp : Z) (d : Student.t) : Student.t :=
  {| Student._id := Student._id d;
     Student.schoolId := Student.schoolId d;
     Student.classroomId := Student.classroomId d;
     Student.firstName := Student.firstName d;
     Student.lastName := Student.lastName d;
     Student.email := Student.email d;
     Student.grade := Student.grade d;
     Student.status := "deleted";
     Student.enrolledAt := Student.enrolledAt d;
     Student.updatedAt := timestamp;
     Student.lastTransferDate := Student.lastTransferDate d;
     Student.lastTransferReason := Student.lastTransferReason d;
     Student.transferHistory := Student.transferHistory d;
     Student.deactivationReason := Student.deactivationReason d;
     Student.deactivatedAt := Student.deactivatedAt d;
     Student.meta := deleteMeta timestamp |}.

Definition changes_student (timestamp : Z) (d : Student.t) : bool :=
  negb (String.eqb (Student.status d) "deleted"
        && (Student.updatedAt d =? timestamp)
        && meta_eqb (Student.meta d) (deleteMeta timestamp)).

Definition set_deleteMeta_classroom (timestamp : Z) (c : Classroom.t)
  : Classroom.t :=
  {| Classroom._id := Classroom._id c;
     Classroom.schoolId := Classroom.schoolId c;
     Classroom.name := Classroom.name c;
     Classroom.capacity := Classroom.capacity c;
     Classroom.resources := Classroom.resources c;
     Classroom.currentStudents := Classroom.currentStudents c;
     Classroom.status := "deleted";
     Classroom.createdAt := Classroom.createdAt c;
     Classroom.updatedAt := timestamp;
     Classroom.meta := deleteMeta timestamp |}.

Definition changes_classroom (timestamp : Z) (c : Classroom.t) : bool :=
  negb (String.eqb (Classroom.status c) "deleted"
        && (Classroom.updatedAt c =? timestamp)
        && meta_eqb (Classroom.meta c) (deleteMeta timestamp)).

Definition set_deleteMeta_school (timestamp : Z) (d : School.t) : School.t :=
  {| School._id := School._id d;
     School.name := School.name d;
     School.address := School.address d;
     School.contactInfo := School.contactInfo d;
     School.adminId := School.adminId d;
     School.status := "deleted";
     School.studentCount := School.studentCount d;
     School.classroomCount := School.classroomCount d;
     School.activeTeacherCount := School.activeTeacherCount d;
     School.createdAt := School.createdAt d;
     School.updatedAt := timestamp;
     School.createdBy := School.createdBy d;
     School.meta := deleteMeta timestamp |}.

Definition changes_school (timestamp : Z) (d : School.t) : bool :=
  negb (String.eqb (School.status d) "deleted"
        && (School.updatedAt d =? timestamp)
        && meta_eqb (School.meta d) (deleteMeta timestamp)).

Module SchoolManager.

Definition validateSchoolExists (schoolId : jsid) (includeSoftDeleted : bool)
  : M School.t :=
  sid <- lift (toObjectId schoolId) ;;
  school <-
    findOne schoolsCollection
      (fun d => (School._id d =? sid)%N
                && (includeSoftDeleted
                    || negb (String.eqb (School.status d) "deleted"))) ;;
  match school with
  | None =>
      throw (new_AppError "RESOURCE_NOT_FOUND"
               [("resource", DStr "School"); ("id", DId (Some schoolId))])
  | Some school => ret school
  end.

(** The first of [street], [city], [state], [zipCode] for which
    [!address?.[field]] holds. *)
Definition first_missing_address_field (address : option Address) : option string :=
  match address with
  | None => Some "street"
  | Some a =>
      if negb (truthy_str (street a)) then Some "street"
      else if negb (truthy_str (city a)) then Some "city"
      else if negb (truthy_str (state a)) then Some "state"
      else if negb (truthy_str (zipCode a)) then Some "zipCode"
      else None
  end.

Definition contact_incomplete (contactInfo : option ContactInfo) : bool :=
  match contactInfo with
  | None => true
  | Some c =>
      negb (truthy_str (contact_email c)) || negb (truthy_str (contact_phone c))
  end.

Section WithRegExp.

(** The regular-expression engine behind
    [{ name: { $regex: new RegExp(source, 'i') } }]: [None] when the
    source is not a well-formed pattern (a SyntaxError), otherwise the
    test a candidate string undergoes. *)
Variable new_RegExp_i : string -> option (string -> bool).

Definition createSchool (now : Z) (name : string) (address : option Address)
  (contactInfo : option ContactInfo) (adminId : option jsid) : M School.t :=
  try_catch
    ((if String.eqb (trim name) ""
      then throw (new_AppError "VALIDATION_ERROR"
                    [("field", DStr "name");
                     ("message", DStr "School name is required")])
      else ret tt) ;;;
     re <- lift match new_RegExp_i ("^" ++ name ++ "$") with
                | Some re => inr re
                | None => inl (JsError "SyntaxError" "Invalid regular expression")
                end ;;
     existingSchool <-
       findOne schoolsCollection (fun d => re (School.name d)) ;;
     match existingSchool with
     | Some _ =>
         throw (new_AppError "RESOURCE_EXISTS"
                  [("resource", DStr "School"); ("field", DStr "name");
                   ("value", DStr name)])
     | None =>
         match first_missing_address_field address with
         | Some field =>
             throw (new_AppError "VALIDATION_ERROR"
                      [("field", DStr ("address." ++ field));
                       ("message", DStr (field ++ " is required in address"))])
         | None =>
             if contact_incomplete contactInfo
             then throw (new_AppError "VALIDATION_ERROR"
                           [("field", DStr "contactInfo");
                            ("message",
                             DStr "Email and phone are required in contact info")])
             else
               let school := fun i =>
                 {| School._id := i;
                    School.name := trim name;
                    School.address := address;
                    School.contactInfo := contactInfo;
                    School.adminId := adminId;
                    School.status := "active";
                    School.studentCount := 0;
                    School.classroomCount := 0;
                    School.activeTeacherCount := 0;
                    School.createdAt := now;
                    School.updatedAt := now;
                    School.createdBy := adminId;
                    School.meta := no_delete_meta |} in
               insertedId <- insertOne schoolsCollection school ;;
               ret (school insertedId)
         end
     end)
    (rethrow_or_wrap "createSchool" []).

(** The [updates] object of [updateSchool]; [None] is an absent key. *)
Record SchoolUpdates : Type := {
  upd_name : option string;
  upd_address : option Address;
  upd_contactInfo : option ContactInfo;
  upd_status : option string
}.

Definition keys_length (u : SchoolUpdates) : Z :=
  (match upd_name u with Some _ => 1 | None => 0 end)
  + (match upd_address u with Some _ => 1 | None => 0 end)
  + (match upd_contactInfo u with Some _ => 1 | None => 0 end)
  + (match upd_status u with Some _ => 1 | None => 0 end).

(** [{ $set: { ...filteredUpdates, updatedAt: new Date() } }] *)
Definition set_updates (u : SchoolUpdates) (now : Z) (d : School.t) : School.t :=
  {| School._id := School._id d;
     School.name :=
       match upd_name u with Some n => n | None => School.name d end;
     School.address :=
       match upd_address u with Some a => Some a | None => School.address d end;
     School.contactInfo :=
       match upd_contactInfo u with
       | Some c => Some c
       | None => School.contactInfo d
       end;
     School.adminId := School.adminId d;
     School.status :=
       match upd_status u with Some n => n | None => School.status d end;
     School.studentCount := School.studentCount d;
     School.classroomCount := School.classroomCount d;
     School.activeTeacherCount := School.activeTeacherCount d;
     School.createdAt := School.createdAt d;
     School.updatedAt := now;
     School.createdBy := School.createdBy d;
     School.meta := School.meta d |}.

Definition updateSchool (now : Z) (schoolId : jsid) (updates : SchoolUpdates)
  : M (option School.t) :=
  try_catch
    (_ <- validateSchoolExists schoolId false ;;
     (if keys_length updates =? 0
      then throw (new_AppError "INVALID_INPUT"
                    [("message", DStr "No valid update fields provided");
                     ("allowedFields",
                      DList ["name"; "address"; "contactInfo"; "status"])])
      else ret tt) ;;;
     when (truthy_str (upd_name updates))
       (let name := match upd_name updates with Some n => n | None => "" end in
        re <- lift match new_RegExp_i ("^" ++ name ++ "$") with
                   | Some re => inr re
                   | None => inl (JsError "SyntaxError" "Invalid regular expression")
                   end ;;
        sid <- lift (toObjectId schoolId) ;;
        existingSchool <-
          findOne schoolsCollection
            (fun d => re (School.name d) && negb (School._id d =? sid)%N) ;;
        match existingSchool with
        | Some _ =>
            throw (new_AppError "RESOURCE_EXISTS"
                     [("resource", DStr "School"); ("field", DStr "name");
                      ("value", DStr name)])
        | None => ret tt
        end) ;;;
     sid <- lift (toObjectId schoolId) ;;
     findOneAndUpdate schoolsCollection
       (fun d => (School._id d =? sid)%N) (set_updates updates now))
    (wrap_database_error "updateSchool" [("schoolId", DId (Some schoolId))]).

End WithRegExp.

Definition deleteSchool (now : Z) (schoolId : jsid) : M DeleteSchoolResult :=
  try_catch
    (school <- validateSchoolExists schoolId false ;;
     sid1 <- lift (toObjectId schoolId) ;;
     students_before <-
       countDocuments studentsCollection
         (fun d => jsid_eqb (Student.schoolId d) (IdObj sid1)
                   && negb (String.eqb (Student.status d) "deleted")) ;;
     sid2 <- lift (toObjectId schoolId) ;;
     classrooms_before <-
       countDocuments classroomsCollection
         (fun c => jsid_eqb (Classroom.schoolId c) (IdObj sid2)
                   && negb (String.eqb (Classroom.status c) "deleted")) ;;
     let timestamp := now in
     (* Step 1: students *)
     sid3 <- lift (toObjectId schoolId) ;;
     studentResult <-
       updateMany studentsCollection
         (fun d => jsid_eqb (Student.schoolId d) (IdObj sid3)
                   && negb (String.eqb (Student.status d) "deleted"))
         (set_deleteMeta_student timestamp) (changes_student timestamp) ;;
     (* Step 2: classrooms *)
     sid4 <- lift (toObjectId schoolId) ;;
     classroomResult <-
       updateMany classroomsCollection
         (fun c => jsid_eqb (Classroom.schoolId c) (IdObj sid4)
                   && negb (String.eqb (Classroom.status c) "deleted"))
         (set_deleteMeta_classroom timestamp) (changes_classroom timestamp) ;;
     (* Step 3: the school *)
     sid5 <- lift (toObjectId schoolId) ;;
     schoolResult <-
       updateOne schoolsCollection
         (fun d => (School._id d =? sid5)%N)
         (set_deleteMeta_school timestamp) (changes_school timestamp) ;;
     if matchedCount schoolResult =? 0
     then throw (new_AppError "DATABASE_ERROR"
                   [("message", DStr "Failed to delete school - school not found");
                    ("schoolId", DId (Some schoolId))])
     else if modifiedCount schoolResult =? 0
     then throw (new_AppError "DATABASE_ERROR"
                   [("message",
                     DStr "Failed to delete school - no modifications made");
                    ("schoolId", DId (Some schoolId));
                    ("details", DStr "School might already be deleted")])
     else
       sid6 <- lift (toObjectId schoolId) ;;
       updatedSchool <-
         findOne schoolsCollection (fun d => (School._id d =? sid6)%N) ;;
       ret {| success := true;
              message := "School and related entities successfully deleted";
              deletionSummary :=
                {| summary_students :=
                     {| before := students_before;
                        deleted := modifiedCount studentResult |};
                   summary_classrooms :=
                     {| before := classrooms_before;
                        deleted := modifiedCount classroomResult |} |};
              school := updatedSchool |})
    (rethrow_or_wrap "deleteSchool" [("schoolId", DId (Some schoolId))]).

End SchoolManager.

(** ** A regular-expression engine for the patterns made of literal
    characters and the wildcard [.]

    The engine covers the sources [^body$] whose body holds no
    metacharacter other than [.]; it gives no matcher for any other
    source.  Inside that fragment, over the ASCII range and for
    candidate strings free of line terminators, it is what the flag [i]
    asks for: a literal matches itself in either case, [.] matches any
    one character, and the anchors tie the match to the whole string. *)

Inductive atom : Type :=
| Lit (c : ascii)
| AnyChar.

Definition is_meta (c : ascii) : bool :=
  existsb (Ascii.eqb c)
    (list_ascii_of_string "\^$.*+?()[]{}|").

Fixpoint parse_body (l : list ascii) : option (list atom) :=
  match l with
  | [] => Some []
  | c :: r =>
      match parse_body r with
      | None => None
      | Some p =>
          if Ascii.eqb c "." then Some (AnyChar :: p)
          else if is_meta c then None
          else Some (Lit c :: p)
      end
  end.

Definition to_upper (c : ascii) : ascii :=
  let n := nat_of_ascii c in
  if ((97 <=? n) && (n <=? 122))%nat then ascii_of_nat (n - 32) else c.

Definition is_line_terminator (c : ascii) : bool :=
  let n := nat_of_ascii c in ((n =? 10) || (n =? 13))%nat.

Definition atom_matches (a : atom) (c : ascii) : bool :=
  match a with
  | Lit x => Ascii.eqb (to_upper x) (to_upper c)
  | AnyChar => negb (is_line_terminator c)
  end.

Fixpoint atoms_match (p : list atom) (l : list ascii) : bool :=
  match p, l with
  | [], [] => true
  | a :: p', c :: l' => atom_matches a c && atoms_match p' l'
  | _, _ => false
  end.

Definition anchored_body (source : string) : option (list ascii) :=
  match list_ascii_of_string source with
  | c :: r =>
      if Ascii.eqb c "^"
      then match rev r with
           | d :: b => if Ascii.eqb d "$" then Some (rev b) else None
           | [] => None
           end
      else None
  | [] => None
  end.

Definition literal_dot_RegExp_i (source : string) : option (string -> bool) :=
  match anchored_body source with
  | None => None
  | Some body =>
      match parse_body body with
      | None => None
      | Some p => Some (fun s => atoms_match p (list_ascii_of_string s))
      end
  end.

(** ** Scenarios

    Stores built by the managers themselves, with the identifiers handed
    over the way the routes do: as the 24-character strings a client
    reads in a response. *)

Definition client_id (o : N) : jsid := IdStr (toHexString o).

Definition exec {A : Type} (m : M A) (s : store) : store := snd (m s).

Definition outcome {A : Type} (m : M A) (s : store) : js_error + A := fst (m s).

Definition empty_store : store :=
  {| schools := []; classrooms := []; students := []; next_oid := 1 |}.

Definition address0 : Address :=
  {| street := Some "742 Evergreen Terrace"; city := Some "Springfield";
     state := Some "OR"; zipCode := Some "97403" |}.

Definition contact0 : ContactInfo :=
  {| contact_email := Some "office@springfield.test";
     contact_phone := Some "5415550100" |}.

Definition createSchool := SchoolManager.createSchool literal_dot_RegExp_i.
Definition updateSchool := SchoolManager.updateSchool literal_dot_RegExp_i.

(** One active school, identifier 1. *)
Definition store_school : store :=
  exec (createSchool 1000 "Springfield High" (Some address0) (Some contact0) None)
       empty_store.

Definition schoolA : jsid := client_id 1.

(** The school and one classroom of capacity 1, identifier 2. *)
Definition store_room : store :=
  exec (ClassroomManager.createClassroom 1001 schoolA "Room 1" 1 None) store_school.

Definition room : jsid := client_id 2.

Definition enroll_ada : M (option Student.t) :=
  StudentManager.enrollStudent 1002 schoolA (Some room)
    "Ada" "Lovelace" "ada@school.test" 9.

Definition enroll_alan : M (option Student.t) :=
  StudentManager.enrollStudent 1003 schoolA (Some room)
    "Alan" "Turing" "alan@school.test" 9.

Definition store_room_full : store := exec enroll_ada store_room.

(** The school and two classrooms of capacity 30, identifiers 2 and 3. *)
Definition store_two_rooms : store :=
  exec (ClassroomManager.createClassroom 1002 schoolA "Room B" 30 None)
    (exec (ClassroomManager.createClassroom 1001 schoolA "Room A" 30 None)
       store_school).

Definition roomA : jsid := client_id 2.
Definition roomB : jsid := client_id 3.

(** Ada enrolled in Room A; her identifier is 4. *)
Definition store_ada_in_A : store :=
  exec (StudentManager.enrollStudent 1003 schoolA (Some roomA)
          "Ada" "Lovelace" "ada@school.test" 9)
       store_two_rooms.

Definition ada : jsid := client_id 4.

Definition move_to_B : StudentManager.StudentUpdates :=
  {| StudentManager.upd_firstName := None;
     StudentManager.upd_lastName := None;
     StudentManager.upd_grade := None;
     StudentManager.upd_classroomId := Some roomB;
     StudentManager.upd_status := None |}.

Definition move_ada_to_B : M Student.t :=
  StudentManager.updateStudent 1004 ada schoolA move_to_B.

Definition store_ada_moved : store := exec move_ada_to_B store_ada_in_A.

Definition deactivate_ada : M bool :=
  StudentManager.deactivateStudent 1005 ada schoolA (Some "left the school").

(** Three students in the school with its two classrooms. *)
Definition store_populated : store :=
  exec (StudentManager.enrollStudent 1005 schoolA None
          "Grace" "Hopper" "grace@school.test" 11)
    (exec (StudentManager.enrollStudent 1004 schoolA (Some roomB)
             "Alan" "Turing" "alan@school.test" 10)
       store_ada_in_A).

(** A classroom of capacity 10, identifier 2, and six students in it. *)
Fixpoint enroll_each (now : Z) (classroomId : jsid) (emails : list string)
  : M unit :=
  match emails with
  | [] => ret tt
  | e :: r =>
      _ <- StudentManager.enrollStudent now schoolA (Some classroomId)
             "Pupil" "Test" e 5 ;;
      enroll_each (now + 1) classroomId r
  end.

Definition store_six : store :=
  exec (enroll_each 1002 room
          ["p1@school.test"; "p2@school.test"; "p3@school.test";
           "p4@school.test"; "p5@school.test"; "p6@school.test"])
    (exec (ClassroomManager.createClassroom 1001 schoolA "Lab" 10 None)
       store_school).

Definition shrink_to_5 : ClassroomManager.ClassroomUpdates :=
  {| ClassroomManager.upd_name := None;
     ClassroomManager.upd_capacity := Some 5;
     ClassroomManager.upd_resources := None |}.

(** A second school, identifier 3, set inactive; Ada is enrolled in the
    first one, in its classroom 2, with identifier 4. *)
Definition set_inactive : SchoolManager.SchoolUpdates :=
  {| SchoolManager.upd_name := None;
     SchoolManager.upd_address := None;
     SchoolManager.upd_contactInfo := None;
     SchoolManager.upd_status := Some "inactive" |}.

Definition schoolB : jsid := client_id 3.

Definition store_two_schools : store :=
  exec (StudentManager.enrollStudent 1004 schoolA (Some room)
          "Ada" "Lovelace" "ada@school.test" 9)
    (exec (updateSchool 1003 schoolB set_inactive)
       (exec (createSchool 1002 "Shelbyville High" (Some address0) (Some contact0)
                None)
          store_room)).

Definition transfer_ada : M Student.t :=
  StudentManager.transferStudent 1005 ada schoolA schoolB "family moved away".

(** A school whose name differs from the requested one in one character. *)
Definition store_elm : store :=
  exec (createSchool 1000 "Elm St1 School" (Some address0) (Some contact0) None)
       empty_store.

Definition to_upper_string (s : string) : string :=
  string_of_list_ascii (map to_upper (list_ascii_of_string s)).

(** Equality of two names without regard to case. *)
Definition same_name_ci (a b : string) : bool :=
  String.eqb (to_upper_string a) (to_upper_string b).

(** Name, [currentStudents] and [capacity] of every classroom. *)
Definition occupancy (s : store) : list (string * Z * Z) :=
  map (fun c => (Classroom.name c, Classroom.currentStudents c,
                 Classroom.capacity c))
      (classrooms s).

(** A second enrolment under Ada's address. *)
Definition enroll_ada_again : M (option Student.t) :=
  StudentManager.enrollStudent 1003 schoolA None
    "Ada" "Byron" "ada@school.test" 10.

Definition delete_schoolA : M DeleteSchoolResult :=
  SchoolManager.deleteSchool 2000 schoolA.

Definition shrink_lab : M Classroom.t :=
  ClassroomManager.updateClassroom 1010 room schoolA shrink_to_5.

Definition delete_room : M bool :=
  ClassroomManager.deleteClassroom 1010 room schoolA.

Definition create_elm_st : M School.t :=
  createSchool 1001 "Elm St. School" (Some address0) (Some contact0) None.

(** ** What a failed precondition of [enrollStudent] means *)

Definition email_in_use (email : string) (s : store) : Prop :=
  exists d, In d (students s)
            /\ Student.email d = email /\ Student.status d = "active".

(** [c] is the classroom [classroomId] names, under [schoolId]. *)
Definition classroom_of (classroomId : option jsid) (schoolId : jsid)
  (c : Classroom.t) : Prop :=
  toObjectId_opt classroomId = inr (Classroom._id c)
  /\ Classroom.schoolId c = schoolId.

Definition classroom_missing (classroomId : option jsid) (schoolId : jsid)
  (s : store) : Prop :=
  truthy_id classroomId = true
  /\ forall c, In c (classrooms s) -> ~ classroom_of classroomId schoolId c.

Definition classroom_full (classroomId : option jsid) (schoolId : jsid)
  (s : store) : Prop :=
  truthy_id classroomId = true
  /\ exists c, In c (classrooms s)
               /\ classroom_of classroomId schoolId c
               /\ Classroom.capacity c <= Classroom.currentStudents c.

(** A computation that leaves the classroom collection as it found it,
    on success and on failure. *)
Definition keeps_classrooms {A : Type} (m : M A) : Prop :=
  forall s, classrooms (snd (m s)) = classrooms s.

(** A computation that leaves the whole store as it found it. *)
Definition keeps_store {A : Type} (m : M A) : Prop :=
  forall s, snd (m s) = s.

(** ** Requests served one after the other

    One constructor per manager method that writes; [handle] is the store
    a request leaves behind, whether the method returned or threw. *)

Inductive request : Type :=
| EnrollStudent (now : Z) (schoolId : jsid) (classroomId : option jsid)
    (firstName lastName email : string) (grade : Z)
| UpdateStudent (now : Z) (studentId schoolId : jsid)
    (updates : StudentManager.StudentUpdates)
| TransferStudent (now : Z) (studentId fromSchoolId toSchoolId : jsid)
    (reason : string)
| DeactivateStudent (now : Z) (studentId schoolId : jsid) (reason : option string)
| CreateClassroom (now : Z) (schoolId : jsid) (name : string) (capacity : Z)
    (resources : option (list string))
| UpdateClassroom (now : Z) (classroomId schoolId : jsid)
    (updates : ClassroomManager.ClassroomUpdates)
| DeleteClassroom (now : Z) (classroomId schoolId : jsid)
| CreateSchool (now : Z) (name : string) (address : option Address)
    (contactInfo : option ContactInfo) (adminId : option jsid)
| UpdateSchool (now : Z) (schoolId : jsid) (updates : SchoolManager.SchoolUpdates)
| DeleteSchool (now : Z) (schoolId : jsid).

Definition handle (new_RegExp_i : string -> option (string -> bool))
  (r : request) (s : store) : store :=
  match r with
  | EnrollStudent now schoolId classroomId firstName lastName email grade =>
      exec (StudentManager.enrollStudent now schoolId classroomId firstName
              lastName email grade) s
  | UpdateStudent now studentId schoolId updates =>
      exec (StudentManager.updateStudent now studentId schoolId updates) s
  | TransferStudent now studentId fromSchoolId toSchoolId reason =>
      exec (StudentManager.transferStudent now studentId fromSchoolId toSchoolId
              reason) s
  | DeactivateStudent now studentId schoolId reason =>
      exec (StudentManager.deactivateStudent now studentId schoolId reason) s
  | CreateClassroom now schoolId name capacity resources =>
      exec (ClassroomManager.createClassroom now schoolId name capacity resources) s
  | UpdateClassroom now classroomId schoolId updates =>
      exec (ClassroomManager.updateClassroom now classroomId schoolId updates) s
  | DeleteClassroom now classroomId schoolId =>
      exec (ClassroomManager.deleteClassroom now classroomId schoolId) s
  | CreateSchool now name address contactInfo adminId =>
      exec (SchoolManager.createSchool new_RegExp_i now name address contactInfo
              adminId) s
  | UpdateSchool now schoolId updates =>
      exec (SchoolManager.updateSchool new_RegExp_i now schoolId updates) s
  | DeleteSchool now schoolId =>
      exec (SchoolManager.deleteSchool now schoolId) s
  end.

Definition serve (new_RegExp_i : string -> option (string -> bool))
  (requests : list request) (s : store) : store :=
  fold_left (fun s r => handle new_RegExp_i r s) requests s.

(** A request the validation schemas let through, as far as the
    properties below need it: a classroom is created with a capacity
    that is not negative. *)
Definition admissible (r : request) : Prop :=
  match r with
  | CreateClassroom _ _ _ capacity _ => 0 <= capacity
  | _ => True
  end.

(** A classroom that is not soft-deleted. *)
Definition live (c : Classroom.t) : Prop := Classroom.status c <> "deleted".

(** What a list of classroom documents keeps, with [n] the next
    identifier of the store: identifiers are distinct and were all
    generated already, no classroom holds more students than its
    capacity, and two live classrooms of one school with one name are
    the same classroom. *)
Definition classrooms_ok (l : list Classroom.t) (n : N) : Prop :=
  NoDup (map Classroom._id l)
  /\ (forall c, In c l -> (Classroom._id c < n)%N)
  /\ (forall c, In c l -> Classroom.currentStudents c <= Classroom.capacity c)
  /\ (forall c1 c2, In c1 l -> In c2 l -> live c1 -> live c2 ->
        Classroom.schoolId c1 = Classroom.schoolId c2 ->
        Classroom.name c1 = Classroom.name c2 ->
        Classroom._id c1 = Classroom._id c2).

Definition well_kept (s : store) : Prop :=
  classrooms_ok (classrooms s) (next_oid s).

(** [l'] is [l] with some of the documents [q] selects replaced by
    their image under [u]. *)
Definition updated_by (q : Classroom.t -> bool) (u : Classroom.t -> Classroom.t)
  (l l' : list Classroom.t) : Prop :=
  Forall2 (fun c c' => c' = c \/ (c' = u c /\ q c = true)) l l'.

(** A computation that keeps a property of the store, on success and on
    failure. *)
Definition preserves (P : store -> Prop) {A : Type} (m : M A) : Prop :=
  forall s, P s -> P (snd (m s)).

(** A run of requests against the literal-and-dot engine, from the empty
    store: a school, two classrooms, two enrolments, a rename, a move, a
    deactivation. *)
Definition sample_requests : list request :=
  [ CreateSchool 1000 "Springfield High" (Some address0) (Some contact0) None;
    CreateClassroom 1001 schoolA "Room A" 1 None;
    CreateClassroom 1002 schoolA "Room B" 30 None;
    EnrollStudent 1003 schoolA (Some roomA) "Ada" "Lovelace" "ada@school.test" 9;
    EnrollStudent 1004 schoolA (Some roomA) "Alan" "Turing" "alan@school.test" 9;
    UpdateClassroom 1005 roomB schoolA
      {| ClassroomManager.upd_name := Some "Room A";
         ClassroomManager.upd_capacity := Some 20;
         ClassroomManager.upd_resources := None |};
    UpdateStudent 1006 ada schoolA move_to_B;
    DeactivateStudent 1007 ada schoolA None ].

(** A school whose classroom and student carry [schoolId] as an
    ObjectId, the way a caller that converts the identifier first stores
    it. *)
Definition store_oid_school : store :=
  exec (StudentManager.enrollStudent 1002 (IdObj 1) (Some (IdObj 2))
          "Ada" "Lovelace" "ada@school.test" 9)
    (exec (ClassroomManager.createClassroom 1001 (IdObj 1) "Room 1" 30 None)
       store_school).

(** ** The reading methods of the managers *)

(** [StudentManager.getStudent]: its catch block wraps like the other
    methods of the class. *)
Definition getStudent (studentId schoolId : jsid) : M Student.t :=
  try_catch
    (sid <- lift (toObjectId studentId) ;;
     student <-
       findOne studentsCollection
         (fun d => (Student._id d =? sid)%N
                   && jsid_eqb (Student.schoolId d) schoolId
                   && String.eqb (Student.status d) "active") ;;
     match student with
     | None =>
         throw (new_AppError "RESOURCE_NOT_FOUND"
                  [("resource", DStr "Student"); ("id", DId (Some studentId))])
     | Some student => ret student
     end)
    (wrap_database_error "getStudent" []).

(** [ClassroomManager.getClassroom]: its catch block rethrows an
    AppError. *)
Definition getClassroom (classroomId schoolId : jsid) : M Classroom.t :=
  try_catch
    (cid <- lift (toObjectId classroomId) ;;
     classroom <-
       findOne classroomsCollection
         (fun c => (Classroom._id c =? cid)%N
                   && jsid_eqb (Classroom.schoolId c) schoolId
                   && String.eqb (Classroom.status c) "active") ;;
     match classroom with
     | None =>
         throw (new_AppError "RESOURCE_NOT_FOUND"
                  [("resource", DStr "Classroom");
                   ("id", DId (Some classroomId));
                   ("schoolId", DId (Some schoolId))])
     | Some classroom => ret classroom
     end)
    (rethrow_or_wrap "getClassroom"
       [("classroomId", DId (Some classroomId)); ("schoolId", DId (Some schoolId))]).

(** ** [SchoolManager.recoverPartialDelete] *)

(** [collection.find(query).toArray()] *)
Definition findAll {D : Type} (c : collection D) (q : D -> bool) : M (list D) :=
  fun s => (inr (filter q (docs c s)), s).

Record CollectionState : Type := {
  state_name : string;
  deletedCount : Z;
  totalCount : Z
}.

Record RecoveryReport : Type := {
  report_schoolId : jsid;
  states : list CollectionState;
  partiallyDeleted : bool;
  fullyDeleted : bool;
  recoveryNeeded : bool
}.

Definition collection_state {D : Type} (name : string) (status : D -> string)
  (found : list D) : CollectionState :=
  {| state_name := name;
     deletedCount := count (fun d => String.eqb (status d) "deleted") found;
     totalCount := Z.of_nat (List.length found) |}.

Definition recoverPartialDelete (schoolId : jsid) : M RecoveryReport :=
  try_catch
    (sid1 <- lift (toObjectId schoolId) ;;
     schoolDocs <- findAll schoolsCollection (fun d => (School._id d =? sid1)%N) ;;
     sid2 <- lift (toObjectId schoolId) ;;
     studentDocs <-
       findAll studentsCollection
         (fun d => jsid_eqb (Student.schoolId d) (IdObj sid2)) ;;
     sid3 <- lift (toObjectId schoolId) ;;
     classroomDocs <-
       findAll classroomsCollection
         (fun c => jsid_eqb (Classroom.schoolId c) (IdObj sid3)) ;;
     let states :=
       [ collection_state "schools" School.status schoolDocs;
         collection_state "students" Student.status studentDocs;
         collection_state "classrooms" Classroom.status classroomDocs ] in
     ret {| report_schoolId := schoolId;
            states := states;
            partiallyDeleted :=
              existsb (fun st => (deletedCount st >? 0)
                                 && (deletedCount st <? totalCount st)) states;
            fullyDeleted :=
              forallb (fun st => deletedCount st =? totalCount st) states;
            recoveryNeeded :=
              existsb (fun st => deletedCount st >? 0) states |})
    (fun error =>
       throw (new_AppError "RECOVERY_CHECK_ERROR"
                [("operation", DStr "recoverPartialDelete");
                 ("schoolId", DId (Some schoolId));
                 ("details", DStr (error_message error))])).

(** ** libs/utils.js *)

Definition is_hex (c : ascii) : bool :=
  match hex_digit c with
  | Some _ => true
  | None => false
  end.

(** [isValidObjectId]: the test of [/^[0-9a-fA-F]{24}$/]. *)
Definition isValidObjectId (str : string) : bool :=
  (String.length str =? 24)%nat && forallb is_hex (list_ascii_of_string str).

Definition is_digit (c : ascii) : bool :=
  let n := nat_of_ascii c in ((48 <=? n) && (n <=? 57))%nat.

(** [phone.replace(/\D/g, '')] *)
Definition digits_only (phone : string) : string :=
  string_of_list_ascii (filter is_digit (list_ascii_of_string phone)).

(** [s.slice(from, to)] and [s.slice(from)], for [from <= to] within the
    string. *)
Definition slice (s : string) (from to : nat) : string :=
  substring from (to - from) s.

Definition slice_from (s : string) (from : nat) : string :=
  substring from (String.length s - from) s.

Definition formatPhoneNumber (phone : string) : js_error + string :=
  let cleaned := digits_only phone in
  if (String.length cleaned =? 11)%nat
  then inr ("+" ++ slice cleaned 0 1 ++ "-" ++ slice cleaned 1 4 ++ "-"
              ++ slice cleaned 4 7 ++ "-" ++ slice_from cleaned 7)
  else if (String.length cleaned =? 10)%nat
  then inr (slice cleaned 0 3 ++ "-" ++ slice cleaned 3 6 ++ "-"
              ++ slice_from cleaned 6)
  else inl (JsError "Error" "Invalid phone number format").

(** ** ResponseDispatcher and the enrolment route *)

(** The options object of [dispatch]; [None] is an absent key, which
    takes the default of the parameter list. *)
Record DispatchOptions (D : Type) : Type := {
  opt_ok : option bool;
  opt_data : option D;
  opt_errors : option (list string);
  opt_code : option Z;
  opt_message : option string
}.
Arguments opt_ok {D} _.
Arguments opt_data {D} _.
Arguments opt_errors {D} _.
Arguments opt_code {D} _.
Arguments opt_message {D} _.

(** What the client receives: the HTTP status and the JSON body.
    [body_data] is [None] for the empty object. *)
Record Response (D : Type) : Type := {
  statusCode : Z;
  body_ok : bool;
  body_data : option D;
  body_errors : list string;
  body_message : string;
  body_timestamp : Z
}.
Arguments statusCode {D} _.
Arguments body_ok {D} _.
Arguments body_data {D} _.
Arguments body_errors {D} _.
Arguments body_message {D} _.
Arguments body_timestamp {D} _.

(** [dispatch(res, { ok = false, data = {}, errors = [], code = 200,
    message = '' })] with [statusCode = code || (ok ? 200 : 400)]. *)
Definition dispatch {D : Type} (now : Z) (o : DispatchOptions D) : Response D :=
  let ok := match opt_ok o with Some b => b | None => false end in
  let code := match opt_code o with Some c => c | None => 200 end in
  {| statusCode := if code =? 0 then (if ok then 200 else 400) else code;
     body_ok := ok;
     body_data := opt_data o;
     body_errors := match opt_errors o with Some l => l | None => [] end;
     body_message := match opt_message o with Some m => m | None => "" end;
     body_timestamp := now |}.

(** The validated body of [POST /schools/:schoolId/students]. *)
Record EnrollBody : Type := {
  body_schoolId : string;
  body_classroomId : option string;
  body_firstName : string;
  body_lastName : string;
  body_email : string;
  body_grade : Z
}.

(** The handler of [POST /schools/:schoolId/students] in
    schoolAdmin.routes.js: the manager is called with the body and the
    [schoolId] of the path, its result is dispatched with code 201, an
    error is dispatched with its message and no code. *)
Definition post_student (now : Z) (params_schoolId : string) (body : EnrollBody)
  (s : store) : Response (option Student.t) * store :=
  match StudentManager.enrollStudent now (IdStr params_schoolId)
          (option_map IdStr (body_classroomId body))
          (body_firstName body) (body_lastName body) (body_email body)
          (body_grade body) s with
  | (inr result, s') =>
      (dispatch now {| opt_ok := Some true; opt_data := Some result;
                       opt_errors := None; opt_code := Some 201;
                       opt_message := None |}, s')
  | (inl error, s') =>
      (dispatch now {| opt_ok := Some false; opt_data := None;
                       opt_errors := Some [error_message error];
                       opt_code := None; opt_message := None |}, s')
  end.

(** ** The authorization middlewares *)

(** [req.user], the decoded token. *)
Record Principal : Type := {
  principal_role : string;
  principal_schoolId : option string
}.

Inductive middleware_result : Type :=
| Next
| Refused (status : Z) (errors : list string).

(** [checkRole(roles)]: a missing [req.user] is a TypeError, caught like
    the refusal. *)
Definition checkRole (roles : list string) (user : option Principal)
  : middleware_result :=
  match user with
  | None => Refused 403 ["Access denied"]
  | Some u =>
      if existsb (String.eqb (principal_role u)) roles then Next
      else Refused 403 ["Access denied"]
  end.

(** [checkSchoolAccess], on [req.params.schoolId] and [req.user]. *)
Definition checkSchoolAccess (params_schoolId : option string)
  (user : option Principal) : middleware_result :=
  if negb (truthy_str params_schoolId) then Refused 403 ["Access denied"]
  else
    match user with
    | None => Refused 403 ["Access denied"]
    | Some u =>
        if String.eqb (principal_role u) "superadmin" then Next
        else if String.eqb (principal_role u) "school_admin"
                && opt_eqb String.eqb (principal_schoolId u) params_schoolId
        then Next
        else Refused 403 ["Access denied"]
    end.

(** [schoolAdminMiddleware] of schoolAdmin.routes.js: the two
    middlewares in a row, the second one run when the first calls
    [next]. *)
Definition schoolAdminMiddleware (params_schoolId : option string)
  (user : option Principal) : middleware_result :=
  match checkRole ["school_admin"; "superadmin"] user with
  | Next => checkSchoolAccess params_schoolId user
  | refused => refused
  end.

(** ** The lock-out methods of the User model *)

Record LoginState : Type := {
  failedLoginAttempts : Z;
  accountLocked : bool;
  lockUntil : option Z
}.

(** The fields a new user document gets from the schema defaults. *)
Definition new_login_state : LoginState :=
  {| failedLoginAttempts := 0; accountLocked := false; lockUntil := None |}.

(** [handleFailedLogin], at the instant [now]: the document as it is
    handed to [save]. *)
Definition handleFailedLogin (u : LoginState) (now : Z) : LoginState :=
  let attempts := failedLoginAttempts u + 1 in
  if attempts >=? 5
  then {| failedLoginAttempts := attempts;
          accountLocked := true;
          lockUntil := Some (now + 30 * 60 * 1000) |}
  else {| failedLoginAttempts := attempts;
          accountLocked := accountLocked u;
          lockUntil := lockUntil u |}.

Definition resetLoginAttempts (u : LoginState) : LoginState :=
  {| failedLoginAttempts := 0; accountLocked := false; lockUntil := None |}.

Definition isLocked (u : LoginState) (now : Z) : bool :=
  if negb (accountLocked u) then false
  else match lockUntil u with
       | None => false
       | Some t => now <? t
       end.

(** * Properties *)

(** ** Library facts *)

Lemma jsid_eqb_eq (a b : jsid) : jsid_eqb a b = true <-> a = b.
Proof.
  destruct a as [x|x], b as [y|y]; simpl; split; intros H;
    try discriminate; try (inversion H; subst).
  - apply String.eqb_eq in H. now subst.
  - apply String.eqb_refl.
  - apply N.eqb_eq in H. now subst.
  - apply N.eqb_refl.
Qed.

Lemma find_some_exists {D : Type} (q : D -> bool) (l : list D) (d : D) :
  In d l -> q d = true -> exists d', find q l = Some d'.
Proof.
  intros Hin Hq. destruct (find q l) as [d'|] eqn:E.
  - now exists d'.
  - rewrite (find_none q l E d Hin) in Hq. discriminate.
Qed.

Lemma NoDup_key_unique {D K : Type} (key : D -> K) (l : list D) (a b : D) :
  NoDup (map key l) -> In a l -> In b l -> key a = key b -> a = b.
Proof.
  induction l as [|x l IH]; simpl; intros Hnd Ha Hb Hk.
  - contradiction.
  - inversion Hnd as [|? ? Hnotin Hnd']; subst.
    destruct Ha as [<-|Ha], Hb as [<-|Hb]; auto.
    + exfalso. apply Hnotin. rewrite Hk. now apply in_map.
    + exfalso. apply Hnotin. rewrite <- Hk. now apply in_map.
Qed.

Lemma update_first_some {D : Type} (q : D -> bool) (u : D -> D) (l : list D)
  (r : D) :
  fst (update_first q u l) = Some r -> exists d, In d l /\ q d = true /\ r = u d.
Proof.
  induction l as [|x l IH]; simpl; intros H.
  - discriminate.
  - destruct (q x) eqn:Q.
    + simpl in H. inversion H; subst. exists x. auto.
    + destruct (update_first q u l) as [o l'] eqn:E. simpl in *.
      destruct (IH H) as (d & Hin & Hq & Hr). exists d. auto.
Qed.

Lemma update_first_none {D : Type} (q : D -> bool) (u : D -> D) (l : list D) :
  (forall d, In d l -> q d = false) -> update_first q u l = (None, l).
Proof.
  induction l as [|x l IH]; simpl; intros H.
  - reflexivity.
  - rewrite (H x (or_introl eq_refl)).
    rewrite IH by (intros d Hd; apply H; now right). reflexivity.
Qed.

(** Undoing an update of the first match: when [v] reverts [u] and [u]
    keeps the key the filter reads, the list is back as it was. *)
Lemma update_first_undo {D : Type} (q : D -> bool) (u v : D -> D) (l : list D) :
  (forall d, q (u d) = q d) -> (forall d, v (u d) = d) ->
  snd (update_first q v (snd (update_first q u l))) = l.
Proof.
  intros Hq Hv. induction l as [|x l IH]; simpl.
  - reflexivity.
  - destruct (q x) eqn:Q; simpl.
    + rewrite Hq, Q. simpl. now rewrite Hv.
    + destruct (update_first q u l) as [o l'] eqn:E. simpl in *.
      rewrite Q. destruct (update_first q v l') as [o' l''] eqn:E'.
      simpl in *. now rewrite IH.
Qed.

(** ** Errors that reach the caller *)

(** A method whose catch block wraps whatever was thrown hands its caller
    nothing but DATABASE_ERROR, whatever the body detected. *)
Lemma wrapped_errors_are_DATABASE_ERROR {A : Type} (body : M A)
  (operation : string) (ids : list (string * detail)) (s s' : store)
  (e : js_error) :
  try_catch body (wrap_database_error operation ids) s = (inl e, s') ->
  error_code e = Some "DATABASE_ERROR".
Proof.
  unfold try_catch, wrap_database_error, throw.
  destruct (body s) as [[e0|a] s0]; intros H; inversion H; subst; reflexivity.
Qed.

(** X12: whatever [enrollStudent], [updateStudent], [transferStudent]
    and [deactivateStudent] detect, the only kind of error their caller
    ever receives is DATABASE_ERROR. *)
Lemma StudentManager_throws_DATABASE_ERROR_only :
  (forall now schoolId classroomId firstName lastName email grade s s' e,
      StudentManager.enrollStudent now schoolId classroomId firstName lastName
        email grade s = (inl e, s') ->
      error_code e = Some "DATABASE_ERROR")
  /\ (forall now studentId schoolId updates s s' e,
         StudentManager.updateStudent now studentId schoolId updates s
         = (inl e, s') ->
         error_code e = Some "DATABASE_ERROR")
  /\ (forall now studentId fromSchoolId toSchoolId reason s s' e,
         StudentManager.transferStudent now studentId fromSchoolId toSchoolId
           reason s = (inl e, s') ->
         error_code e = Some "DATABASE_ERROR")
  /\ (forall now studentId schoolId reason s s' e,
         StudentManager.deactivateStudent now studentId schoolId reason s
         = (inl e, s') ->
         error_code e = Some "DATABASE_ERROR").
Proof.
  repeat split; intros;
    eapply wrapped_errors_are_DATABASE_ERROR; eassumption.
Qed.

(** C2, at a duplicate address: [enrollStudent] detects that an active
    student already has the e-mail address and raises RESOURCE_EXISTS;
    its catch block wraps that error, and the caller receives
    DATABASE_ERROR with the message of the first error as detail.  The
    store is as it was. *)
Theorem duplicate_email_reaches_caller_as_DATABASE_ERROR :
  map Student.email (students store_room_full) = ["ada@school.test"]
  /\ map Student.status (students store_room_full) = ["active"]
  /\ enroll_ada_again store_room_full
     = (inl (AppError "DATABASE_ERROR" "Database operation failed" 500
               [("operation", DStr "enrollStudent");
                ("details", DStr "Resource already exists")]),
        store_room_full).
Proof. vm_compute. repeat split; reflexivity. Qed.

(** C3, scenario A: the first enrolment into the classroom of capacity 1
    succeeds and brings [currentStudents] to 1; the second one is
    refused, and what the caller receives is DATABASE_ERROR, with the
    CLASSROOM_FULL message as detail; the store is as it was. *)
Theorem second_enrolment_reports_DATABASE_ERROR :
  occupancy store_room = [("Room 1", 0, 1)]
  /\ (exists d, outcome enroll_ada store_room = inr (Some d)
                /\ Student.classroomId d = Some room
                /\ Student.status d = "active")
  /\ occupancy store_room_full = [("Room 1", 1, 1)]
  /\ enroll_alan store_room_full
     = (inl (AppError "DATABASE_ERROR" "Database operation failed" 500
               [("operation", DStr "enrollStudent");
                ("details", DStr "Classroom has reached maximum capacity")]),
        store_room_full).
Proof.
  vm_compute. repeat split; try reflexivity.
  eexists. repeat split; reflexivity.
Qed.

(** C5, at a move from Room A to Room B: [updateStudent] succeeds and
    the student now names Room B, yet no counter moves: Room A keeps 1
    and Room B keeps 0. *)
Theorem move_between_classrooms_leaves_counters :
  occupancy store_ada_in_A = [("Room A", 1, 30); ("Room B", 0, 30)]
  /\ map Student.classroomId (students store_ada_in_A) = [Some roomA]
  /\ (exists r, outcome move_ada_to_B store_ada_in_A = inr r
                /\ Student.classroomId r = Some roomB)
  /\ map Student.classroomId (students store_ada_moved) = [Some roomB]
  /\ occupancy store_ada_moved = [("Room A", 1, 30); ("Room B", 0, 30)].
Proof.
  vm_compute. repeat split; try reflexivity.
  eexists. repeat split; reflexivity.
Qed.

(** C1, after enrol, move, deactivate: the move leaves both counters,
    the deactivation then takes one off Room B, whose [currentStudents]
    ends at -1. *)
Theorem counter_below_zero_after_move_and_deactivate :
  occupancy store_ada_moved = [("Room A", 1, 30); ("Room B", 0, 30)]
  /\ outcome deactivate_ada store_ada_moved = inr true
  /\ occupancy (exec deactivate_ada store_ada_moved)
     = [("Room A", 1, 30); ("Room B", -1, 30)].
Proof. vm_compute. repeat split; reflexivity. Qed.

(** C4, scenario E with documents the managers created: the students
    and classrooms carry [schoolId] as a string, [deleteSchool] looks
    for it as an ObjectId, so it counts none, marks none, and deletes
    the school alone. *)
Theorem deleteSchool_cascade_reaches_no_dependent :
  map Student.schoolId (students store_populated) = [schoolA; schoolA; schoolA]
  /\ map Student.status (students store_populated)
     = ["active"; "active"; "active"]
  /\ map Classroom.schoolId (classrooms store_populated) = [schoolA; schoolA]
  /\ map Classroom.status (classrooms store_populated) = ["active"; "active"]
  /\ (exists r, outcome delete_schoolA store_populated = inr r
                /\ deletionSummary r
                   = {| summary_students := {| before := 0; deleted := 0 |};
                        summary_classrooms := {| before := 0; deleted := 0 |} |})
  /\ map Student.status (students (exec delete_schoolA store_populated))
     = ["active"; "active"; "active"]
  /\ map Classroom.status (classrooms (exec delete_schoolA store_populated))
     = ["active"; "active"]
  /\ map School.status (schools (exec delete_schoolA store_populated))
     = ["deleted"].
Proof.
  vm_compute. repeat split; try reflexivity.
  eexists. repeat split; reflexivity.
Qed.

(** C6, scenario B: with six students in the classroom, the request for
    capacity 5 is refused and the store is as it was; the error the
    caller receives is DATABASE_ERROR, because INVALID_OPERATION is not a
    key of the error table and constructing the error fails. *)
Theorem capacity_shrink_reports_DATABASE_ERROR :
  occupancy store_six = [("Lab", 6, 10)]
  /\ lookup "INVALID_OPERATION" errorCodes = None
  /\ shrink_lab store_six
     = (inl (AppError "DATABASE_ERROR" "Database operation failed" 500
               [("operation", DStr "updateClassroom");
                ("classroomId", DId (Some room));
                ("schoolId", DId (Some schoolA));
                ("details",
                 DStr "Cannot read properties of undefined (reading 'message')")]),
        store_six).
Proof. vm_compute. repeat split; reflexivity. Qed.

(** C7, scenario C: on the empty classroom [deleteClassroom] answers
    success and the classroom keeps its status, for the update filters
    on the identifier string; on the occupied classroom it fails and the
    status is unchanged too. *)
Theorem deleteClassroom_keeps_status :
  occupancy store_room = [("Room 1", 0, 1)]
  /\ delete_room store_room = (inr true, store_room)
  /\ map Classroom.status (classrooms store_room) = ["active"]
  /\ occupancy store_room_full = [("Room 1", 1, 1)]
  /\ (exists e, delete_room store_room_full = (inl e, store_room_full)).
Proof.
  vm_compute. repeat split; try reflexivity.
  eexists. reflexivity.
Qed.

(** C8, scenario D: the transfer to the inactive school fails and the
    store is as it was; the caller receives DATABASE_ERROR, with the
    SCHOOL_INACTIVE message as detail. *)
Theorem transfer_to_inactive_school_reports_DATABASE_ERROR :
  map School.status (schools store_two_schools) = ["active"; "inactive"]
  /\ map School._id (schools store_two_schools) = [1%N; 3%N]
  /\ transfer_ada store_two_schools
     = (inl (AppError "DATABASE_ERROR" "Database operation failed" 500
               [("operation", DStr "transferStudent");
                ("details", DStr "School is not active")]),
        store_two_schools).
Proof. vm_compute. repeat split; reflexivity. Qed.

(** C9, at a name with a full stop: the name is spliced into the
    pattern as it is, its full stop matches the digit of the existing
    name, and [createSchool] raises RESOURCE_EXISTS although no school
    has that name in any case. *)
Theorem createSchool_rejects_a_name_nobody_has :
  map School.name (schools store_elm) = ["Elm St1 School"]
  /\ forallb (fun d => negb (same_name_ci (School.name d) "Elm St. School"))
       (schools store_elm) = true
  /\ create_elm_st store_elm
     = (inl (AppError "RESOURCE_EXISTS" "Resource already exists" 409
               [("resource", DStr "School"); ("field", DStr "name");
                ("value", DStr "Elm St. School")]),
        store_elm).
Proof. vm_compute. repeat split; reflexivity. Qed.

(** ** A failed precondition of [enrollStudent] writes nothing *)

Lemma email_in_use_found (email : string) (s : store) :
  email_in_use email s ->
  exists d, find (fun d => String.eqb (Student.email d) email
                           && String.eqb (Student.status d) "active")
                 (students s) = Some d.
Proof.
  intros (d & Hin & He & Hs).
  apply (find_some_exists _ _ d Hin).
  rewrite He, Hs, !String.eqb_refl. reflexivity.
Qed.

Lemma classroom_found_is_classroom_of (classroomId : option jsid)
  (schoolId : jsid) (cid : N) (l : list Classroom.t) (c : Classroom.t) :
  toObjectId_opt classroomId = inr cid ->
  find (fun c => (Classroom._id c =? cid)%N
                 && jsid_eqb (Classroom.schoolId c) schoolId) l = Some c ->
  In c l /\ classroom_of classroomId schoolId c.
Proof.
  intros Hid Hf. apply find_some in Hf. destruct Hf as [Hin Hq].
  apply andb_true_iff in Hq. destruct Hq as [H1 H2].
  apply N.eqb_eq in H1. apply jsid_eqb_eq in H2.
  split; [assumption|]. split; [now rewrite H1 | assumption].
Qed.

(** C10: when the e-mail address belongs to an active student, or the
    classroom named is not one of the school, or that classroom is at
    capacity, [enrollStudent] fails and the store after the call is the
    store before it: no student document is inserted and no counter is
    touched.  Classroom identifiers are unique in the store. *)
Theorem enrollStudent_failed_precondition_keeps_store
  (now : Z) (schoolId : jsid) (classroomId : option jsid)
  (firstName lastName email : string) (grade : Z) (s : store) :
  NoDup (map Classroom._id (classrooms s)) ->
  email_in_use email s
  \/ classroom_missing classroomId schoolId s
  \/ classroom_full classroomId schoolId s ->
  exists e,
    StudentManager.enrollStudent now schoolId classroomId firstName lastName
      email grade s = (inl e, s).
Proof.
  intros Hnd H.
  unfold StudentManager.enrollStudent, try_catch, bind, findOne.
  cbn [docs studentsCollection classroomsCollection].
  destruct (find _ (students s)) as [d|] eqn:Ee.
  { unfold throw, wrap_database_error, throw. eexists. reflexivity. }
  destruct H as [H | H].
  { apply email_in_use_found in H. destruct H as [d Hd].
    rewrite Hd in Ee. discriminate. }
  assert (Ht : truthy_id classroomId = true) by (destruct H as [[Ht _]|[Ht _]]; exact Ht).
  rewrite Ht. unfold when.
  destruct (toObjectId_opt classroomId) as [err|cid] eqn:Eid; cbn [lift].
  { unfold throw, wrap_database_error, throw. eexists. reflexivity. }
  unfold ret at 1. cbn beta iota.
  destruct (find _ (classrooms s)) as [c|] eqn:Ec.
  2:{ unfold throw, wrap_database_error, throw. eexists. reflexivity. }
  destruct (Classroom.currentStudents c >=? Classroom.capacity c) eqn:Efull.
  { unfold throw, wrap_database_error, throw. eexists. reflexivity. }
  exfalso.
  destruct (classroom_found_is_classroom_of _ _ _ _ _ Eid Ec) as [Hin Hof].
  destruct H as [[_ Hmiss] | [_ (c' & Hin' & Hof' & Hcap)]].
  - exact (Hmiss c Hin Hof).
  - assert (c = c').
    { apply (NoDup_key_unique Classroom._id (classrooms s)); auto.
      destruct Hof as [Ha _], Hof' as [Hb _].
      rewrite Ha in Hb. now inversion Hb. }
    subst c'. rewrite Z.geb_leb in Efull. apply Z.leb_gt in Efull. lia.
Qed.

(** The full classroom of scenario A is such a call. *)
Lemma enrollStudent_failed_precondition_keeps_store_witness :
  NoDup (map Classroom._id (classrooms store_room_full))
  /\ classroom_full (Some room) schoolA store_room_full
  /\ exists e, enroll_alan store_room_full = (inl e, store_room_full).
Proof.
  assert (Hnd : NoDup (map Classroom._id (classrooms store_room_full))).
  { vm_compute. constructor; [intros [] | constructor]. }
  assert (Hfull : classroom_full (Some room) schoolA store_room_full).
  { split; [reflexivity|].
    eexists. split; [left; reflexivity|].
    split; [split; reflexivity | vm_compute; discriminate]. }
  split; [exact Hnd|]. split; [exact Hfull|].
  exact (enrollStudent_failed_precondition_keeps_store
           1003 schoolA (Some room) "Alan" "Turing" "alan@school.test" 9
           store_room_full Hnd (or_intror (or_intror Hfull))).
Defined.

(** ** [updateStudent] and the classroom counters, in general *)

Lemma findOneAndUpdate_eq {D : Type} (c : collection D) (q : D -> bool)
  (u : D -> D) (s : store) :
  findOneAndUpdate c q u s
  = (inr (fst (update_first q u (docs c s))),
     with_docs c (snd (update_first q u (docs c s))) s).
Proof.
  unfold findOneAndUpdate. now destruct (update_first q u (docs c s)).
Qed.

Lemma keeps_ret {A : Type} (a : A) : keeps_classrooms (ret a).
Proof. intros s. reflexivity. Qed.

Lemma keeps_throw {A : Type} (e : js_error) : keeps_classrooms (@throw A e).
Proof. intros s. reflexivity. Qed.

Lemma keeps_lift {A : Type} (r : js_error + A) : keeps_classrooms (lift r).
Proof. destruct r; [apply keeps_throw | apply keeps_ret]. Qed.

Lemma keeps_findOne {D : Type} (c : collection D) (q : D -> bool) :
  keeps_classrooms (findOne c q).
Proof. intros s. reflexivity. Qed.

Lemma keeps_bind_post {A B : Type} (m : M A) (k : A -> M B) :
  keeps_classrooms m ->
  (forall s a s', m s = (inr a, s') -> keeps_classrooms (k a)) ->
  keeps_classrooms (bind m k).
Proof.
  intros Hm Hk s. unfold bind. specialize (Hm s).
  destruct (m s) as [[e|a] s'] eqn:E; simpl in *.
  - exact Hm.
  - rewrite (Hk s a s' E s'). exact Hm.
Qed.

Lemma keeps_bind {A B : Type} (m : M A) (k : A -> M B) :
  keeps_classrooms m -> (forall a, keeps_classrooms (k a)) ->
  keeps_classrooms (bind m k).
Proof. intros Hm Hk. apply keeps_bind_post; auto. Qed.

Lemma keeps_try_catch {A : Type} (body : M A) (h : js_error -> M A) :
  keeps_classrooms body -> (forall e, keeps_classrooms (h e)) ->
  keeps_classrooms (try_catch body h).
Proof.
  intros Hb Hh s. unfold try_catch. specialize (Hb s).
  destruct (body s) as [[e|a] s']; simpl in *.
  - rewrite (Hh e s'). exact Hb.
  - exact Hb.
Qed.

Lemma keeps_when (c : bool) (body : M unit) :
  keeps_classrooms body -> keeps_classrooms (when c body).
Proof. intros H. destruct c; [exact H | apply keeps_ret]. Qed.

Lemma keeps_wrap {A : Type} (operation : string) (ids : list (string * detail))
  (e : js_error) :
  keeps_classrooms (@wrap_database_error A operation ids e).
Proof. apply keeps_throw. Qed.

Lemma keeps_update_students (q : Student.t -> bool) (u : Student.t -> Student.t) :
  keeps_classrooms (findOneAndUpdate studentsCollection q u).
Proof. intros s. rewrite findOneAndUpdate_eq. reflexivity. Qed.

Lemma inc_undo (c : Classroom.t) :
  inc_currentStudents 1 (inc_currentStudents (-1) c) = c.
Proof. destruct c. unfold inc_currentStudents. simpl. f_equal. lia. Qed.

(** Taking one off a classroom and adding one to the same classroom. *)
Lemma decrement_then_increment_same (o : N) :
  keeps_classrooms
    (when true
       (_ <- findOneAndUpdate classroomsCollection
               (fun c => (Classroom._id c =? o)%N) (inc_currentStudents (-1)) ;;
        ret tt) ;;;
     _ <- findOneAndUpdate classroomsCollection
            (fun c => (Classroom._id c =? o)%N) (inc_currentStudents 1) ;;
     ret tt).
Proof.
  intros s. unfold when, bind, ret.
  rewrite !findOneAndUpdate_eq.
  cbn [fst snd docs with_docs classroomsCollection classrooms].
  apply update_first_undo.
  - intros d. reflexivity.
  - apply inc_undo.
Qed.

(** After [set_updates], the document names the classroom asked for. *)
Lemma set_updates_classroomId (u : StudentManager.StudentUpdates) (now : Z)
  (d : Student.t) (i : jsid) :
  StudentManager.upd_classroomId u = Some i ->
  Student.classroomId (StudentManager.set_updates u now d) = Some i.
Proof. intros H. unfold StudentManager.set_updates. simpl. now rewrite H. Qed.

(** X11: whatever the arguments and the store, [updateStudent] leaves every
    classroom document as it was: with a string identifier the counter
    branch is skipped, with an ObjectId it takes one off and adds one to
    the same classroom. *)
Lemma updateStudent_leaves_classrooms (now : Z) (studentId schoolId : jsid)
  (updates : StudentManager.StudentUpdates) :
  keeps_classrooms (StudentManager.updateStudent now studentId schoolId updates).
Proof.
  unfold StudentManager.updateStudent.
  apply keeps_try_catch; [| intros e; apply keeps_wrap].
  set (filtered := StudentManager.filteredUpdates updates).
  destruct (StudentManager.keys_length filtered =? 0); [apply keeps_throw|].
  apply keeps_bind.
  { apply keeps_when. apply keeps_bind; [apply keeps_lift|]. intros cid.
    apply keeps_bind; [apply keeps_findOne|]. intros [c|].
    - destruct (_ >=? _); [apply keeps_throw | apply keeps_ret].
    - apply keeps_throw. }
  intros _. apply keeps_bind; [apply keeps_lift|]. intros sid.
  apply keeps_bind_post; [apply keeps_update_students|].
  intros s0 [r|] s1 Hres; [| apply keeps_throw].
  apply keeps_bind; [| intros; apply keeps_ret].
  rewrite findOneAndUpdate_eq in Hres. inversion Hres as [[Hr Hs]].
  apply update_first_some in Hr. destruct Hr as (d & _ & _ & ->).
  destruct (StudentManager.upd_classroomId filtered) as [i|] eqn:Eu;
    [| apply keeps_ret].
  rewrite (set_updates_classroomId _ _ _ _ Eu).
  destruct i as [x|o].
  - cbn [strict_neq]. rewrite String.eqb_refl, andb_false_r. apply keeps_ret.
  - cbn [truthy_id strict_neq andb toObjectId_opt toObjectId lift].
    intros s.
    pose proof (decrement_then_increment_same o s) as H.
    unfold when, bind, ret in *. exact H.
Qed.

(** ** The cascade of [deleteSchool], the update of [deleteClassroom]
    and the transfer, in general *)

Lemma count_none {D : Type} (q : D -> bool) (l : list D) :
  (forall d, In d l -> q d = false) -> count q l = 0.
Proof.
  intros H. unfold count. induction l as [|x l IH]; simpl.
  - reflexivity.
  - rewrite (H x (or_introl eq_refl)). apply IH. intros d Hd. apply H. now right.
Qed.

Lemma map_if_none {D : Type} (q : D -> bool) (u : D -> D) (l : list D) :
  (forall d, In d l -> q d = false) ->
  map (fun d => if q d then u d else d) l = l.
Proof.
  intros H. induction l as [|x l IH]; simpl.
  - reflexivity.
  - rewrite (H x (or_introl eq_refl)). f_equal. apply IH.
    intros d Hd. apply H. now right.
Qed.

Lemma updateMany_none {D : Type} (c : collection D) (q : D -> bool)
  (u : D -> D) (changed : D -> bool) (s : store) :
  (forall d, In d (docs c s) -> q d = false) ->
  updateMany c q u changed s
  = (inr {| matchedCount := 0; modifiedCount := 0 |}, with_docs c (docs c s) s).
Proof.
  intros H. unfold updateMany.
  rewrite (count_none q), (map_if_none q), (count_none (fun d => q d && changed d));
    auto.
  intros d Hd. now rewrite (H d Hd).
Qed.

(** X25: where every student and classroom carries [schoolId] as a string,
    [deleteSchool] matches none of them: both collections are as they
    were, and a summary, when one is returned, counts nothing. *)
Lemma deleteSchool_skips_string_schoolIds (now : Z) (schoolId : jsid)
  (s s' : store) (r : js_error + DeleteSchoolResult) :
  (forall d, In d (students s) -> exists x, Student.schoolId d = IdStr x) ->
  (forall c, In c (classrooms s) -> exists x, Classroom.schoolId c = IdStr x) ->
  SchoolManager.deleteSchool now schoolId s = (r, s') ->
  students s' = students s
  /\ classrooms s' = classrooms s
  /\ forall v, r = inr v ->
               deletionSummary v
               = {| summary_students := {| before := 0; deleted := 0 |};
                    summary_classrooms := {| before := 0; deleted := 0 |} |}.
Proof.
  intros Hs Hc.
  assert (Qs : forall sid d, In d (docs studentsCollection s) ->
             jsid_eqb (Student.schoolId d) (IdObj sid)
             && negb (String.eqb (Student.status d) "deleted") = false).
  { intros sid d Hd. destruct (Hs d Hd) as [x ->]. reflexivity. }
  assert (Qc : forall sid c, In c (docs classroomsCollection s) ->
             jsid_eqb (Classroom.schoolId c) (IdObj sid)
             && negb (String.eqb (Classroom.status c) "deleted") = false).
  { intros sid c Hd. destruct (Hc c Hd) as [x ->]. reflexivity. }
  unfold SchoolManager.deleteSchool, try_catch,
    SchoolManager.validateSchoolExists, rethrow_or_wrap, wrap_database_error.
  unfold bind at 1. unfold bind at 1.
  destruct (toObjectId schoolId) as [e|sid] eqn:Eid; cbn [lift throw ret].
  { destruct (instanceof_AppError e); intros H; inversion H; subst;
      repeat split; intros; congruence. }
  unfold bind at 1. unfold findOne at 1.
  destruct (find _ (docs schoolsCollection s)) as [school0|] eqn:Ef.
  2:{ cbn. intros H; inversion H; subst. repeat split; intros; congruence. }
  cbn [ret].
  unfold bind, ret, countDocuments.
  rewrite (updateMany_none studentsCollection) by (apply Qs).
  rewrite (count_none _ (docs studentsCollection s)) by (apply Qs).
  rewrite (updateMany_none classroomsCollection) by (apply Qc).
  rewrite (count_none _ (docs classroomsCollection s)) by (apply Qc).
  unfold updateOne, findOne.
  cbn [docs with_docs schoolsCollection classroomsCollection studentsCollection
       schools classrooms students next_oid matchedCount modifiedCount].
  destruct (find (fun d => (School._id d =? sid)%N) (schools s)) as [d|].
  2:{ cbn. intros H; inversion H; subst. repeat split; intros; congruence. }
  destruct (changes_school now d);
    cbn; intros H; inversion H; subst; cbn; repeat split; intros; try congruence.
  match goal with Hv : inr _ = inr _ |- _ => injection Hv as <- end.
  reflexivity.
Qed.

(** X23: with the identifier as a string, the update of [deleteClassroom]
    matches no document: the store is the same after every call. *)
Lemma deleteClassroom_string_id_keeps_store (now : Z) (x : string)
  (schoolId : jsid) :
  keeps_store (ClassroomManager.deleteClassroom now (IdStr x) schoolId).
Proof.
  intros s. unfold ClassroomManager.deleteClassroom, try_catch, rethrow_or_wrap,
    wrap_database_error.
  unfold bind at 1. unfold bind at 1.
  destruct (toObjectId (IdStr x)) as [e|cid]; cbn [lift throw ret].
  { now destruct (instanceof_AppError e). }
  unfold bind at 1. unfold findOne at 1.
  destruct (find _ (docs classroomsCollection s)) as [c|].
  2:{ reflexivity. }
  unfold bind at 1.
  destruct (Classroom.currentStudents c >? 0).
  { reflexivity. }
  cbn [ret]. unfold bind, ret. rewrite findOneAndUpdate_eq.
  rewrite update_first_none by reflexivity.
  destruct s; reflexivity.
Qed.

(** X10: a transfer towards a school that is not active fails, the caller
    receives DATABASE_ERROR, and the store is as it was. *)
Lemma transferStudent_inactive_target (now : Z)
  (studentId fromSchoolId toSchoolId : jsid) (reason : string) (s : store) :
  (forall d, In d (schools s) -> toObjectId toSchoolId = inr (School._id d) ->
             School.status d <> "active") ->
  exists e,
    StudentManager.transferStudent now studentId fromSchoolId toSchoolId reason s
    = (inl e, s)
    /\ error_code e = Some "DATABASE_ERROR".
Proof.
  intros Hina.
  unfold StudentManager.transferStudent, try_catch, wrap_database_error.
  unfold bind at 1.
  destruct (toObjectId studentId) as [e|sid]; cbn [lift throw ret].
  { eexists. split; reflexivity. }
  unfold bind at 1. unfold findOne at 1.
  destruct (find _ (docs studentsCollection s)) as [student|].
  2:{ eexists. split; reflexivity. }
  unfold bind at 1.
  destruct (toObjectId toSchoolId) as [e|tid] eqn:Et; cbn [lift throw ret].
  { eexists. split; reflexivity. }
  unfold bind at 1. unfold findOne at 1.
  destruct (find _ (docs schoolsCollection s)) as [target|] eqn:Ef.
  2:{ eexists. split; reflexivity. }
  exfalso. apply find_some in Ef. destruct Ef as [Hin Hq].
  apply andb_true_iff in Hq. destruct Hq as [H1 H2].
  apply N.eqb_eq in H1. apply String.eqb_eq in H2.
  apply (Hina target Hin); [now rewrite H1 | exact H2].
Qed.

(** ** When [createSchool] raises RESOURCE_EXISTS *)

Lemma new_AppError_missing_key (details : list (string * detail)) :
  new_AppError "VALIDATION_ERROR" details
  = JsError "TypeError" "Cannot read properties of undefined (reading 'message')"
  /\ new_AppError "INVALID_OPERATION" details
     = JsError "TypeError" "Cannot read properties of undefined (reading 'message')".
Proof. split; reflexivity. Qed.

(** For any engine: the error is RESOURCE_EXISTS exactly when the name
    is not blank, the pattern built from it is well formed, and the
    pattern matches the name of some school, whatever its status; the
    store is then as it was. *)
Lemma createSchool_RESOURCE_EXISTS_iff
  (new_RegExp_i : string -> option (string -> bool)) (now : Z) (name : string)
  (address : option Address) (contactInfo : option ContactInfo)
  (adminId : option jsid) (s : store) :
  (exists e s',
      SchoolManager.createSchool new_RegExp_i now name address contactInfo
        adminId s = (inl e, s')
      /\ error_code e = Some "RESOURCE_EXISTS")
  <-> (trim name <> ""
       /\ exists re, new_RegExp_i ("^" ++ name ++ "$") = Some re
                     /\ exists d, In d (schools s) /\ re (School.name d) = true).
Proof.
  unfold SchoolManager.createSchool, try_catch, rethrow_or_wrap,
    wrap_database_error.
  unfold bind at 1.
  destruct (String.eqb_spec (trim name) "") as [Et|Et].
  { cbn. split.
    - intros (e & s' & H & Hc). inversion H; subst. discriminate.
    - intros [Hn _]. contradiction. }
  cbn [ret]. unfold bind at 1.
  destruct (new_RegExp_i ("^" ++ name ++ "$")) as [re|] eqn:Ere; cbn [lift throw ret].
  2:{ cbn. split.
      - intros (e & s' & H & Hc). inversion H; subst. discriminate.
      - intros (_ & re & Hre & _). discriminate. }
  unfold bind at 1. unfold findOne at 1. cbn [docs schoolsCollection].
  destruct (find (fun d => re (School.name d)) (schools s)) as [d|] eqn:Ef.
  { cbn. split.
    - intros _. split; [exact Et|]. exists re. split; [reflexivity|].
      apply find_some in Ef. exists d. exact Ef.
    - intros _. eexists. eexists. split; reflexivity. }
  split.
  2:{ intros (_ & re' & Hre & d & Hin & Hm). inversion Hre; subst re'.
      rewrite (find_none _ _ Ef d Hin) in Hm. discriminate. }
  intros (e & s' & H & Hc). exfalso.
  destruct (SchoolManager.first_missing_address_field address).
  { cbn in H. inversion H; subst. discriminate. }
  destruct (SchoolManager.contact_incomplete contactInfo).
  { cbn in H. inversion H; subst. discriminate. }
  cbn in H. discriminate.
Qed.

Lemma list_ascii_of_string_app (a b : string) :
  list_ascii_of_string (a ++ b)
  = (list_ascii_of_string a ++ list_ascii_of_string b)%list.
Proof. induction a as [|c a IH]; simpl; [reflexivity | now rewrite IH]. Qed.

Lemma anchored_body_of_name (name : string) :
  anchored_body ("^" ++ name ++ "$") = Some (list_ascii_of_string name).
Proof.
  unfold anchored_body. cbn [append list_ascii_of_string].
  rewrite list_ascii_of_string_app. cbn [list_ascii_of_string Ascii.eqb Bool.eqb].
  rewrite rev_unit. cbn [Ascii.eqb Bool.eqb]. now rewrite rev_involutive.
Qed.

Lemma not_meta_not_dot (c : ascii) : is_meta c = false -> Ascii.eqb c "." = false.
Proof.
  unfold is_meta. cbn [list_ascii_of_string existsb]. intros H.
  repeat (apply orb_false_iff in H; destruct H as [? H]); assumption.
Qed.

Lemma parse_body_literal (l : list ascii) :
  forallb (fun c => negb (is_meta c)) l = true ->
  parse_body l = Some (map Lit l).
Proof.
  induction l as [|c l IH]; simpl; intros H.
  - reflexivity.
  - apply andb_true_iff in H. destruct H as [Hc Hl].
    apply negb_true_iff in Hc.
    rewrite (IH Hl), (not_meta_not_dot c Hc), Hc. reflexivity.
Qed.

Lemma atoms_match_literal (l l' : list ascii) :
  atoms_match (map Lit l) l'
  = String.eqb (string_of_list_ascii (map to_upper l))
               (string_of_list_ascii (map to_upper l')).
Proof.
  revert l'. induction l as [|c l IH]; intros [|c' l']; simpl; try reflexivity.
  rewrite IH. now destruct (Ascii.eqb (to_upper c) (to_upper c')).
Qed.

(** On a name without metacharacters the pattern is the comparison of
    the two names without regard to case. *)
Lemma literal_name_pattern (name : string) :
  forallb (fun c => negb (is_meta c)) (list_ascii_of_string name) = true ->
  exists re, literal_dot_RegExp_i ("^" ++ name ++ "$") = Some re
             /\ forall candidate, re candidate = same_name_ci name candidate.
Proof.
  intros H. unfold literal_dot_RegExp_i.
  rewrite anchored_body_of_name, (parse_body_literal _ H).
  eexists. split; [reflexivity|]. intros candidate.
  apply atoms_match_literal.
Qed.


(** ** What every request keeps *)

Lemma updated_by_update_first (q : Classroom.t -> bool)
  (u : Classroom.t -> Classroom.t) (l : list Classroom.t) :
  updated_by q u l (snd (update_first q u l)).
Proof.
  unfold updated_by. induction l as [|x l IH]; simpl.
  - constructor.
  - destruct (q x) eqn:Q; simpl.
    + constructor; [right; auto|].
      clear IH. induction l; constructor; auto.
    + destruct (update_first q u l) as [o l']. simpl in *.
      constructor; auto.
Qed.

Lemma updated_by_map (q : Classroom.t -> bool) (u : Classroom.t -> Classroom.t)
  (l : list Classroom.t) :
  updated_by q u l (map (fun d => if q d then u d else d) l).
Proof.
  unfold updated_by. induction l as [|x l IH]; simpl; constructor; auto.
  destruct (q x) eqn:Q; auto.
Qed.

Lemma updated_by_In (q : Classroom.t -> bool) (u : Classroom.t -> Classroom.t)
  (l l' : list Classroom.t) (c' : Classroom.t) :
  updated_by q u l l' -> In c' l' ->
  exists c, In c l /\ (c' = c \/ (c' = u c /\ q c = true)).
Proof.
  unfold updated_by. induction 1 as [|x y l l' Hxy _ IH]; simpl; intros Hin.
  - contradiction.
  - destruct Hin as [<-|Hin].
    + exists x. auto.
    + destruct (IH Hin) as (c & Hc & Hr). exists c. auto.
Qed.

Lemma updated_by_ids (q : Classroom.t -> bool) (u : Classroom.t -> Classroom.t)
  (l l' : list Classroom.t) :
  (forall c, Classroom._id (u c) = Classroom._id c) ->
  updated_by q u l l' ->
  map Classroom._id l' = map Classroom._id l.
Proof.
  intros Hid. unfold updated_by. induction 1 as [|x y l l' Hxy _ IH]; simpl.
  - reflexivity.
  - rewrite IH. f_equal. destruct Hxy as [->|[-> _]]; auto.
Qed.

(** The general step: an update that keeps identifier and school, never
    revives a deleted classroom, keeps the counter under the capacity on
    the documents it touches, and gives a live document no name that
    another live classroom of the school has. *)
Lemma classrooms_ok_updated (q : Classroom.t -> bool)
  (u : Classroom.t -> Classroom.t) (l l' : list Classroom.t) (n : N) :
  (forall c, Classroom._id (u c) = Classroom._id c) ->
  (forall c, Classroom.schoolId (u c) = Classroom.schoolId c) ->
  (forall c, live (u c) -> live c) ->
  (forall c, In c l -> q c = true ->
             Classroom.currentStudents c <= Classroom.capacity c ->
             Classroom.currentStudents (u c) <= Classroom.capacity (u c)) ->
  (forall c c2, In c l -> q c = true -> live (u c) -> In c2 l -> live c2 ->
                Classroom.schoolId c2 = Classroom.schoolId c ->
                Classroom.name c2 = Classroom.name (u c) ->
                Classroom._id c2 = Classroom._id c) ->
  (forall c1 c2, In c1 l -> In c2 l -> q c1 = true -> q c2 = true ->
                 live (u c1) -> live (u c2) ->
                 Classroom.schoolId c1 = Classroom.schoolId c2 ->
                 Classroom.name (u c1) = Classroom.name (u c2) ->
                 Classroom._id c1 = Classroom._id c2) ->
  updated_by q u l l' ->
  classrooms_ok l n -> classrooms_ok l' n.
Proof.
  intros Hid Hsch Hlive Hcap Hname Hname2 Hup (Hnd & Hfresh & Hle & Huniq).
  pose proof (updated_by_ids q u l l' Hid Hup) as Hids.
  split; [now rewrite Hids|]. split; [|split].
  - intros c' Hc'. destruct (updated_by_In _ _ _ _ _ Hup Hc') as (c & Hc & [->|[-> _]]).
    + auto.
    + rewrite Hid. auto.
  - intros c' Hc'. destruct (updated_by_In _ _ _ _ _ Hup Hc') as (c & Hc & [->|[-> Hq]]).
    + auto.
    + auto.
  - intros c1' c2' H1 H2 L1 L2 Es En.
    destruct (updated_by_In _ _ _ _ _ Hup H1) as (c1 & Hc1 & [->|[-> Hq1]]);
    destruct (updated_by_In _ _ _ _ _ Hup H2) as (c2 & Hc2 & [->|[-> Hq2]]).
    + auto.
    + rewrite Hid. rewrite Hsch in Es. apply (Hname c2 c1); auto.
    + rewrite Hid. rewrite Hsch in Es. symmetry. apply (Hname c1 c2); auto.
    + rewrite !Hid. rewrite !Hsch in Es. apply Hname2; auto.
Qed.

(** The same for an update that leaves the name alone and keeps the
    counter under the capacity wherever it was. *)
Lemma classrooms_ok_updated_plain (q : Classroom.t -> bool)
  (u : Classroom.t -> Classroom.t) (l l' : list Classroom.t) (n : N) :
  (forall c, Classroom._id (u c) = Classroom._id c) ->
  (forall c, Classroom.schoolId (u c) = Classroom.schoolId c) ->
  (forall c, Classroom.name (u c) = Classroom.name c) ->
  (forall c, live (u c) -> live c) ->
  (forall c, In c l -> q c = true ->
             Classroom.currentStudents c <= Classroom.capacity c ->
             Classroom.currentStudents (u c) <= Classroom.capacity (u c)) ->
  updated_by q u l l' ->
  classrooms_ok l n -> classrooms_ok l' n.
Proof.
  intros Hid Hsch Hnm Hlive Hcap Hup Hok.
  apply (classrooms_ok_updated q u l l' n); auto.
  - intros c c2 Hc Hq Lu Hc2 L2 Es En. destruct Hok as (_ & _ & _ & Huniq).
    rewrite Hnm in En. apply Huniq; auto.
  - intros c1 c2 Hc1 Hc2 _ _ L1 L2 Es En. destruct Hok as (_ & _ & _ & Huniq).
    rewrite !Hnm in En. apply Huniq; auto.
Qed.

Lemma classrooms_ok_mono (l : list Classroom.t) (n n' : N) :
  (n <= n')%N -> classrooms_ok l n -> classrooms_ok l n'.
Proof.
  intros Hn (Hnd & Hfresh & Hrest). split; [exact Hnd|]. split; [|exact Hrest].
  intros c Hc. specialize (Hfresh c Hc). lia.
Qed.

(** A new classroom with the next identifier, a counter under its
    capacity, and a name no live classroom of its school has. *)
Lemma classrooms_ok_insert (l : list Classroom.t) (n : N) (c : Classroom.t) :
  Classroom._id c = n ->
  Classroom.currentStudents c <= Classroom.capacity c ->
  (forall c2, In c2 l -> live c2 ->
              Classroom.schoolId c2 = Classroom.schoolId c ->
              Classroom.name c2 = Classroom.name c -> False) ->
  classrooms_ok l n -> classrooms_ok (l ++ [c]) (N.succ n).
Proof.
  intros Hid Hle Hnew (Hnd & Hfresh & Hcap & Huniq).
  split; [|split; [|split]].
  - rewrite map_app. simpl.
    rewrite <- (rev_involutive (map Classroom._id l ++ [Classroom._id c])).
    apply NoDup_rev. rewrite rev_app_distr. simpl.
    constructor.
    + rewrite <- in_rev. intros Hin. apply in_map_iff in Hin.
      destruct Hin as (c2 & E & Hc2). specialize (Hfresh c2 Hc2). lia.
    + now apply NoDup_rev.
  - intros x Hx. apply in_app_or in Hx. destruct Hx as [Hx|[<-|[]]].
    + specialize (Hfresh x Hx). lia.
    + lia.
  - intros x Hx. apply in_app_or in Hx. destruct Hx as [Hx|[<-|[]]]; auto.
  - intros c1 c2 H1 H2 L1 L2 Es En.
    apply in_app_or in H1. apply in_app_or in H2.
    destruct H1 as [H1|[<-|[]]], H2 as [H2|[<-|[]]]; auto.
    + exfalso. apply (Hnew c1 H1 L1 Es En).
    + exfalso. apply (Hnew c2 H2 L2); auto.
Qed.

Lemma preserves_ret (P : store -> Prop) {A : Type} (a : A) : preserves P (ret a).
Proof. intros s H. exact H. Qed.

Lemma preserves_throw (P : store -> Prop) {A : Type} (e : js_error) :
  preserves P (@throw A e).
Proof. intros s H. exact H. Qed.

Lemma preserves_lift (P : store -> Prop) {A : Type} (r : js_error + A) :
  preserves P (lift r).
Proof. destruct r; [apply preserves_throw | apply preserves_ret]. Qed.

Lemma preserves_bind (P : store -> Prop) {A B : Type} (m : M A) (k : A -> M B) :
  preserves P m -> (forall a, preserves P (k a)) -> preserves P (bind m k).
Proof.
  intros Hm Hk s H. unfold bind. specialize (Hm s H).
  destruct (m s) as [[e|a] s']; simpl in *.
  - exact Hm.
  - apply Hk. exact Hm.
Qed.

Lemma preserves_try_catch (P : store -> Prop) {A : Type} (body : M A)
  (h : js_error -> M A) :
  preserves P body -> (forall e, preserves P (h e)) ->
  preserves P (try_catch body h).
Proof.
  intros Hb Hh s H. unfold try_catch. specialize (Hb s H).
  destruct (body s) as [[e|a] s']; simpl in *.
  - apply Hh. exact Hb.
  - exact Hb.
Qed.

Lemma preserves_when (P : store -> Prop) (c : bool) (body : M unit) :
  preserves P body -> preserves P (when c body).
Proof. intros H. destruct c; [exact H | apply preserves_ret]. Qed.

Lemma preserves_wrap (P : store -> Prop) {A : Type} (operation : string)
  (ids : list (string * detail)) (e : js_error) :
  preserves P (@wrap_database_error A operation ids e).
Proof. apply preserves_throw. Qed.

Lemma preserves_rethrow (P : store -> Prop) {A : Type} (operation : string)
  (ids : list (string * detail)) (e : js_error) :
  preserves P (@rethrow_or_wrap A operation ids e).
Proof.
  unfold rethrow_or_wrap. destruct (instanceof_AppError e);
    [apply preserves_throw | apply preserves_wrap].
Qed.

Lemma preserves_findOne (P : store -> Prop) {D : Type} (c : collection D)
  (q : D -> bool) : preserves P (findOne c q).
Proof. intros s H. exact H. Qed.

Lemma preserves_countDocuments (P : store -> Prop) {D : Type} (c : collection D)
  (q : D -> bool) : preserves P (countDocuments c q).
Proof. intros s H. exact H. Qed.

Lemma well_kept_students_write (l : list Student.t) (s : store) :
  well_kept s -> well_kept (with_docs studentsCollection l s).
Proof. intros H. exact H. Qed.

Lemma well_kept_schools_write (l : list School.t) (s : store) :
  well_kept s -> well_kept (with_docs schoolsCollection l s).
Proof. intros H. exact H. Qed.

Lemma well_kept_bump (s : store) : well_kept s -> well_kept (bump_oid s).
Proof.
  unfold well_kept. simpl. apply classrooms_ok_mono. lia.
Qed.

Lemma preserves_update_students (q : Student.t -> bool) (u : Student.t -> Student.t) :
  preserves well_kept (findOneAndUpdate studentsCollection q u).
Proof. intros s H. rewrite findOneAndUpdate_eq. exact H. Qed.

Lemma preserves_update_schools (q : School.t -> bool) (u : School.t -> School.t) :
  preserves well_kept (findOneAndUpdate schoolsCollection q u).
Proof. intros s H. rewrite findOneAndUpdate_eq. exact H. Qed.

Lemma preserves_insert_students (mk : N -> Student.t) :
  preserves well_kept (insertOne studentsCollection mk).
Proof. intros s H. unfold insertOne. simpl. apply (well_kept_bump s H). Qed.

Lemma preserves_insert_schools (mk : N -> School.t) :
  preserves well_kept (insertOne schoolsCollection mk).
Proof. intros s H. unfold insertOne. simpl. apply (well_kept_bump s H). Qed.

Lemma preserves_updateMany_students (q : Student.t -> bool)
  (u : Student.t -> Student.t) (changed : Student.t -> bool) :
  preserves well_kept (updateMany studentsCollection q u changed).
Proof. intros s H. exact H. Qed.

Lemma preserves_updateOne_schools (q : School.t -> bool)
  (u : School.t -> School.t) (changed : School.t -> bool) :
  preserves well_kept (updateOne schoolsCollection q u changed).
Proof.
  intros s H. unfold updateOne.
  destruct (find q (docs schoolsCollection s)); exact H.
Qed.

(** Updates of the classroom collection that leave identifier, school
    and name alone, never revive a classroom and never push the counter
    over the capacity. *)
Lemma preserves_update_classrooms_plain (q : Classroom.t -> bool)
  (u : Classroom.t -> Classroom.t) :
  (forall c, Classroom._id (u c) = Classroom._id c) ->
  (forall c, Classroom.schoolId (u c) = Classroom.schoolId c) ->
  (forall c, Classroom.name (u c) = Classroom.name c) ->
  (forall c, live (u c) -> live c) ->
  (forall c, Classroom.currentStudents c <= Classroom.capacity c ->
             Classroom.currentStudents (u c) <= Classroom.capacity (u c)) ->
  preserves well_kept (findOneAndUpdate classroomsCollection q u).
Proof.
  intros Hid Hsch Hnm Hlive Hcap s H. rewrite findOneAndUpdate_eq.
  unfold well_kept in *. simpl.
  apply (classrooms_ok_updated_plain q u (classrooms s)); auto.
  apply updated_by_update_first.
Qed.

Lemma preserves_updateMany_classrooms_plain (q : Classroom.t -> bool)
  (u : Classroom.t -> Classroom.t) (changed : Classroom.t -> bool) :
  (forall c, Classroom._id (u c) = Classroom._id c) ->
  (forall c, Classroom.schoolId (u c) = Classroom.schoolId c) ->
  (forall c, Classroom.name (u c) = Classroom.name c) ->
  (forall c, live (u c) -> live c) ->
  (forall c, Classroom.currentStudents c <= Classroom.capacity c ->
             Classroom.currentStudents (u c) <= Classroom.capacity (u c)) ->
  preserves well_kept (updateMany classroomsCollection q u changed).
Proof.
  intros Hid Hsch Hnm Hlive Hcap s H. unfold updateMany, well_kept in *. simpl.
  apply (classrooms_ok_updated_plain q u (classrooms s)); auto.
  apply updated_by_map.
Qed.

Lemma preserves_decrement (q : Classroom.t -> bool) :
  preserves well_kept
    (findOneAndUpdate classroomsCollection q (inc_currentStudents (-1))).
Proof.
  apply preserves_update_classrooms_plain; try reflexivity; auto.
  intros c H. simpl. lia.
Qed.

Lemma preserves_set_deleted (q : Classroom.t -> bool) (now : Z) :
  preserves well_kept
    (findOneAndUpdate classroomsCollection q (ClassroomManager.set_deleted now)).
Proof.
  apply preserves_update_classrooms_plain; try reflexivity; auto.
  intros c H. exfalso. apply H. reflexivity.
Qed.

Lemma preserves_deleteMeta_classrooms (q : Classroom.t -> bool) (now : Z) :
  preserves well_kept
    (updateMany classroomsCollection q (set_deleteMeta_classroom now)
       (changes_classroom now)).
Proof.
  apply preserves_updateMany_classrooms_plain; try reflexivity; auto.
  intros c H. exfalso. apply H. reflexivity.
Qed.

(** *** The methods that only take seats away or touch no classroom *)

Lemma transferStudent_well_kept (now : Z) (studentId fromSchoolId toSchoolId : jsid)
  (reason : string) :
  preserves well_kept
    (StudentManager.transferStudent now studentId fromSchoolId toSchoolId reason).
Proof.
  unfold StudentManager.transferStudent.
  apply preserves_try_catch; [| intros; apply preserves_wrap].
  apply preserves_bind; [apply preserves_lift|]. intros sid.
  apply preserves_bind; [apply preserves_findOne|]. intros [student|];
    [| apply preserves_throw].
  apply preserves_bind; [apply preserves_lift|]. intros tid.
  apply preserves_bind; [apply preserves_findOne|]. intros [target|];
    [| apply preserves_throw].
  apply preserves_bind; [apply preserves_lift|]. intros sid'.
  apply preserves_bind; [apply preserves_update_students|]. intros [result|];
    [| apply preserves_throw].
  apply preserves_bind; [| intros; apply preserves_ret].
  apply preserves_when.
  apply preserves_bind; [apply preserves_decrement | intros; apply preserves_ret].
Qed.

Lemma deactivateStudent_well_kept (now : Z) (studentId schoolId : jsid)
  (reason : option string) :
  preserves well_kept
    (StudentManager.deactivateStudent now studentId schoolId reason).
Proof.
  unfold StudentManager.deactivateStudent.
  apply preserves_try_catch; [| intros; apply preserves_wrap].
  apply preserves_bind; [apply preserves_lift|]. intros sid.
  apply preserves_bind; [apply preserves_findOne|]. intros [student|];
    [| apply preserves_throw].
  apply preserves_bind; [apply preserves_lift|]. intros sid'.
  apply preserves_bind; [apply preserves_update_students|]. intros _.
  apply preserves_bind; [| intros; apply preserves_ret].
  apply preserves_when.
  apply preserves_bind; [apply preserves_lift|]. intros cid.
  apply preserves_bind; [apply preserves_decrement | intros; apply preserves_ret].
Qed.

Lemma deleteClassroom_well_kept (now : Z) (classroomId schoolId : jsid) :
  preserves well_kept (ClassroomManager.deleteClassroom now classroomId schoolId).
Proof.
  unfold ClassroomManager.deleteClassroom.
  apply preserves_try_catch; [| intros; apply preserves_rethrow].
  apply preserves_bind; [apply preserves_lift|]. intros cid.
  apply preserves_bind; [apply preserves_findOne|]. intros [c|];
    [| apply preserves_throw].
  apply preserves_bind.
  { destruct (_ >? _); [apply preserves_throw | apply preserves_ret]. }
  intros _.
  apply preserves_bind; [apply preserves_set_deleted | intros; apply preserves_ret].
Qed.

Lemma validateSchoolExists_well_kept (schoolId : jsid) (b : bool) :
  preserves well_kept (SchoolManager.validateSchoolExists schoolId b).
Proof.
  unfold SchoolManager.validateSchoolExists.
  apply preserves_bind; [apply preserves_lift|]. intros sid.
  apply preserves_bind; [apply preserves_findOne|]. intros [d|];
    [apply preserves_ret | apply preserves_throw].
Qed.

Lemma deleteSchool_well_kept (now : Z) (schoolId : jsid) :
  preserves well_kept (SchoolManager.deleteSchool now schoolId).
Proof.
  unfold SchoolManager.deleteSchool.
  apply preserves_try_catch; [| intros; apply preserves_rethrow].
  apply preserves_bind; [apply validateSchoolExists_well_kept|]. intros school0.
  apply preserves_bind; [apply preserves_lift|]. intros sid1.
  apply preserves_bind; [apply preserves_countDocuments|]. intros n1.
  apply preserves_bind; [apply preserves_lift|]. intros sid2.
  apply preserves_bind; [apply preserves_countDocuments|]. intros n2.
  apply preserves_bind; [apply preserves_lift|]. intros sid3.
  apply preserves_bind; [apply preserves_updateMany_students|]. intros r1.
  apply preserves_bind; [apply preserves_lift|]. intros sid4.
  apply preserves_bind; [apply preserves_deleteMeta_classrooms|]. intros r2.
  apply preserves_bind; [apply preserves_lift|]. intros sid5.
  apply preserves_bind; [apply preserves_updateOne_schools|]. intros r3.
  destruct (_ =? 0); [apply preserves_throw|].
  destruct (_ =? 0); [apply preserves_throw|].
  apply preserves_bind; [apply preserves_lift|]. intros sid6.
  apply preserves_bind; [apply preserves_findOne | intros; apply preserves_ret].
Qed.

Lemma createSchool_well_kept (new_RegExp_i : string -> option (string -> bool))
  (now : Z) (name : string) (address : option Address)
  (contactInfo : option ContactInfo) (adminId : option jsid) :
  preserves well_kept
    (SchoolManager.createSchool new_RegExp_i now name address contactInfo adminId).
Proof.
  unfold SchoolManager.createSchool.
  apply preserves_try_catch; [| intros; apply preserves_rethrow].
  apply preserves_bind.
  { destruct (String.eqb _ _); [apply preserves_throw | apply preserves_ret]. }
  intros _.
  apply preserves_bind; [apply preserves_lift|]. intros re.
  apply preserves_bind; [apply preserves_findOne|]. intros [d|];
    [apply preserves_throw|].
  destruct (SchoolManager.first_missing_address_field address);
    [apply preserves_throw|].
  destruct (SchoolManager.contact_incomplete contactInfo);
    [apply preserves_throw|].
  apply preserves_bind; [apply preserves_insert_schools | intros; apply preserves_ret].
Qed.

Lemma updateSchool_well_kept (new_RegExp_i : string -> option (string -> bool))
  (now : Z) (schoolId : jsid) (updates : SchoolManager.SchoolUpdates) :
  preserves well_kept (SchoolManager.updateSchool new_RegExp_i now schoolId updates).
Proof.
  unfold SchoolManager.updateSchool.
  apply preserves_try_catch; [| intros; apply preserves_wrap].
  apply preserves_bind; [apply validateSchoolExists_well_kept|]. intros _.
  apply preserves_bind.
  { destruct (_ =? 0); [apply preserves_throw | apply preserves_ret]. }
  intros _.
  apply preserves_bind.
  { apply preserves_when.
    apply preserves_bind; [apply preserves_lift|]. intros re.
    apply preserves_bind; [apply preserves_lift|]. intros sid.
    apply preserves_bind; [apply preserves_findOne|]. intros [d|];
      [apply preserves_throw | apply preserves_ret]. }
  intros _.
  apply preserves_bind; [apply preserves_lift|]. intros sid.
  apply preserves_update_schools.
Qed.

(** *** [updateStudent] *)

Lemma preserves_bind_post (P : store -> Prop) {A B : Type} (m : M A)
  (k : A -> M B) :
  preserves P m ->
  (forall s a s', m s = (inr a, s') -> preserves P (k a)) ->
  preserves P (bind m k).
Proof.
  intros Hm Hk s H. unfold bind. specialize (Hm s H).
  destruct (m s) as [[e|a] s'] eqn:E; simpl in *.
  - exact Hm.
  - apply (Hk s a s' E). exact Hm.
Qed.

Lemma decrement_then_increment_well_kept (o : N) :
  preserves well_kept
    (when true
       (_ <- findOneAndUpdate classroomsCollection
               (fun c => (Classroom._id c =? o)%N) (inc_currentStudents (-1)) ;;
        ret tt) ;;;
     _ <- findOneAndUpdate classroomsCollection
            (fun c => (Classroom._id c =? o)%N) (inc_currentStudents 1) ;;
     ret tt).
Proof.
  intros s H. unfold well_kept in *.
  rewrite (decrement_then_increment_same o s).
  unfold when, bind, ret. rewrite !findOneAndUpdate_eq. exact H.
Qed.

Lemma updateStudent_well_kept (now : Z) (studentId schoolId : jsid)
  (updates : StudentManager.StudentUpdates) :
  preserves well_kept (StudentManager.updateStudent now studentId schoolId updates).
Proof.
  unfold StudentManager.updateStudent.
  apply preserves_try_catch; [| intros e; apply preserves_wrap].
  set (filtered := StudentManager.filteredUpdates updates).
  destruct (StudentManager.keys_length filtered =? 0); [apply preserves_throw|].
  apply preserves_bind.
  { apply preserves_when. apply preserves_bind; [apply preserves_lift|]. intros cid.
    apply preserves_bind; [apply preserves_findOne|]. intros [c|].
    - destruct (_ >=? _); [apply preserves_throw | apply preserves_ret].
    - apply preserves_throw. }
  intros _. apply preserves_bind; [apply preserves_lift|]. intros sid.
  apply preserves_bind_post; [apply preserves_update_students|].
  intros s0 [r|] s1 Hres; [| apply preserves_throw].
  apply preserves_bind; [| intros; apply preserves_ret].
  rewrite findOneAndUpdate_eq in Hres. inversion Hres as [[Hr Hs]].
  apply update_first_some in Hr. destruct Hr as (d & _ & _ & ->).
  destruct (StudentManager.upd_classroomId filtered) as [i|] eqn:Eu;
    [| apply preserves_ret].
  rewrite (set_updates_classroomId _ _ _ _ Eu).
  destruct i as [x|o].
  - cbn [strict_neq]. rewrite String.eqb_refl, andb_false_r. apply preserves_ret.
  - cbn [truthy_id strict_neq andb toObjectId_opt toObjectId lift].
    intros s Hs'.
    pose proof (decrement_then_increment_well_kept o s Hs') as H.
    unfold when, bind, ret in *. exact H.
Qed.

(** *** [enrollStudent] *)

Lemma found_by_id_is_unique (l : list Classroom.t) (cid : N) (q : Classroom.t -> bool)
  (c c' : Classroom.t) :
  NoDup (map Classroom._id l) ->
  find (fun c => (Classroom._id c =? cid)%N && q c) l = Some c ->
  In c' l -> (Classroom._id c' =? cid)%N = true -> c' = c.
Proof.
  intros Hnd Hf Hin Hid. apply find_some in Hf. destruct Hf as [Hc Hq].
  apply andb_true_iff in Hq. destruct Hq as [Hcid _].
  apply N.eqb_eq in Hid, Hcid.
  apply (NoDup_key_unique Classroom._id l); auto. congruence.
Qed.

Lemma enrollStudent_well_kept (now : Z) (schoolId : jsid) (classroomId : option jsid)
  (firstName lastName email : string) (grade : Z) :
  preserves well_kept
    (StudentManager.enrollStudent now schoolId classroomId firstName lastName
       email grade).
Proof.
  intros s H.
  unfold StudentManager.enrollStudent, try_catch, bind, findOne.
  cbn [docs studentsCollection classroomsCollection].
  destruct (find _ (students s)) as [d|]; [exact H|].
  destruct (truthy_id classroomId) eqn:Ht; unfold when.
  2:{ cbn. apply (well_kept_bump s H). }
  destruct (toObjectId_opt classroomId) as [err|cid] eqn:Eid; cbn [lift];
    [exact H|].
  unfold ret at 1. cbn beta iota.
  destruct (find _ (classrooms s)) as [c|] eqn:Ec; [| exact H].
  destruct (Classroom.currentStudents c >=? Classroom.capacity c) eqn:Efull;
    [exact H|].
  cbn [throw ret insertOne fst snd]. rewrite findOneAndUpdate_eq.
  cbn [fst snd docs with_docs classroomsCollection studentsCollection
       classrooms students schools next_oid bump_oid].
  unfold well_kept in *. unfold ret. cbn [fst snd classrooms next_oid].
  apply (classrooms_ok_mono _ (next_oid s)); [lia|].
  apply (classrooms_ok_updated_plain
           (fun c0 => (Classroom._id c0 =? cid)%N) (inc_currentStudents 1)
           (classrooms s)); try reflexivity; auto.
  - intros c' Hin Hq _.
    destruct H as (Hnd & _).
    rewrite (found_by_id_is_unique _ _ _ c c' Hnd Ec Hin Hq).
    rewrite Z.geb_leb in Efull. apply Z.leb_gt in Efull. simpl. lia.
  - apply updated_by_update_first.
Qed.

(** *** [createClassroom] and [updateClassroom] *)

Lemma createClassroom_well_kept (now : Z) (schoolId : jsid) (name : string)
  (capacity : Z) (resources : option (list string)) :
  0 <= capacity ->
  preserves well_kept
    (ClassroomManager.createClassroom now schoolId name capacity resources).
Proof.
  intros Hcap s H.
  unfold ClassroomManager.createClassroom, try_catch, rethrow_or_wrap,
    wrap_database_error.
  unfold bind at 1. unfold bind at 1.
  destruct (toObjectId schoolId) as [e|sid]; cbn [lift throw ret].
  { now destruct (instanceof_AppError e). }
  unfold bind at 1. unfold findOne at 1.
  destruct (find _ (docs schoolsCollection s)) as [school0|]; [| exact H].
  unfold bind at 1. unfold findOne at 1.
  destruct (find _ (docs classroomsCollection s)) as [dup|] eqn:Edup; [exact H|].
  unfold bind, insertOne, findOne.
  cbn [fst snd docs with_docs classroomsCollection classrooms next_oid bump_oid].
  unfold well_kept in *.
  apply classrooms_ok_insert; auto.
  intros c2 Hin Hl Es En.
  pose proof (find_none _ _ Edup c2 Hin) as Hf. cbn beta in Hf.
  cbn [Classroom.schoolId Classroom.name] in Es, En.
  apply (proj2 (jsid_eqb_eq _ _)) in Es. rewrite Es, En, String.eqb_refl in Hf.
  simpl in Hf. apply negb_false_iff in Hf. apply String.eqb_eq in Hf.
  exact (Hl Hf).
Qed.

(** The update of [updateClassroom], once its checks have passed on the
    classroom found: no live classroom of the school has the new name,
    and the new capacity is not under the counter. *)
Lemma set_updateFields_ok (l : list Classroom.t) (n cid : N) (schoolId : jsid)
  (updates : ClassroomManager.ClassroomUpdates) (now : Z) (cur : Classroom.t) :
  classrooms_ok l n ->
  find (fun c => (Classroom._id c =? cid)%N
                 && jsid_eqb (Classroom.schoolId c) schoolId) l = Some cur ->
  truthy_num (ClassroomManager.upd_capacity updates)
  && (Classroom.currentStudents cur >?
      match ClassroomManager.upd_capacity updates with
      | Some n => n | None => 0 end) = false ->
  (truthy_str (ClassroomManager.upd_name updates)
   && negb (String.eqb match ClassroomManager.upd_name updates with
                       | Some n => n | None => "" end
                       (Classroom.name cur)) = true ->
   find (fun c => jsid_eqb (Classroom.schoolId c) schoolId
                  && String.eqb (Classroom.name c)
                       match ClassroomManager.upd_name updates with
                       | Some n => n | None => "" end
                  && negb (Classroom._id c =? cid)%N
                  && negb (String.eqb (Classroom.status c) "deleted")) l = None) ->
  classrooms_ok
    (snd (update_first
            (fun c => (Classroom._id c =? cid)%N
                      && jsid_eqb (Classroom.schoolId c) schoolId)
            (ClassroomManager.set_updateFields updates now) l)) n.
Proof.
  intros Hok Ecur Ecap Eren.
  assert (Hsame : forall c, In c l ->
            (Classroom._id c =? cid)%N
            && jsid_eqb (Classroom.schoolId c) schoolId = true -> c = cur).
  { intros c Hin Hq. apply andb_true_iff in Hq. destruct Hq as [Hq _].
    destruct Hok as (Hnd & _).
    exact (found_by_id_is_unique l cid _ cur c Hnd Ecur Hin Hq). }
  assert (Hcur : In cur l /\ Classroom._id cur = cid
                 /\ Classroom.schoolId cur = schoolId).
  { apply find_some in Ecur. destruct Ecur as [Hin Hq].
    apply andb_true_iff in Hq. destruct Hq as [H1 H2].
    apply N.eqb_eq in H1. apply jsid_eqb_eq in H2. auto. }
  destruct Hcur as (Hcin & Hcid & Hcsch).
  eapply classrooms_ok_updated; [ | | | | | | apply updated_by_update_first | exact Hok ].
  - reflexivity.
  - reflexivity.
  - intros c Hl. exact Hl.
  - intros c Hin Hq Hle. rewrite (Hsame c Hin Hq).
    unfold ClassroomManager.set_updateFields. simpl.
    destruct (truthy_num (ClassroomManager.upd_capacity updates)) eqn:Et.
    + simpl in Ecap. destruct (ClassroomManager.upd_capacity updates) as [k|];
        [| discriminate].
      rewrite Z.gtb_ltb in Ecap. apply Z.ltb_ge in Ecap. exact Ecap.
    + rewrite <- (Hsame c Hin Hq). exact Hle.
  - intros c c2 Hin Hq Lu Hin2 L2 Es En.
    rewrite (Hsame c Hin Hq) in *. clear c Hin Hq.
    destruct Hok as (_ & _ & _ & Huniq).
    unfold ClassroomManager.set_updateFields in En. simpl in En.
    destruct (truthy_str (ClassroomManager.upd_name updates)) eqn:Et.
    + destruct (String.eqb_spec
                  match ClassroomManager.upd_name updates with
                  | Some n0 => n0 | None => "" end (Classroom.name cur)) as [Esame|Ediff].
      * apply Huniq; auto. destruct (ClassroomManager.upd_name updates);
          [congruence | discriminate].
      * specialize (Eren eq_refl).
        pose proof (find_none _ _ Eren c2 Hin2) as Hf. cbn beta in Hf.
        rewrite Es, Hcsch in Hf.
        rewrite (proj2 (jsid_eqb_eq schoolId schoolId) eq_refl) in Hf.
        assert (En' : String.eqb (Classroom.name c2)
                        match ClassroomManager.upd_name updates with
                        | Some n0 => n0 | None => "" end = true).
        { apply String.eqb_eq. destruct (ClassroomManager.upd_name updates);
            [exact En | discriminate]. }
        rewrite En' in Hf.
        assert (Hst : negb (String.eqb (Classroom.status c2) "deleted") = true).
        { apply negb_true_iff. destruct (String.eqb_spec (Classroom.status c2) "deleted");
            [contradiction | reflexivity]. }
        rewrite Hst in Hf. simpl in Hf. rewrite andb_true_r in Hf.
        apply negb_false_iff in Hf. apply N.eqb_eq in Hf. congruence.
    + apply Huniq; auto.
  - intros c1 c2 H1 H2 Q1 Q2 _ _ _ _.
    rewrite (Hsame c1 H1 Q1), (Hsame c2 H2 Q2). reflexivity.
Qed.

Lemma updateClassroom_well_kept (now : Z) (classroomId schoolId : jsid)
  (updates : ClassroomManager.ClassroomUpdates) :
  preserves well_kept
    (ClassroomManager.updateClassroom now classroomId schoolId updates).
Proof.
  intros s H.
  unfold ClassroomManager.updateClassroom, try_catch, rethrow_or_wrap,
    wrap_database_error.
  cbv zeta.
  unfold bind at 1. unfold bind at 1.
  destruct (toObjectId classroomId) as [e|cid]; cbn [lift throw ret].
  { now destruct (instanceof_AppError e). }
  unfold bind at 1. unfold findOne at 1.
  destruct (find _ (docs classroomsCollection s)) as [cur|] eqn:Ecur; [| exact H].
  unfold bind at 1.
  destruct (truthy_num (ClassroomManager.upd_capacity updates)
            && (Classroom.currentStudents cur >?
                match ClassroomManager.upd_capacity updates with
                | Some n => n | None => 0 end)) eqn:Ecap;
    [exact H|].
  cbn [ret]. unfold bind at 1. unfold when.
  pose proof (set_updateFields_ok (classrooms s) (next_oid s) cid schoolId
                updates now cur H Ecur Ecap) as Hfin.
  assert (Htail :
    (truthy_str (ClassroomManager.upd_name updates)
     && negb (String.eqb match ClassroomManager.upd_name updates with
                         | Some n => n | None => "" end
                         (Classroom.name cur)) = true ->
     find (fun c => jsid_eqb (Classroom.schoolId c) schoolId
                    && String.eqb (Classroom.name c)
                         match ClassroomManager.upd_name updates with
                         | Some n => n | None => "" end
                    && negb (Classroom._id c =? cid)%N
                    && negb (String.eqb (Classroom.status c) "deleted"))
          (classrooms s) = None) ->
    forall (r : js_error + Classroom.t) (s' : store),
      ((if negb (truthy_str (ClassroomManager.upd_name updates)
                 || truthy_num (ClassroomManager.upd_capacity updates)
                 || truthy_list (ClassroomManager.upd_resources updates))
        then throw (new_AppError "INVALID_INPUT"
                      [("message", DStr "No valid update fields provided");
                       ("allowedFields", DList ["name"; "capacity"; "resources"])])
        else ret tt) ;;;
       cid'' <- ret cid ;;
       result <- findOneAndUpdate classroomsCollection
                   (fun c => (Classroom._id c =? cid'')%N
                             && jsid_eqb (Classroom.schoolId c) schoolId)
                   (ClassroomManager.set_updateFields updates now) ;;
       match result with
       | Some result0 => ret result0
       | None =>
           throw (new_AppError "DATABASE_ERROR"
                    [("message", DStr "Failed to update classroom");
                     ("classroomId", DId (Some classroomId));
                     ("schoolId", DId (Some schoolId))])
       end) s = (r, s') ->
      well_kept s').
  { intros Hren r s'. specialize (Hfin Hren).
    unfold bind at 1.
    destruct (negb (truthy_str (ClassroomManager.upd_name updates)
                    || truthy_num (ClassroomManager.upd_capacity updates)
                    || truthy_list (ClassroomManager.upd_resources updates))).
    - cbn. intros E. inversion E; subst. exact H.
    - cbn [ret]. unfold bind, ret. rewrite findOneAndUpdate_eq.
      cbn [fst snd docs with_docs classroomsCollection classrooms next_oid].
      destruct (fst (update_first _ _ (classrooms s)));
        intros E; inversion E; subst; exact Hfin. }
  destruct (truthy_str (ClassroomManager.upd_name updates)
            && negb (String.eqb match ClassroomManager.upd_name updates with
                                | Some n => n | None => "" end
                                (Classroom.name cur))) eqn:Eren.
  - cbn [ret]. unfold bind at 1. unfold findOne at 1.
    cbn [docs classroomsCollection].
    destruct (find _ (classrooms s)) as [dup|] eqn:Edup; [exact H|].
    cbn [ret].
    match goal with
    | |- context [let (_, _) := ?X in _] => destruct X as [r0 s0] eqn:Etail
    end.
    pose proof (Htail (fun _ => eq_refl) r0 s0 eq_refl) as Hk.
    destruct r0 as [e|a]; [| exact Hk].
    now destruct (instanceof_AppError e).
  - cbn [ret].
    match goal with
    | |- context [let (_, _) := ?X in _] => destruct X as [r0 s0] eqn:Etail
    end.
    pose proof (Htail (fun E => False_ind _ (Bool.diff_false_true E))
                      r0 s0 eq_refl) as Hk.
    destruct r0 as [e|a]; [| exact Hk].
    now destruct (instanceof_AppError e).
Qed.

(** *** Every request, and every run of requests *)

Lemma handle_well_kept (new_RegExp_i : string -> option (string -> bool))
  (r : request) (s : store) :
  admissible r -> well_kept s -> well_kept (handle new_RegExp_i r s).
Proof.
  intros Ha H. destruct r; simpl in *; unfold exec.
  - now apply enrollStudent_well_kept.
  - now apply updateStudent_well_kept.
  - now apply transferStudent_well_kept.
  - now apply deactivateStudent_well_kept.
  - now apply createClassroom_well_kept.
  - now apply updateClassroom_well_kept.
  - now apply deleteClassroom_well_kept.
  - now apply createSchool_well_kept.
  - now apply updateSchool_well_kept.
  - now apply deleteSchool_well_kept.
Qed.

Lemma serve_well_kept (new_RegExp_i : string -> option (string -> bool))
  (requests : list request) (s : store) :
  Forall admissible requests -> well_kept s ->
  well_kept (serve new_RegExp_i requests s).
Proof.
  unfold serve. revert s.
  induction requests as [|r rs IH]; intros s Ha H; simpl.
  - exact H.
  - inversion Ha; subst. apply IH; [assumption|].
    now apply handle_well_kept.
Qed.

Lemma empty_store_well_kept : well_kept empty_store.
Proof.
  unfold well_kept, classrooms_ok. simpl.
  repeat split; try constructor; intros; contradiction.
Qed.

Lemma sample_requests_admissible : Forall admissible sample_requests.
Proof. unfold sample_requests. repeat constructor; simpl; lia. Qed.





(** ** Identifiers as strings *)

Lemma hex_digit_hex_char (d : N) :
  (d < 16)%N -> hex_digit (hex_char d) = Some d.
Proof.
  intros H.
  destruct d as [|p]; [reflexivity|].
  do 4 (destruct p as [p|p|]; try reflexivity; try (exfalso; lia)).
Qed.

Lemma parse_hex_hex_digits (k : nat) (n : N) (acc : string) (a : N) :
  parse_hex (hex_digits k n acc) a
  = parse_hex acc (a * 16 ^ N.of_nat k + n mod 16 ^ N.of_nat k)%N.
Proof.
  revert n acc a. induction k as [|k IH]; intros n acc a.
  - simpl. rewrite N.mod_1_r. f_equal. lia.
  - cbn [hex_digits]. rewrite IH. cbn [parse_hex].
    rewrite hex_digit_hex_char by (apply N.mod_lt; lia).
    f_equal. rewrite Nat2N.inj_succ, N.pow_succ_r'.
    rewrite (N.Div0.mod_mul_r n 16 (16 ^ N.of_nat k)). lia.
Qed.

Lemma length_hex_digits (k : nat) (n : N) (acc : string) :
  String.length (hex_digits k n acc) = (k + String.length acc)%nat.
Proof.
  revert n acc. induction k as [|k IH]; intros n acc; simpl.
  - reflexivity.
  - rewrite IH. simpl. lia.
Qed.

Lemma ObjectId_of_toHexString (o : N) :
  (o < 2 ^ 96)%N -> ObjectId_of_string (toHexString o) = Some o.
Proof.
  intros H. unfold ObjectId_of_string, toHexString.
  rewrite length_hex_digits. cbn [String.length Nat.add Nat.eqb].
  rewrite parse_hex_hex_digits. cbn [parse_hex]. f_equal.
  rewrite N.mul_0_l, N.add_0_l. apply N.mod_small.
  change (16 ^ N.of_nat 24)%N with (2 ^ 96)%N. exact H.
Qed.

(** X3: an ObjectId written as the 24 hexadecimal characters a client
    reads, and handed back to [toObjectId], is the same ObjectId: any
    identifier under 2^96, the twelve bytes of an ObjectId. *)
Theorem toObjectId_of_toHexString (o : N) :
  (o < 2 ^ 96)%N -> toObjectId (IdStr (toHexString o)) = inr o.
Proof.
  intros H. unfold toObjectId. now rewrite ObjectId_of_toHexString.
Qed.

Lemma toObjectId_of_toHexString_witness :
  (255 < 2 ^ 96)%N
  /\ toObjectId (IdStr (toHexString 255)) = inr 255%N.
Proof.
  assert (H : (255 < 2 ^ 96)%N) by (vm_compute; reflexivity).
  split; [exact H|]. exact (toObjectId_of_toHexString 255 H).
Defined.

Lemma parse_hex_some_iff (s : string) (a : N) :
  (exists o, parse_hex s a = Some o)
  <-> forallb is_hex (list_ascii_of_string s) = true.
Proof.
  revert a. induction s as [|c s IH]; intros a; simpl.
  - split; [reflexivity | intros _; now exists a].
  - unfold is_hex at 1. destruct (hex_digit c) as [d|]; simpl.
    + apply IH.
    + split; [intros [o H]; discriminate | discriminate].
Qed.

(** X4: [isValidObjectId] and [toObjectId] accept the same strings: the
    ones made of 24 hexadecimal characters. *)
Theorem isValidObjectId_iff_toObjectId (str : string) :
  isValidObjectId str = true <-> exists o, toObjectId (IdStr str) = inr o.
Proof.
  unfold isValidObjectId, toObjectId, ObjectId_of_string.
  destruct (String.length str =? 24)%nat; simpl.
  - rewrite <- (parse_hex_some_iff str 0). split.
    + intros [o H]. exists o. now rewrite H.
    + intros [o H]. destruct (parse_hex str 0) as [o'|]; [now exists o' | discriminate].
  - split; [discriminate | intros [o H]; discriminate].
Qed.

(** ** [formatPhoneNumber] *)

Lemma filter_forallb {A : Type} (f : A -> bool) (l : list A) :
  forallb f (filter f l) = true.
Proof.
  induction l as [|x l IH]; simpl; [reflexivity|].
  destruct (f x) eqn:E; simpl; [now rewrite E | exact IH].
Qed.

Lemma filter_all {A : Type} (f : A -> bool) (l : list A) :
  forallb f l = true -> filter f l = l.
Proof.
  induction l as [|x l IH]; simpl; [reflexivity|].
  intros H. apply andb_true_iff in H. destruct H as [Hx Hl].
  rewrite Hx. f_equal. auto.
Qed.

(** X5: when [formatPhoneNumber] accepts a number, the digits of the
    result are the digits of the input, in order, and formatting the
    result again gives the result: the function is idempotent on what
    it accepts. *)
Theorem formatPhoneNumber_idempotent (phone formatted : string) :
  formatPhoneNumber phone = inr formatted ->
  digits_only formatted = digits_only phone
  /\ formatPhoneNumber formatted = inr formatted.
Proof.
  unfold formatPhoneNumber, digits_only.
  pose proof (filter_forallb is_digit (list_ascii_of_string phone)) as Hd.
  revert Hd. generalize (filter is_digit (list_ascii_of_string phone)) as l.
  intros l Hd H.
  assert (Hgoal : filter is_digit (list_ascii_of_string formatted) = l).
  { do 12 (destruct l as [|? l];
           [ cbn in H;
             first
               [ discriminate H
               | inversion H; subst formatted; clear H;
                 cbn [forallb] in Hd;
                 repeat (apply andb_true_iff in Hd; destruct Hd as [? Hd]);
                 cbn [list_ascii_of_string append filter];
                 repeat match goal with
                        | E : is_digit _ = true |- _ => rewrite E; clear E
                        end;
                 reflexivity ]
           | ]).
    cbn in H. discriminate H. }
  rewrite Hgoal. split; [reflexivity | exact H].
Qed.

Lemma formatPhoneNumber_idempotent_witness :
  formatPhoneNumber "(541) 555-0100" = inr "541-555-0100"
  /\ digits_only "541-555-0100" = digits_only "(541) 555-0100"
  /\ formatPhoneNumber "541-555-0100" = inr "541-555-0100".
Proof.
  assert (H : formatPhoneNumber "(541) 555-0100" = inr "541-555-0100")
    by reflexivity.
  split; [exact H|].
  exact (formatPhoneNumber_idempotent "(541) 555-0100" "541-555-0100" H).
Defined.

(** ** Enrolment: what comes back, and what can be read afterwards *)

Lemma find_app_last {D : Type} (q : D -> bool) (l : list D) (y : D) :
  (forall x, In x l -> q x = false) ->
  find q (l ++ [y])%list = if q y then Some y else None.
Proof.
  induction l as [|x l IH]; simpl; intros H.
  - reflexivity.
  - rewrite (H x (or_introl eq_refl)). apply IH. intros z Hz. apply H. now right.
Qed.

(** What [enrollStudent] does, by outcome: a failure is the wrapped
    error and writes nothing; a success appends one student and, when a
    classroom was named, adds one to the first classroom with that
    identifier. *)
Lemma enrollStudent_outcome (now : Z) (schoolId : jsid) (classroomId : option jsid)
  (firstName lastName email : string) (grade : Z) (s : store) :
  let new_student :=
    {| Student._id := next_oid s;
       Student.schoolId := schoolId;
       Student.classroomId := classroomId;
       Student.firstName := firstName;
       Student.lastName := lastName;
       Student.email := email;
       Student.grade := grade;
       Student.status := "active";
       Student.enrolledAt := now;
       Student.updatedAt := now;
       Student.lastTransferDate := None;
       Student.lastTransferReason := None;
       Student.transferHistory := [];
       Student.deactivationReason := None;
       Student.deactivatedAt := None;
       Student.meta := no_delete_meta |} in
  match StudentManager.enrollStudent now schoolId classroomId firstName lastName
          email grade s with
  | (inl e, s') =>
      s' = s
      /\ exists details,
           e = AppError "DATABASE_ERROR" "Database operation failed" 500
                 [("operation", DStr "enrollStudent"); ("details", DStr details)]
  | (inr r, s') =>
      r = find (fun d => (Student._id d =? next_oid s)%N)
            (students s ++ [new_student])%list
      /\ students s' = (students s ++ [new_student])%list
      /\ schools s' = schools s
      /\ next_oid s' = N.succ (next_oid s)
      /\ (truthy_id classroomId = false -> classrooms s' = classrooms s)
  end.
Proof.
  intros new_student.
  unfold StudentManager.enrollStudent, try_catch, bind, findOne.
  cbn [docs studentsCollection classroomsCollection].
  destruct (find _ (students s)) as [d|].
  { cbn. split; [reflexivity | eexists; reflexivity]. }
  destruct (truthy_id classroomId) eqn:Ht; unfold when.
  2:{ cbn. repeat split; reflexivity. }
  destruct (toObjectId_opt classroomId) as [err|cid] eqn:Eid; cbn [lift].
  { cbn. split; [reflexivity | eexists; reflexivity]. }
  unfold ret at 1. cbn beta iota.
  destruct (find _ (classrooms s)) as [c|].
  2:{ cbn. split; [reflexivity | eexists; reflexivity]. }
  destruct (Classroom.currentStudents c >=? Classroom.capacity c).
  { cbn. split; [reflexivity | eexists; reflexivity]. }
  cbn [throw ret insertOne fst snd]. rewrite findOneAndUpdate_eq.
  cbn. repeat split; try reflexivity. discriminate.
Qed.


(** X6: a student just enrolled can be read back.  In a store whose
    student identifiers were all generated already, after
    [enrollStudent] returns a student, [getStudent] with the identifier
    the client read and the same school returns that student. *)
Theorem getStudent_after_enrollStudent (now : Z) (schoolId : jsid)
  (classroomId : option jsid) (firstName lastName email : string) (grade : Z)
  (s s' : store) (d : Student.t) :
  (forall x, In x (students s) -> (Student._id x < next_oid s)%N) ->
  (next_oid s < 2 ^ 96)%N ->
  StudentManager.enrollStudent now schoolId classroomId firstName lastName
    email grade s = (inr (Some d), s') ->
  getStudent (client_id (Student._id d)) schoolId s' = (inr d, s').
Proof.
  intros Hfresh Hsmall Hen.
  pose proof (enrollStudent_outcome now schoolId classroomId firstName lastName
                email grade s) as H.
  cbv zeta in H. rewrite Hen in H. destruct H as (Hr & Hst & _).
  rewrite find_app_last in Hr.
  2:{ intros x Hx. apply N.eqb_neq. specialize (Hfresh x Hx). lia. }
  cbn [Student._id] in Hr. rewrite N.eqb_refl in Hr. inversion Hr; subst d.
  unfold getStudent, try_catch, bind, findOne, client_id.
  cbn [Student._id].
  rewrite toObjectId_of_toHexString by exact Hsmall.
  cbn [lift ret docs studentsCollection]. rewrite Hst.
  rewrite find_app_last.
  2:{ intros x Hx. specialize (Hfresh x Hx).
      replace (Student._id x =? next_oid s)%N with false; [reflexivity|].
      symmetry. apply N.eqb_neq. lia. }
  cbn [Student._id Student.schoolId Student.status].
  rewrite N.eqb_refl, (proj2 (jsid_eqb_eq schoolId schoolId) eq_refl).
  reflexivity.
Qed.

Lemma getStudent_after_enrollStudent_witness :
  (forall x, In x (students store_room) -> (Student._id x < next_oid store_room)%N)
  /\ (next_oid store_room < 2 ^ 96)%N
  /\ exists d,
       enroll_ada store_room = (inr (Some d), store_room_full)
       /\ getStudent (client_id (Student._id d)) schoolA store_room_full
          = (inr d, store_room_full).
Proof.
  assert (H1 : forall x, In x (students store_room) ->
                         (Student._id x < next_oid store_room)%N).
  { intros x Hx. exact (False_ind _ Hx). }
  assert (H2 : (next_oid store_room < 2 ^ 96)%N) by (vm_compute; reflexivity).
  split; [exact H1|]. split; [exact H2|].
  eexists. split.
  - vm_compute. reflexivity.
  - refine (getStudent_after_enrollStudent 1002 schoolA (Some room)
              "Ada" "Lovelace" "ada@school.test" 9 store_room store_room_full
              _ H1 H2 _).
    vm_compute. reflexivity.
Defined.

(** ** Deactivation and transfer, once they succeed *)

(** With distinct keys, the documents of the updated list that carry
    the key [k] are images of a document that carried it. *)
Lemma update_first_unique_key {D : Type} (key : D -> N) (k : N) (u : D -> D)
  (l : list D) (d' : D) :
  NoDup (map key l) -> (forall d, key (u d) = key d) ->
  In d' (snd (update_first (fun d => (key d =? k)%N) u l)) -> key d' = k ->
  exists d, In d l /\ key d = k /\ d' = u d.
Proof.
  intros Hnd Hu. induction l as [|x l IH]; simpl; intros Hin Hk.
  - contradiction.
  - apply NoDup_cons_iff in Hnd. destruct Hnd as [Hnotin Hnd'].
    destruct (key x =? k)%N eqn:Q.
    + apply N.eqb_eq in Q. simpl in Hin. destruct Hin as [<-|Hin].
      * exists x. auto.
      * exfalso. apply Hnotin. rewrite Q, <- Hk. now apply in_map.
    + destruct (update_first _ u l) as [o l'] eqn:E. simpl in *.
      destruct Hin as [<-|Hin].
      * apply N.eqb_neq in Q. contradiction.
      * destruct (IH Hnd' Hin Hk) as (d & Hd & Hkd & ->). exists d. auto.
Qed.

(** X8: a student deactivated is out of reach.  With distinct student
    identifiers, after [deactivateStudent] returns, [getStudent] for the
    same student fails and so does a second [deactivateStudent]; both
    report DATABASE_ERROR with the not-found message as detail, and
    neither writes. *)
Theorem deactivated_student_is_not_found (now now' : Z) (studentId schoolId : jsid)
  (reason reason' : option string) (s s' : store) :
  NoDup (map Student._id (students s)) ->
  StudentManager.deactivateStudent now studentId schoolId reason s
  = (inr true, s') ->
  getStudent studentId schoolId s'
  = (inl (AppError "DATABASE_ERROR" "Database operation failed" 500
            [("operation", DStr "getStudent");
             ("details", DStr "Requested resource not found")]), s')
  /\ StudentManager.deactivateStudent now' studentId schoolId reason' s'
     = (inl (AppError "DATABASE_ERROR" "Database operation failed" 500
               [("operation", DStr "deactivateStudent");
                ("details", DStr "Requested resource not found")]), s').
Proof.
  intros Hnd Hde.
  assert (Hgone : exists sid,
             toObjectId studentId = inr sid
             /\ find (fun d => (Student._id d =? sid)%N
                               && jsid_eqb (Student.schoolId d) schoolId
                               && String.eqb (Student.status d) "active")
                     (students s') = None).
  { revert Hde.
    unfold StudentManager.deactivateStudent, try_catch, wrap_database_error.
    unfold bind at 1.
    destruct (toObjectId studentId) as [e|sid] eqn:Eid; cbn [lift throw ret];
      [discriminate|].
    unfold bind at 1. unfold findOne at 1.
    destruct (find _ (docs studentsCollection s)) as [student|];
      [| discriminate].
    unfold bind at 1. cbn [ret]. unfold bind at 1.
    rewrite findOneAndUpdate_eq. cbn [fst snd].
    intros Hde. exists sid. split; [reflexivity|].
    assert (Hst : students s'
                  = snd (update_first (fun d => (Student._id d =? sid)%N)
                           (StudentManager.set_deactivated now reason)
                           (students s))).
    { revert Hde. unfold bind, when, ret.
      destruct (truthy_id (Student.classroomId student)).
      - destruct (toObjectId_opt (Student.classroomId student)); cbn [lift throw ret];
          [discriminate|].
        rewrite findOneAndUpdate_eq. cbn. intros E. inversion E. reflexivity.
      - cbn. intros E. inversion E. reflexivity. }
    rewrite Hst.
    destruct (find _ (snd (update_first _ _ (students s)))) as [d'|] eqn:Ef;
      [| reflexivity].
    exfalso. apply find_some in Ef. destruct Ef as [Hin Hq].
    apply andb_true_iff in Hq. destruct Hq as [Hq Hact].
    apply andb_true_iff in Hq. destruct Hq as [Hid _].
    apply N.eqb_eq in Hid.
    destruct (update_first_unique_key Student._id sid
                (StudentManager.set_deactivated now reason) (students s) d'
                Hnd (fun d => eq_refl) Hin Hid) as (d & _ & _ & ->).
    discriminate Hact. }
  destruct Hgone as (sid & Eid & Hnone). split.
  - unfold getStudent, try_catch, bind, findOne. rewrite Eid.
    cbn [lift ret docs studentsCollection]. rewrite Hnone. reflexivity.
  - unfold StudentManager.deactivateStudent, try_catch, bind, findOne.
    rewrite Eid. cbn [lift ret docs studentsCollection]. rewrite Hnone.
    reflexivity.
Qed.

Lemma deactivated_student_is_not_found_witness :
  NoDup (map Student._id (students store_ada_moved))
  /\ deactivate_ada store_ada_moved
     = (inr true, exec deactivate_ada store_ada_moved)
  /\ getStudent ada schoolA (exec deactivate_ada store_ada_moved)
     = (inl (AppError "DATABASE_ERROR" "Database operation failed" 500
               [("operation", DStr "getStudent");
                ("details", DStr "Requested resource not found")]),
        exec deactivate_ada store_ada_moved).
Proof.
  assert (Hnd : NoDup (map Student._id (students store_ada_moved))).
  { vm_compute. constructor; [intros [] | constructor]. }
  assert (Hde : deactivate_ada store_ada_moved
                = (inr true, exec deactivate_ada store_ada_moved))
    by (vm_compute; reflexivity).
  split; [exact Hnd|]. split; [exact Hde|].
  exact (proj1 (deactivated_student_is_not_found 1005 1006 ada schoolA
                  (Some "left the school") None store_ada_moved
                  (exec deactivate_ada store_ada_moved) Hnd Hde)).
Defined.

(** X9: what a transfer that succeeds leaves on the student.  With
    distinct student identifiers, the document returned is the student
    that was active in the source school, now under the target school,
    with no classroom, the reason recorded, one record appended to its
    transfer history, and its status still "active": the manager never
    writes "transferred". *)
Theorem transferStudent_keeps_status_active (now : Z)
  (studentId fromSchoolId toSchoolId : jsid) (reason : string)
  (s s' : store) (r : Student.t) :
  NoDup (map Student._id (students s)) ->
  StudentManager.transferStudent now studentId fromSchoolId toSchoolId reason s
  = (inr r, s') ->
  Student.status r = "active"
  /\ Student.schoolId r = toSchoolId
  /\ Student.classroomId r = None
  /\ Student.lastTransferReason r = Some reason
  /\ exists st, In st (students s)
                /\ Student._id st = Student._id r
                /\ Student.schoolId st = fromSchoolId
                /\ Student.transferHistory r
                   = (Student.transferHistory st
                      ++ [ {| tr_fromSchoolId := fromSchoolId;
                              tr_toSchoolId := toSchoolId;
                              tr_date := now; tr_reason := reason |} ])%list.
Proof.
  intros Hnd.
  unfold StudentManager.transferStudent, try_catch, wrap_database_error.
  unfold bind at 1.
  destruct (toObjectId studentId) as [e|sid]; cbn [lift throw ret];
    [discriminate|].
  unfold bind at 1. unfold findOne at 1.
  destruct (find _ (docs studentsCollection s)) as [student|] eqn:Est;
    [| discriminate].
  unfold bind at 1.
  destruct (toObjectId toSchoolId) as [e|tid]; cbn [lift throw ret];
    [discriminate|].
  unfold bind at 1. unfold findOne at 1.
  destruct (find _ (docs schoolsCollection s)) as [target|]; [| discriminate].
  unfold bind at 1. cbn [ret]. unfold bind at 1.
  rewrite findOneAndUpdate_eq. cbn [fst snd docs studentsCollection].
  destruct (fst (update_first _ _ (students s))) as [result|] eqn:Eres;
    [| discriminate].
  intros H.
  assert (Hr : r = result).
  { revert H. unfold bind, when, ret.
    destruct (truthy_id (Student.classroomId student)).
    - rewrite findOneAndUpdate_eq. cbn. intros E. now inversion E.
    - cbn. intros E. now inversion E. }
  subst r. clear H.
  apply update_first_some in Eres. destruct Eres as (d0 & Hd0 & Hq0 & ->).
  apply find_some in Est. cbn [docs studentsCollection] in Est.
  destruct Est as [Hin Hq].
  apply andb_true_iff in Hq. destruct Hq as [Hq Hact].
  apply andb_true_iff in Hq. destruct Hq as [Hid Hsch].
  apply N.eqb_eq in Hid, Hq0. apply jsid_eqb_eq in Hsch.
  apply String.eqb_eq in Hact.
  assert (d0 = student).
  { apply (NoDup_key_unique Student._id (students s)); auto. congruence. }
  subst d0. cbn. repeat split; auto.
  exists student. repeat split; auto.
Qed.

Lemma transferStudent_keeps_status_active_witness :
  NoDup (map Student._id (students store_populated))
  /\ exists r s',
       StudentManager.transferStudent 1010 ada schoolA schoolA
         "moved to another wing" store_populated = (inr r, s')
       /\ Student.status r = "active"
       /\ Student.classroomId r = None.
Proof.
  assert (Hnd : NoDup (map Student._id (students store_populated))).
  { vm_compute. repeat constructor; simpl; intuition discriminate. }
  split; [exact Hnd|].
  destruct (StudentManager.transferStudent 1010 ada schoolA schoolA
              "moved to another wing" store_populated) as [[e|r] s'] eqn:H.
  - vm_compute in H. discriminate H.
  - exists r, s'. split; [reflexivity|].
    pose proof (transferStudent_keeps_status_active 1010 ada schoolA schoolA
                  "moved to another wing" store_populated s' r Hnd H)
      as (H1 & _ & H3 & _).
    split; [exact H1 | exact H3].
Defined.

(** ** Classrooms: what is refused, and why *)

Lemma toObjectId_error (id : jsid) (err : js_error) :
  toObjectId id = inl err -> err = JsError "Error" "Invalid ID format".
Proof.
  destruct id as [x|o]; simpl; [| discriminate].
  destruct (ObjectId_of_string x); [discriminate|]. now intros [= <-].
Qed.



(** ** Deleting a school, once it succeeds *)

Lemma count_ext {D : Type} (p q : D -> bool) (l : list D) :
  (forall d, In d l -> p d = q d) -> count p l = count q l.
Proof.
  intros H. unfold count. f_equal. f_equal.
  induction l as [|x l IH]; simpl; [reflexivity|].
  rewrite (H x (or_introl eq_refl)), IH; [reflexivity|].
  intros d Hd. apply H. now right.
Qed.

(** The store and the result of a [deleteSchool] that returns. *)
Lemma deleteSchool_success (now : Z) (schoolId : jsid) (s s' : store)
  (v : DeleteSchoolResult) :
  SchoolManager.deleteSchool now schoolId s = (inr v, s') ->
  exists sid,
    toObjectId schoolId = inr sid
    /\ (exists d, find (fun d => (School._id d =? sid)%N) (schools s) = Some d)
    /\ students s'
       = map (fun d => if jsid_eqb (Student.schoolId d) (IdObj sid)
                          && negb (String.eqb (Student.status d) "deleted")
                       then set_deleteMeta_student now d else d) (students s)
    /\ classrooms s'
       = map (fun c => if jsid_eqb (Classroom.schoolId c) (IdObj sid)
                          && negb (String.eqb (Classroom.status c) "deleted")
                       then set_deleteMeta_classroom now c else c) (classrooms s)
    /\ schools s'
       = snd (update_first (fun d => (School._id d =? sid)%N)
                (set_deleteMeta_school now) (schools s))
    /\ next_oid s' = next_oid s
    /\ school v = find (fun d => (School._id d =? sid)%N) (schools s')
    /\ deletionSummary v
       = {| summary_students :=
              {| before :=
                   count (fun d => jsid_eqb (Student.schoolId d) (IdObj sid)
                                   && negb (String.eqb (Student.status d) "deleted"))
                     (students s);
                 deleted :=
                   count (fun d => jsid_eqb (Student.schoolId d) (IdObj sid)
                                   && negb (String.eqb (Student.status d) "deleted")
                                   && changes_student now d)
                     (students s) |};
            summary_classrooms :=
              {| before :=
                   count (fun c => jsid_eqb (Classroom.schoolId c) (IdObj sid)
                                   && negb (String.eqb (Classroom.status c) "deleted"))
                     (classrooms s);
                 deleted :=
                   count (fun c => jsid_eqb (Classroom.schoolId c) (IdObj sid)
                                   && negb (String.eqb (Classroom.status c) "deleted")
                                   && changes_classroom now c)
                     (classrooms s) |} |}.
Proof.
  unfold SchoolManager.deleteSchool, try_catch,
    SchoolManager.validateSchoolExists, rethrow_or_wrap, wrap_database_error.
  unfold bind at 1. unfold bind at 1.
  destruct (toObjectId schoolId) as [e|sid] eqn:Eid; cbn [lift throw ret].
  { destruct (instanceof_AppError e); discriminate. }
  unfold bind at 1. unfold findOne at 1.
  destruct (find _ (docs schoolsCollection s)) as [school0|] eqn:Ef.
  2:{ cbn. discriminate. }
  cbn [ret].
  unfold bind, ret, countDocuments, updateMany, updateOne, findOne.
  cbn [docs with_docs schoolsCollection classroomsCollection studentsCollection
       schools classrooms students next_oid matchedCount modifiedCount].
  destruct (find (fun d => (School._id d =? sid)%N) (schools s)) as [d|] eqn:Ed.
  2:{ cbn. discriminate. }
  destruct (changes_school now d); cbn; [| discriminate].
  intros H. inversion H; subst; clear H. cbn.
  exists sid. repeat split; eauto.
Qed.

Lemma find_update_first {D : Type} (q : D -> bool) (u : D -> D) (l : list D) :
  (forall d, q (u d) = q d) ->
  find q (snd (update_first q u l)) = option_map u (find q l).
Proof.
  intros Hq. induction l as [|x l IH]; simpl; [reflexivity|].
  destruct (q x) eqn:Q; simpl.
  - now rewrite Hq, Q.
  - destruct (update_first q u l) as [o l']. simpl in *. now rewrite Q.
Qed.

Lemma In_map_if {D : Type} (q : D -> bool) (u : D -> D) (l : list D) (d' : D) :
  In d' (map (fun d => if q d then u d else d) l) ->
  exists d, In d l /\ ((q d = true /\ d' = u d) \/ (q d = false /\ d' = d)).
Proof.
  intros H. apply in_map_iff in H. destruct H as (d & Hd & Hin).
  exists d. split; [exact Hin|]. destruct (q d); auto.
Qed.

(** X18: the summary of a [deleteSchool] that returns.  For students and
    for classrooms alike, [deleted] equals [before]: every document
    counted before the cascade is reported as deleted by it, whatever
    the store and the clock. *)
Theorem deleteSchool_summary_deleted_is_before (now : Z) (schoolId : jsid)
  (s s' : store) (v : DeleteSchoolResult) :
  SchoolManager.deleteSchool now schoolId s = (inr v, s') ->
  deleted (summary_students (deletionSummary v))
  = before (summary_students (deletionSummary v))
  /\ deleted (summary_classrooms (deletionSummary v))
     = before (summary_classrooms (deletionSummary v)).
Proof.
  intros H. apply deleteSchool_success in H.
  destruct H as (sid & _ & _ & _ & _ & _ & _ & _ & ->). cbn.
  split; apply count_ext; intros d _.
  - unfold changes_student.
    destruct (jsid_eqb _ _); [| reflexivity].
    destruct (String.eqb (Student.status d) "deleted"); reflexivity.
  - unfold changes_classroom.
    destruct (jsid_eqb _ _); [| reflexivity].
    destruct (String.eqb (Classroom.status d) "deleted"); reflexivity.
Qed.

Lemma deleteSchool_summary_deleted_is_before_witness :
  exists v s',
    SchoolManager.deleteSchool 1010 schoolA store_oid_school = (inr v, s')
    /\ before (summary_students (deletionSummary v)) = 1
    /\ deleted (summary_students (deletionSummary v)) = 1.
Proof.
  destruct (SchoolManager.deleteSchool 1010 schoolA store_oid_school)
    as [[e|v] s'] eqn:H.
  - vm_compute in H. discriminate H.
  - exists v, s'. split; [reflexivity|].
    destruct (deleteSchool_summary_deleted_is_before 1010 schoolA
                store_oid_school s' v H) as [Hs _].
    assert (Hb : before (summary_students (deletionSummary v)) = 1).
    { vm_compute in H. inversion H. reflexivity. }
    split; [exact Hb | now rewrite Hs].
Defined.

(** X19: the cascade of a [deleteSchool] that returns.  Every student
    and every classroom whose [schoolId] is the school's ObjectId ends
    with status "deleted", the school returned is the stored one and is
    "deleted", and the documents of other schools are left in place. *)
Theorem deleteSchool_cascade (now : Z) (schoolId : jsid) (sid : N)
  (s s' : store) (v : DeleteSchoolResult) :
  toObjectId schoolId = inr sid ->
  SchoolManager.deleteSchool now schoolId s = (inr v, s') ->
  (forall d, In d (students s') -> Student.schoolId d = IdObj sid ->
             Student.status d = "deleted")
  /\ (forall c, In c (classrooms s') -> Classroom.schoolId c = IdObj sid ->
                Classroom.status c = "deleted")
  /\ (exists d, school v = Some d /\ In d (schools s')
                /\ School._id d = sid /\ School.status d = "deleted")
  /\ (forall d, In d (students s) -> Student.schoolId d <> IdObj sid ->
                In d (students s'))
  /\ (forall c, In c (classrooms s) -> Classroom.schoolId c <> IdObj sid ->
                In c (classrooms s')).
Proof.
  intros Hid H. apply deleteSchool_success in H.
  destruct H as (sid' & Hid' & (d0 & Hd0) & Hst & Hcl & Hsc & _ & Hv & _).
  rewrite Hid in Hid'. injection Hid' as <-.
  repeat split.
  - intros d Hin Hs. rewrite Hst in Hin. apply In_map_if in Hin.
    destruct Hin as (d1 & _ & [[_ ->]|[Hq ->]]); [reflexivity|].
    rewrite Hs in Hq. simpl in Hq. rewrite N.eqb_refl in Hq. simpl in Hq.
    apply negb_false_iff in Hq. now apply String.eqb_eq in Hq.
  - intros c Hin Hs. rewrite Hcl in Hin. apply In_map_if in Hin.
    destruct Hin as (c1 & _ & [[_ ->]|[Hq ->]]); [reflexivity|].
    rewrite Hs in Hq. simpl in Hq. rewrite N.eqb_refl in Hq. simpl in Hq.
    apply negb_false_iff in Hq. now apply String.eqb_eq in Hq.
  - assert (Hf : find (fun d => (School._id d =? sid)%N) (schools s')
                 = Some (set_deleteMeta_school now d0)).
    { rewrite Hsc, find_update_first by reflexivity. now rewrite Hd0. }
    exists (set_deleteMeta_school now d0). rewrite Hv. split; [exact Hf|].
    apply find_some in Hf. destruct Hf as [Hin Hq]. apply N.eqb_eq in Hq.
    repeat split; auto.
  - intros d Hin Hs. rewrite Hst. apply in_map_iff. exists d.
    split; [| exact Hin].
    destruct (jsid_eqb (Student.schoolId d) (IdObj sid)) eqn:E; [| reflexivity].
    apply jsid_eqb_eq in E. contradiction.
  - intros c Hin Hs. rewrite Hcl. apply in_map_iff. exists c.
    split; [| exact Hin].
    destruct (jsid_eqb (Classroom.schoolId c) (IdObj sid)) eqn:E; [| reflexivity].
    apply jsid_eqb_eq in E. contradiction.
Qed.

Lemma deleteSchool_cascade_witness :
  exists v s',
    SchoolManager.deleteSchool 1010 schoolA store_oid_school = (inr v, s')
    /\ map Student.schoolId (students store_oid_school) = [IdObj 1]
    /\ forall d, In d (students s') -> Student.status d = "deleted".
Proof.
  destruct (SchoolManager.deleteSchool 1010 schoolA store_oid_school)
    as [[e|v] s'] eqn:H.
  - vm_compute in H. discriminate H.
  - exists v, s'. split; [reflexivity|]. split; [reflexivity|].
    destruct (deleteSchool_cascade 1010 schoolA 1 store_oid_school s' v
                eq_refl H) as (Hs & _).
    intros d Hin. apply Hs; [exact Hin|].
    vm_compute in H. inversion H; subst. destruct Hin as [<-|[]]. reflexivity.
Defined.

(** The schools with the identifier, after the update of the first one:
    with distinct identifiers there is one, and it is deleted. *)
Lemma deleted_school_stays_deleted (now : Z) (sid : N) (l : list School.t)
  (d' : School.t) :
  NoDup (map School._id l) ->
  In d' (snd (update_first (fun d => (School._id d =? sid)%N)
                (set_deleteMeta_school now) l)) ->
  School._id d' = sid -> School.status d' = "deleted".
Proof.
  intros Hnd Hin Hk.
  destruct (update_first_unique_key School._id sid (set_deleteMeta_school now)
              l d' Hnd (fun d => eq_refl) Hin Hk) as (d & _ & _ & ->).
  reflexivity.
Qed.

(** X20: deleting twice.  With distinct school identifiers, once
    [deleteSchool] has returned, a second call for the same school fails
    with RESOURCE_NOT_FOUND and writes nothing. *)
Theorem deleteSchool_twice_is_not_found (now now' : Z) (schoolId : jsid)
  (s s' : store) (v : DeleteSchoolResult) :
  NoDup (map School._id (schools s)) ->
  SchoolManager.deleteSchool now schoolId s = (inr v, s') ->
  SchoolManager.deleteSchool now' schoolId s'
  = (inl (AppError "RESOURCE_NOT_FOUND" "Requested resource not found" 404
            [("resource", DStr "School"); ("id", DId (Some schoolId))]), s').
Proof.
  intros Hnd H. apply deleteSchool_success in H.
  destruct H as (sid & Hid & _ & _ & _ & Hsc & _).
  unfold SchoolManager.deleteSchool, try_catch,
    SchoolManager.validateSchoolExists.
  unfold bind at 1. unfold bind at 1. rewrite Hid. cbn [lift ret].
  unfold bind at 1. unfold findOne at 1. cbn [docs schoolsCollection].
  destruct (find _ (schools s')) as [d|] eqn:Ef; [| reflexivity].
  exfalso. apply find_some in Ef. destruct Ef as [Hin Hq].
  apply andb_true_iff in Hq. destruct Hq as [Hk Hlive].
  apply N.eqb_eq in Hk. rewrite Hsc in Hin.
  rewrite (deleted_school_stays_deleted now sid _ d Hnd Hin Hk) in Hlive.
  discriminate Hlive.
Qed.

Lemma deleteSchool_twice_is_not_found_witness :
  NoDup (map School._id (schools store_oid_school))
  /\ exists v s',
       SchoolManager.deleteSchool 1010 schoolA store_oid_school = (inr v, s')
       /\ outcome (SchoolManager.deleteSchool 1011 schoolA) s'
          = inl (AppError "RESOURCE_NOT_FOUND" "Requested resource not found" 404
                   [("resource", DStr "School"); ("id", DId (Some schoolA))]).
Proof.
  assert (Hnd : NoDup (map School._id (schools store_oid_school))).
  { vm_compute. repeat constructor; simpl; intuition discriminate. }
  split; [exact Hnd|].
  destruct (SchoolManager.deleteSchool 1010 schoolA store_oid_school)
    as [[e|v] s'] eqn:H.
  - vm_compute in H. discriminate H.
  - exists v, s'. split; [reflexivity|]. unfold outcome.
    now rewrite (deleteSchool_twice_is_not_found 1010 1011 schoolA
                   store_oid_school s' v Hnd H).
Defined.

(** ** The recovery report *)

Lemma count_all {D : Type} (p : D -> bool) (l : list D) :
  (forall d, In d l -> p d = true) -> count p l = Z.of_nat (List.length l).
Proof.
  intros H. unfold count. rewrite filter_all; [reflexivity|].
  apply forallb_forall. exact H.
Qed.

(** X21: the report of [recoverPartialDelete] right after a
    [deleteSchool] that returned, with distinct school identifiers: the
    school is seen as fully deleted, not partially, and the report still
    asks for recovery, since it does so as soon as one document is
    deleted.  The check writes nothing. *)
Theorem recoverPartialDelete_after_deleteSchool (now : Z) (schoolId : jsid)
  (s s' : store) (v : DeleteSchoolResult) :
  NoDup (map School._id (schools s)) ->
  SchoolManager.deleteSchool now schoolId s = (inr v, s') ->
  exists r,
    recoverPartialDelete schoolId s' = (inr r, s')
    /\ fullyDeleted r = true
    /\ partiallyDeleted r = false
    /\ recoveryNeeded r = true.
Proof.
  intros Hnd H.
  pose proof H as H0. apply deleteSchool_success in H0.
  destruct H0 as (sid & Hid & _ & _ & _ & Hsc & _).
  destruct (deleteSchool_cascade now schoolId sid s s' v Hid H)
    as (Hst & Hcl & (d & _ & Hd & Hdk & _) & _).
  unfold recoverPartialDelete, try_catch, bind, findAll. rewrite Hid.
  cbn [lift ret docs schoolsCollection studentsCollection classroomsCollection].
  eexists. split; [reflexivity|].
  cbn [fullyDeleted partiallyDeleted recoveryNeeded states forallb existsb
       collection_state deletedCount totalCount].
  assert (C1 : count (fun d => String.eqb (School.status d) "deleted")
                 (filter (fun d => (School._id d =? sid)%N) (schools s'))
               = Z.of_nat (List.length
                   (filter (fun d => (School._id d =? sid)%N) (schools s')))).
  { apply count_all. intros x Hx. apply filter_In in Hx.
    destruct Hx as [Hx Hk]. apply N.eqb_eq in Hk. rewrite Hsc in Hx.
    now rewrite (deleted_school_stays_deleted now sid _ x Hnd Hx Hk). }
  assert (C2 : count (fun d => String.eqb (Student.status d) "deleted")
                 (filter (fun d => jsid_eqb (Student.schoolId d) (IdObj sid))
                    (students s'))
               = Z.of_nat (List.length
                   (filter (fun d => jsid_eqb (Student.schoolId d) (IdObj sid))
                      (students s')))).
  { apply count_all. intros x Hx. apply filter_In in Hx.
    destruct Hx as [Hx Hk]. apply jsid_eqb_eq in Hk.
    now rewrite (Hst x Hx Hk). }
  assert (C3 : count (fun c => String.eqb (Classroom.status c) "deleted")
                 (filter (fun c => jsid_eqb (Classroom.schoolId c) (IdObj sid))
                    (classrooms s'))
               = Z.of_nat (List.length
                   (filter (fun c => jsid_eqb (Classroom.schoolId c) (IdObj sid))
                      (classrooms s')))).
  { apply count_all. intros x Hx. apply filter_In in Hx.
    destruct Hx as [Hx Hk]. apply jsid_eqb_eq in Hk.
    now rewrite (Hcl x Hx Hk). }
  assert (P : (0 < List.length
                 (filter (fun d => (School._id d =? sid)%N) (schools s')))%nat).
  { assert (Hin : In d (filter (fun d => (School._id d =? sid)%N) (schools s'))).
    { apply filter_In. split; [exact Hd|]. now apply N.eqb_eq. }
    destruct (filter _ (schools s')); [contradiction | simpl; lia]. }
  rewrite C1, C2, C3, !Z.eqb_refl, !Z.ltb_irrefl, !andb_false_r.
  repeat split.
  apply orb_true_iff. left. apply Z.gtb_lt. lia.
Qed.

Lemma recoverPartialDelete_after_deleteSchool_witness :
  NoDup (map School._id (schools store_oid_school))
  /\ exists v s' r,
       SchoolManager.deleteSchool 1010 schoolA store_oid_school = (inr v, s')
       /\ recoverPartialDelete schoolA s' = (inr r, s')
       /\ fullyDeleted r = true.
Proof.
  assert (Hnd : NoDup (map School._id (schools store_oid_school))).
  { vm_compute. repeat constructor; simpl; intuition discriminate. }
  split; [exact Hnd|].
  destruct (SchoolManager.deleteSchool 1010 schoolA store_oid_school)
    as [[e|v] s'] eqn:H.
  - vm_compute in H. discriminate H.
  - destruct (recoverPartialDelete_after_deleteSchool 1010 schoolA
                store_oid_school s' v Hnd H) as (r & Hr & Hf & _).
    exists v, s', r. auto.
Defined.

(** X22: [recoverPartialDelete] writes nothing, and it fails only on a
    malformed identifier; what the caller then catches is not an
    AppError but the TypeError of the constructor, RECOVERY_CHECK_ERROR
    being no key of the error table. *)
Theorem recoverPartialDelete_failure_is_TypeError (schoolId : jsid)
  (s s' : store) (e : js_error) :
  recoverPartialDelete schoolId s = (inl e, s') ->
  s' = s
  /\ e = JsError "TypeError"
           "Cannot read properties of undefined (reading 'message')"
  /\ toObjectId schoolId = inl (JsError "Error" "Invalid ID format").
Proof.
  unfold recoverPartialDelete, try_catch, bind, findAll.
  destruct (toObjectId schoolId) as [err|sid] eqn:Eid; cbn [lift throw ret].
  - rewrite (toObjectId_error _ _ Eid). cbn.
    intros H. inversion H; subst. auto.
  - discriminate.
Qed.

Lemma recoverPartialDelete_failure_is_TypeError_witness :
  exists e,
    recoverPartialDelete (IdStr "not-an-id") store_school = (inl e, store_school)
    /\ error_code e = None.
Proof.
  destruct (recoverPartialDelete (IdStr "not-an-id") store_school)
    as [[e|r] s'] eqn:H.
  - destruct (recoverPartialDelete_failure_is_TypeError (IdStr "not-an-id")
                store_school s' e H) as (-> & -> & _).
    eexists. split; reflexivity.
  - vm_compute in H. discriminate H.
Defined.

(** ** Deleting a classroom by ObjectId *)

Lemma update_first_unique_match {D : Type} (key : D -> N) (k : N)
  (q : D -> bool) (u : D -> D) (l : list D) (d' : D) :
  NoDup (map key l) -> (forall d, key (u d) = key d) ->
  (forall d, q d = true -> key d = k) ->
  (exists d, In d l /\ q d = true) ->
  In d' (snd (update_first q u l)) -> key d' = k ->
  exists d, In d l /\ q d = true /\ d' = u d.
Proof.
  intros Hnd Hu Hq. induction l as [|x l IH]; simpl; intros Hex Hin Hk.
  - contradiction.
  - apply NoDup_cons_iff in Hnd. destruct Hnd as [Hnotin Hnd'].
    destruct (q x) eqn:Q.
    + simpl in Hin. destruct Hin as [<-|Hin].
      * exists x. auto.
      * exfalso. apply Hnotin. rewrite (Hq x Q), <- Hk. now apply in_map.
    + destruct (update_first q u l) as [o l'] eqn:E. simpl in *.
      destruct Hex as (d & [->|Hd] & Hqd); [congruence|].
      destruct Hin as [<-|Hin].
      * exfalso. apply Hnotin. rewrite Hk, <- (Hq d Hqd). now apply in_map.
      * destruct (IH Hnd' (ex_intro _ d (conj Hd Hqd)) Hin Hk)
          as (d0 & Hd0 & Hq0 & ->).
        exists d0. auto.
Qed.

(** X14: [deleteClassroom] called with the identifier as an ObjectId.
    With distinct classroom identifiers, once it has returned the
    classroom is out of reach: [getClassroom] for the same identifiers
    fails with RESOURCE_NOT_FOUND, which reaches the caller as raised. *)
Theorem deleteClassroom_ObjectId_then_getClassroom (now : Z) (o : N)
  (schoolId : jsid) (s s' : store) (b : bool) :
  NoDup (map Classroom._id (classrooms s)) ->
  ClassroomManager.deleteClassroom now (IdObj o) schoolId s = (inr b, s') ->
  getClassroom (IdObj o) schoolId s'
  = (inl (AppError "RESOURCE_NOT_FOUND" "Requested resource not found" 404
            [("resource", DStr "Classroom");
             ("id", DId (Some (IdObj o)));
             ("schoolId", DId (Some schoolId))]), s').
Proof.
  intros Hnd.
  unfold ClassroomManager.deleteClassroom, try_catch.
  unfold bind at 1. cbn [toObjectId lift ret].
  unfold bind at 1. unfold findOne at 1. cbn [docs classroomsCollection].
  destruct (find _ (classrooms s)) as [c|] eqn:Ef; [| cbn; discriminate].
  unfold bind at 1.
  destruct (Classroom.currentStudents c >? 0); [cbn; discriminate|].
  cbn [ret]. unfold bind, ret. rewrite findOneAndUpdate_eq.
  cbn [docs with_docs classroomsCollection].
  intros H. inversion H; subst; clear H.
  unfold getClassroom, try_catch.
  unfold bind at 1. cbn [toObjectId lift ret].
  unfold bind at 1. unfold findOne at 1.
  cbn [docs classroomsCollection classrooms].
  match goal with |- context [find ?q ?l] => destruct (find q l) as [c'|] eqn:Eg end;
    [| reflexivity].
  exfalso. apply find_some in Eg. destruct Eg as [Hin Hq].
  apply andb_true_iff in Hq. destruct Hq as [Hq Hact].
  apply andb_true_iff in Hq. destruct Hq as [Hk _]. apply N.eqb_eq in Hk.
  apply find_some in Ef. destruct Ef as [Hc Hqc].
  apply andb_true_iff in Hqc. destruct Hqc as [Hck Hcs].
  destruct (update_first_unique_match Classroom._id o
              (fun c0 => oid_matches (Classroom._id c0) (IdObj o)
                         && jsid_eqb (Classroom.schoolId c0) schoolId)
              (ClassroomManager.set_deleted now) (classrooms s) c' Hnd
              (fun d => eq_refl)) as (d & _ & _ & ->); auto.
  - intros d Hd. apply andb_true_iff in Hd. destruct Hd as [Hd _].
    unfold oid_matches in Hd. simpl in Hd. now apply N.eqb_eq in Hd.
  - exists c. split; [exact Hc|]. unfold oid_matches. simpl.
    now rewrite Hck, Hcs.
  - discriminate Hact.
Qed.

Lemma deleteClassroom_ObjectId_then_getClassroom_witness :
  NoDup (map Classroom._id (classrooms store_room))
  /\ exists s',
       ClassroomManager.deleteClassroom 1010 (IdObj 2) schoolA store_room
       = (inr true, s')
       /\ (exists c, outcome (getClassroom (IdObj 2) schoolA) store_room = inr c)
       /\ outcome (getClassroom (IdObj 2) schoolA) s'
          = inl (AppError "RESOURCE_NOT_FOUND" "Requested resource not found" 404
                   [("resource", DStr "Classroom");
                    ("id", DId (Some (IdObj 2)));
                    ("schoolId", DId (Some schoolA))]).
Proof.
  assert (Hnd : NoDup (map Classroom._id (classrooms store_room))).
  { vm_compute. repeat constructor; simpl; intuition discriminate. }
  split; [exact Hnd|].
  destruct (ClassroomManager.deleteClassroom 1010 (IdObj 2) schoolA store_room)
    as [[e|b] s'] eqn:H.
  - vm_compute in H. discriminate H.
  - exists s'. split.
    { vm_compute in H. inversion H. reflexivity. }
    split; [eexists; reflexivity|]. unfold outcome.
    now rewrite (deleteClassroom_ObjectId_then_getClassroom 1010 2 schoolA
                   store_room s' b Hnd H).
Defined.

(** ** Schools: what a refused creation looks like *)



(** ** Who gets through the school routes *)

(** X16: the middleware pair in front of every school-scoped route.  A
    request passes exactly when the path names a school and the caller
    is a superadmin, or a school_admin whose own school is the one
    named; every refusal is a 403 "Access denied"; and the role check
    in front decides nothing that the access check would not. *)
Theorem schoolAdminMiddleware_passes_iff (params_schoolId : option string)
  (user : option Principal) :
  (schoolAdminMiddleware params_schoolId user = Next
   <-> exists sid u,
         params_schoolId = Some sid /\ sid <> "" /\ user = Some u
         /\ (principal_role u = "superadmin"
             \/ (principal_role u = "school_admin"
                 /\ principal_schoolId u = Some sid)))
  /\ (schoolAdminMiddleware params_schoolId user = Next
      \/ schoolAdminMiddleware params_schoolId user
         = Refused 403 ["Access denied"])
  /\ schoolAdminMiddleware params_schoolId user
     = checkSchoolAccess params_schoolId user.
Proof.
  assert (E : schoolAdminMiddleware params_schoolId user
              = checkSchoolAccess params_schoolId user).
  { unfold schoolAdminMiddleware, checkRole, checkSchoolAccess.
    destruct user as [u|]; [| now destruct (negb _)].
    cbn [existsb].
    destruct (String.eqb_spec (principal_role u) "school_admin") as [E1|E1];
      [reflexivity|].
    destruct (String.eqb_spec (principal_role u) "superadmin") as [E2|E2];
      [reflexivity|].
    cbn. now destruct (negb _). }
  rewrite E. unfold checkSchoolAccess. repeat split.
  - destruct params_schoolId as [sid|]; [| discriminate].
    cbn [truthy_str]. destruct (String.eqb_spec sid "") as [Es|Es].
    { cbn. discriminate. }
    cbn [negb]. intros H. exists sid.
    destruct user as [u|]; [| discriminate]. exists u.
    repeat split; auto.
    destruct (String.eqb_spec (principal_role u) "superadmin") as [E2|E2];
      [now left|].
    destruct (String.eqb_spec (principal_role u) "school_admin") as [E1|E1];
      [| discriminate].
    right. split; [exact E1|].
    destruct (principal_schoolId u) as [x|]; [| discriminate].
    cbn in H. destruct (String.eqb_spec x sid); [congruence | discriminate].
  - intros (sid & u & -> & Hs & -> & Hr).
    assert (Ht : truthy_str (Some sid) = true).
    { unfold truthy_str. apply negb_true_iff. now apply String.eqb_neq. }
    rewrite Ht. cbn [negb].
    destruct Hr as [->|[-> ->]]; [reflexivity|].
    cbn. now rewrite String.eqb_refl.
  - destruct (negb _); [now right|].
    destruct user as [u|]; [| now right].
    destruct (String.eqb _ "superadmin"); [now left|].
    destruct (_ && _); [now left | now right].
Qed.

(** ** Locking an account *)

Lemma failed_logins_invariant (times : list Z) (u : LoginState) :
  accountLocked u = (5 <=? failedLoginAttempts u) ->
  let u' := fold_left handleFailedLogin times u in
  failedLoginAttempts u' = failedLoginAttempts u + Z.of_nat (List.length times)
  /\ accountLocked u' = (5 <=? failedLoginAttempts u').
Proof.
  revert u. induction times as [|t times IH]; intros u Hu; cbn zeta.
  - simpl. split; [lia | exact Hu].
  - cbn [fold_left].
    assert (Hstep : accountLocked (handleFailedLogin u t)
                    = (5 <=? failedLoginAttempts (handleFailedLogin u t))
                    /\ failedLoginAttempts (handleFailedLogin u t)
                       = failedLoginAttempts u + 1).
    { unfold handleFailedLogin. rewrite Z.geb_leb.
      destruct (5 <=? failedLoginAttempts u + 1) eqn:E; cbn.
      - now rewrite E.
      - rewrite E, Hu. split; [| reflexivity].
        apply Z.leb_gt in E. apply Z.leb_gt. lia. }
    destruct Hstep as [H1 H2].
    destruct (IH _ H1) as [H3 H4]. split; [| exact H4].
    rewrite H3, H2. cbn [List.length]. lia.
Qed.


(** ** On the stores of the scenarios *)

Lemma transferStudent_inactive_target_witness :
  map School.status (schools store_two_schools) = ["active"; "inactive"]
  /\ exists e,
       StudentManager.transferStudent 1005 ada schoolA schoolB "family moved away"
         store_two_schools = (inl e, store_two_schools)
       /\ error_code e = Some "DATABASE_ERROR".
Proof.
  split; [reflexivity|].
  apply (transferStudent_inactive_target 1005 ada schoolA schoolB
           "family moved away" store_two_schools).
  intros d Hin Hid. vm_compute in Hin.
  destruct Hin as [<-|[<-|[]]]; [vm_compute in Hid; discriminate Hid|].
  vm_compute. discriminate.
Defined.


Lemma deleteSchool_skips_string_schoolIds_witness :
  map Student.status (students (exec (SchoolManager.deleteSchool 1010 schoolA)
                                  store_populated))
  = map Student.status (students store_populated)
  /\ classrooms (exec (SchoolManager.deleteSchool 1010 schoolA) store_populated)
     = classrooms store_populated.
Proof.
  destruct (SchoolManager.deleteSchool 1010 schoolA store_populated)
    as [r s'] eqn:H.
  assert (Hs : forall d, In d (students store_populated) ->
                         exists x, Student.schoolId d = IdStr x).
  { intros d Hin. vm_compute in Hin.
    repeat (destruct Hin as [<-|Hin]; [eexists; reflexivity|]). contradiction. }
  assert (Hc : forall c, In c (classrooms store_populated) ->
                         exists x, Classroom.schoolId c = IdStr x).
  { intros c Hin. vm_compute in Hin.
    repeat (destruct Hin as [<-|Hin]; [eexists; reflexivity|]). contradiction. }
  destruct (deleteSchool_skips_string_schoolIds 1010 schoolA store_populated s' r
              Hs Hc H) as (H1 & H2 & _).
  unfold exec. rewrite H. cbn [snd]. rewrite H1, H2. split; reflexivity.
Defined.
